(** * The Linux helper of CHIPSEC: control calls and UEFI variables

    A shallow embedding of [chipsec/helper/linux/linuxhelper.py]: the
    control-code base, the word-tuple register operations, physical
    memory writes and the UEFI variable protocol (GET, SET, DELETE, LIST).

    Python integers are [Z].  A [bytes] object or an [array.array("B")]
    is a [list byte].  A [str] is a list of characters whose code points
    are below 256.  The helper object, the position of its device handle
    and the history of what it did to the outside world are threaded
    through a state-and-exception monad. *)

From Stdlib Require Import ZArith Bool Ascii String List Lia.
From Stdlib.Strings Require Import Byte.
Import ListNotations.
Open Scope Z_scope.

(** ** Python values *)

Definition pystr := list ascii.
Definition bytes := list byte.

Definition str (s : string) : pystr := list_ascii_of_string s.

Definition len {A : Type} (l : list A) : Z := Z.of_nat (length l).

(** A value that the source leaves dynamically typed: [None], a [str]
    or a [bytes] object. *)
Inductive pyvalue :=
| VNone
| VStr (s : pystr)
| VBytes (b : bytes).

(** Python truthiness: [None] and the empty sequences are false. *)
Definition truthy (v : pyvalue) : bool :=
  match v with
  | VNone => false
  | VStr [] => false
  | VStr (_ :: _) => true
  | VBytes [] => false
  | VBytes (_ :: _) => true
  end.

Definition pylen (v : pyvalue) : Z :=
  match v with
  | VNone => 0
  | VStr s => len s
  | VBytes b => len b
  end.

(** The exceptions the modelled code can raise or catch.  All of them
    derive from [Exception]; [IOError] is [OSError]. *)
Inductive exn :=
| IOError
| StructError
| ValueError
| UnboundLocalError
| AttributeError
| TypeError
| IndexError
| OsHelperError (errno : Z).

Inductive res (A : Type) :=
| Ok (a : A)
| Raise (e : exn).
Arguments Ok {A} a.
Arguments Raise {A} e.

Definition ENXIO : Z := 6.

Definition rbind {A B : Type} (r : res A) (k : A -> res B) : res B :=
  match r with
  | Ok a => k a
  | Raise e => Raise e
  end.

Notation "x <~ r ;; k" := (rbind r (fun x => k))
  (at level 61, r at next level, right associativity).

(** [t[i]] for a non-negative constant index. *)
Definition item {A : Type} (t : list A) (i : nat) : res A :=
  match nth_error t i with
  | Some a => Ok a
  | None => Raise IndexError
  end.

(** ** Slicing *)

(** [s[i:j]] with Python's treatment of negative and out-of-range
    bounds; [None] is an omitted bound. *)
Definition norm_index (n : Z) (i : Z) : Z :=
  if i <? 0 then Z.max 0 (n + i) else Z.min n i.

Definition slice {A : Type} (s : list A) (lo hi : option Z) : list A :=
  let n := len s in
  let a := match lo with None => 0 | Some i => norm_index n i end in
  let b := match hi with None => n | Some j => norm_index n j end in
  firstn (Z.to_nat (b - a)) (skipn (Z.to_nat a) s).

(** ** The [struct] module, native little-endian layout *)

Definition byte_of_Z (z : Z) : byte :=
  match Byte.of_N (Z.to_N (z mod 256)) with
  | Some b => b
  | None => x00
  end.

Definition Z_of_byte (b : byte) : Z := Z.of_N (Byte.to_N b).

Fixpoint le_encode (w : nat) (v : Z) : bytes :=
  match w with
  | O => []
  | S w' => byte_of_Z v :: le_encode w' (v / 256)
  end.

Fixpoint le_decode (bs : bytes) : Z :=
  match bs with
  | [] => 0
  | b :: r => Z_of_byte b + 256 * le_decode r
  end.

(** The two word formats of [self._pack]. *)
Inductive packchar := PackQ | PackI.

Definition calcsize (p : packchar) : Z :=
  match p with PackQ => 8 | PackI => 4 end.

Definition wbytes (p : packchar) : nat := Z.to_nat (calcsize p).

Definition in_range (w : nat) (v : Z) : bool :=
  (0 <=? v) && (v <? 2 ^ (8 * Z.of_nat w)).

(** [struct.pack(str(n) + c, *args)] for an unsigned format [c] of
    [w] bytes. *)
Definition pack_words (w : nat) (n : nat) (args : list Z) : res bytes :=
  if negb (Nat.eqb (length args) n) then Raise StructError
  else if forallb (in_range w) args then Ok (flat_map (le_encode w) args)
  else Raise StructError.

Fixpoint chunks (w : nat) (n : nat) (buf : bytes) : list bytes :=
  match n with
  | O => []
  | S n' => firstn w buf :: chunks w n' (skipn w buf)
  end.

(** [struct.unpack(str(n) + c, buf)]: the buffer must have exactly the
    size of the format. *)
Definition unpack_words (w : nat) (n : nat) (buf : bytes) : res (list Z) :=
  if Nat.eqb (length buf) (n * w) then Ok (map le_decode (chunks w n buf))
  else Raise StructError.

Definition struct_pack (p : packchar) (n : nat) (args : list Z) : res bytes :=
  pack_words (wbytes p) n args.

Definition struct_unpack (p : packchar) (n : nat) (buf : bytes) : res (list Z) :=
  unpack_words (wbytes p) n buf.

(** A field [str(k) + 's']: the argument must be a [bytes] object; it is
    cut or padded with zero bytes to [k] bytes. *)
Definition pack_s (k : Z) (v : pyvalue) : res bytes :=
  match v with
  | VBytes b =>
      let k' := Z.to_nat k in
      Ok (firstn k' b ++ repeat x00 (k' - length b))
  | _ => Raise StructError
  end.

(** [s.encode()]: UTF-8 of code points below 256. *)
Definition encode_char (c : ascii) : bytes :=
  let n := Z.of_N (N_of_ascii c) in
  if n <? 128 then [byte_of_Z n]
  else [byte_of_Z (Z.lor 192 (Z.shiftr n 6)); byte_of_Z (Z.lor 128 (Z.land n 63))].

Definition encode (s : pystr) : bytes := flat_map encode_char s.

(** ** [int(s, 16)] *)

(** The value of a digit in base 16, from its code point: [0-9],
    [a-f], [A-F]. *)
Definition hexdigit (c : ascii) : option Z :=
  let n := Z.of_N (N_of_ascii c) in
  if (48 <=? n) && (n <=? 57) then Some (n - 48)
  else if (97 <=? n) && (n <=? 102) then Some (n - 87)
  else if (65 <=? n) && (n <=? 70) then Some (n - 55)
  else None.

(** The characters that [int] strips at both ends: the ASCII white
    space, and the two spaces of the range 128..255. *)
Definition is_space (c : ascii) : bool :=
  let n := N_of_ascii c in
  (((9 <=? n) && (n <=? 13)) || (n =? 32) || (n =? 133) || (n =? 160))%N.

Fixpoint lstrip (s : pystr) : pystr :=
  match s with
  | c :: r => if is_space c then lstrip r else s
  | [] => []
  end.

Inductive prevch := PStart | PUnderscore | PDigit.

(** The digit loop: hexadecimal digits with single underscores between
    them.  It answers the value, the number of digits, the kind of the
    last character read and what is left; [None] is a doubled
    underscore. *)
Fixpoint scan_digits (s : pystr) (prev : prevch) (acc : Z) (nd : nat)
  : option (Z * nat * prevch * pystr) :=
  match s with
  | [] => Some (acc, nd, prev, [])
  | c :: r =>
      if Ascii.eqb c "_" then
        match prev with
        | PUnderscore => None
        | _ => scan_digits r PUnderscore acc nd
        end
      else
        match hexdigit c with
        | Some d => scan_digits r PDigit (16 * acc + d) (S nd)
        | None => Some (acc, nd, prev, s)
        end
  end.

Definition strip_sign (s : pystr) : Z * pystr :=
  match s with
  | c :: r =>
      if Ascii.eqb c "+" then (1, r)
      else if Ascii.eqb c "-" then (-1, r)
      else (1, s)
  | [] => (1, s)
  end.

(** The prefix [0x] or [0X], and one underscore after it. *)
Definition strip_prefix (s : pystr) : pystr :=
  match s with
  | c1 :: c2 :: r =>
      if Ascii.eqb c1 "0" && (Ascii.eqb c2 "x" || Ascii.eqb c2 "X") then
        match r with
        | c3 :: r' => if Ascii.eqb c3 "_" then r' else r
        | [] => r
        end
      else s
  | _ => s
  end.

Definition starts_with_underscore (s : pystr) : bool :=
  match s with
  | c :: _ => Ascii.eqb c "_"
  | [] => false
  end.

(** [int(s, 16)]: optional white space, sign and [0x] prefix, then at
    least one digit; anything else is a [ValueError]. *)
Definition int16 (s : pystr) : res Z :=
  let (sign, s1) := strip_sign (lstrip s) in
  let s2 := strip_prefix s1 in
  if starts_with_underscore s2 then Raise ValueError
  else
    match scan_digits s2 PStart 0 O with
    | Some (v, S _, PDigit, rest) =>
        match lstrip rest with
        | [] => Ok (sign * v)
        | _ :: _ => Raise ValueError
        end
    | _ => Raise ValueError
    end.

(** ** Opcodes *)

Definition IOCTL_BASE : Z := 0x0.
Definition IOCTL_RDIO : Z := 0x1.
Definition IOCTL_WRIO : Z := 0x2.
Definition IOCTL_RDPCI : Z := 0x3.
Definition IOCTL_WRPCI : Z := 0x4.
Definition IOCTL_RDMSR : Z := 0x5.
Definition IOCTL_WRMSR : Z := 0x6.
Definition IOCTL_CPUID : Z := 0x7.
Definition IOCTL_GET_CPU_DESCRIPTOR_TABLE : Z := 0x8.
Definition IOCTL_HYPERCALL : Z := 0x9.
Definition IOCTL_SWSMI : Z := 0xA.
Definition IOCTL_LOAD_UCODE_PATCH : Z := 0xB.
Definition IOCTL_ALLOC_PHYSMEM : Z := 0xC.
Definition IOCTL_GET_EFIVAR : Z := 0xD.
Definition IOCTL_SET_EFIVAR : Z := 0xE.
Definition IOCTL_RDCR : Z := 0x10.
Definition IOCTL_WRCR : Z := 0x11.
Definition IOCTL_RDMMIO : Z := 0x12.
Definition IOCTL_WRMMIO : Z := 0x13.
Definition IOCTL_VA2PA : Z := 0x14.
Definition IOCTL_MSGBUS_SEND_MESSAGE : Z := 0x15.
Definition IOCTL_FREE_PHYSMEM : Z := 0x16.

Definition opcodes : list Z :=
  [IOCTL_BASE; IOCTL_RDIO; IOCTL_WRIO; IOCTL_RDPCI; IOCTL_WRPCI; IOCTL_RDMSR;
   IOCTL_WRMSR; IOCTL_CPUID; IOCTL_GET_CPU_DESCRIPTOR_TABLE; IOCTL_HYPERCALL;
   IOCTL_SWSMI; IOCTL_LOAD_UCODE_PATCH; IOCTL_ALLOC_PHYSMEM; IOCTL_GET_EFIVAR;
   IOCTL_SET_EFIVAR; IOCTL_RDCR; IOCTL_WRCR; IOCTL_RDMMIO; IOCTL_WRMMIO;
   IOCTL_VA2PA; IOCTL_MSGBUS_SEND_MESSAGE; IOCTL_FREE_PHYSMEM].

(** ** The outside world *)

(** What the driver does on one control call: the call fails with an
    OS error, or the driver writes bytes over the front of the buffer
    it was given. *)
Inductive ioctl_reply :=
| IoFail
| IoData (b : bytes).

Inductive open_result :=
| OpenOk
| OpenIOError (errno : Z)
| OpenOtherError.

(** The debug and informational messages of the modelled functions,
    with the values they are formatted from. *)
Inductive logmsg :=
| MsgLicense
| MsgIOError
| MsgIoctlGetUEFIvar
| MsgProperSize (size : Z) (out_buf : bytes)
| MsgIncorrectSize
| MsgGetFailed (name : string) (status : Z)
| MsgSetFailed (name : string) (status : Z)
| MsgListFailed.

(** Everything the helper does to its environment, oldest first. *)
Inductive event :=
| EvOpen (r : open_result)
| EvIoctl (code : Z) (req : bytes) (reply : ioctl_reply)
| EvSetAffinity (thread_id : Z) (ok : bool)
| EvSeek (addr : Z)
| EvRead (sz : Z)
| EvWrite (data : bytes)
| EvFlush
| EvLog (m : logmsg)
| EvSystem (cmd : string).

(** The environment answers as a function of the history so far. *)
Record Env := {
  sys_maxsize : Z;
  os_open : list event -> open_result;
  drv_ioctl : list event -> Z -> bytes -> ioctl_reply;
  os_sched_setaffinity : list event -> Z -> bool;
  fh_seek : list event -> Z -> res unit;
  fh_read : list event -> Z -> res bytes;
  fh_write : list event -> bytes -> res Z;
  fh_flush : list event -> res unit;
  os_isdir : string -> bool;
  os_listdir : string -> res (list pystr)
}.

(** The attributes of the helper object that the modelled methods use.
    [None] in [_pack] and [_ioctl_base] is an attribute that was never
    set; [dev_fh] is [None] or the open handle, kept as its position. *)
Record helper := {
  dev_fh : option Z;
  _pack : option packchar;
  _ioctl_base : option Z;
  driver_loaded : option bool
}.

Record world := {
  self : helper;
  trace : list event
}.

Definition new_helper : helper :=
  {| dev_fh := None; _pack := None; _ioctl_base := None; driver_loaded := None |}.

(** ** The monad *)

Definition M (A : Type) : Type := world -> res A * world.

Definition ret {A : Type} (a : A) : M A := fun w => (Ok a, w).

Definition raise {A : Type} (e : exn) : M A := fun w => (Raise e, w).

Definition bind {A B : Type} (m : M A) (k : A -> M B) : M B :=
  fun w =>
    match m w with
    | (Ok a, w') => k a w'
    | (Raise e, w') => (Raise e, w')
    end.

Notation "x <- m ;; k" := (bind m (fun x => k))
  (at level 61, m at next level, right associativity).
Notation "m ;;; k" := (bind m (fun _ => k))
  (at level 61, right associativity).

Definition lift {A : Type} (r : res A) : M A := fun w => (r, w).

(** [try: m except C: h], where [catches e] tells whether [e] is an
    instance of [C]. *)
Definition try_except {A : Type} (m : M A) (catches : exn -> bool) (h : M A) : M A :=
  fun w =>
    match m w with
    | (Ok a, w') => (Ok a, w')
    | (Raise e, w') => if catches e then h w' else (Raise e, w')
    end.

Definition is_IOError (e : exn) : bool :=
  match e with IOError => true | _ => false end.

Definition is_Exception (e : exn) : bool := true.

Definition emit (e : event) : M unit :=
  fun w => (Ok tt, {| self := self w; trace := trace w ++ [e] |}).

Definition log_debug (m : logmsg) : M unit := emit (EvLog m).

Definition get_self : M helper := fun w => (Ok (self w), w).

Definition put_self (h : helper) : M unit :=
  fun w => (Ok tt, {| self := h; trace := trace w |}).

Definition get_trace : M (list event) := fun w => (Ok (trace w), w).

(** Reading an attribute that may not have been set. *)
Definition attr {A : Type} (f : helper -> option A) : M A :=
  fun w =>
    match f (self w) with
    | Some a => (Ok a, w)
    | None => (Raise AttributeError, w)
    end.

Section Helper.

Variable E : Env.

(** ** Session set-up and the control call *)

(** [compute_ioctlbase(self, itype='C')] *)
Definition compute_ioctlbase (itype : ascii) : M Z :=
  p <- attr _pack ;;
  ret (Z.lor (Z.lor (Z.shiftl 3 30) (Z.shiftl (Z.of_N (N_of_ascii itype)) 8))
             (Z.shiftl (calcsize p) 16)).

(** [init(self, start_driver)] *)
Definition init (start_driver : bool) : M unit :=
  let x64 := 2 ^ 32 <? sys_maxsize E in
  h <- get_self ;;
  put_self {| dev_fh := dev_fh h;
              _pack := Some (if x64 then PackQ else PackI);
              _ioctl_base := _ioctl_base h;
              driver_loaded := driver_loaded h |} ;;;
  if start_driver then
    emit (EvLog MsgLicense) ;;;
    t <- get_trace ;;
    let r := os_open E t in
    emit (EvOpen r) ;;;
    match r with
    | OpenOk =>
        h <- get_self ;;
        put_self {| dev_fh := Some 0;
                    _pack := _pack h;
                    _ioctl_base := _ioctl_base h;
                    driver_loaded := Some true |}
    | OpenIOError errno => raise (OsHelperError errno)
    | OpenOtherError => raise (OsHelperError ENXIO)
    end ;;;
    b <- compute_ioctlbase "C"%char ;;
    h <- get_self ;;
    put_self {| dev_fh := dev_fh h;
                _pack := _pack h;
                _ioctl_base := Some b;
                driver_loaded := driver_loaded h |}
  else ret tt.

(** The argument of a control call: an immutable [bytes] object, whose
    answer is a new object, or an [array.array], which the driver
    overwrites in place. *)
Inductive ioarg :=
| Immutable (b : bytes)
| Mutable (b : bytes).

Definition ioarg_bytes (a : ioarg) : bytes :=
  match a with Immutable b => b | Mutable b => b end.

(** The driver writes over the front of a buffer whose length is fixed. *)
Definition overwrite (buf resp : bytes) : bytes :=
  firstn (length buf) (resp ++ skipn (length resp) buf).

(** The buffer of [fcntl.ioctl]: an immutable argument is copied into
    it, and a longer one is refused. *)
Definition IOCTL_BUFSZ : Z := 1024.

Definition oversized (a : ioarg) : bool :=
  match a with
  | Immutable b => IOCTL_BUFSZ <? len b
  | Mutable _ => false
  end.

(** [ioctl(self, nr, args)]: one call
    [fcntl.ioctl(self.dev_fh, self._ioctl_base + nr, args)].  An
    immutable argument of more than 1024 bytes is refused with
    [ValueError] before the driver is called.  The driver writes over
    the front of the buffer it is given, so what comes back has the
    length of the argument: it is the result for an immutable argument
    and the contents of the array after the call for a mutable one. *)
Definition ioctl (nr : Z) (args : ioarg) : M bytes :=
  base <- attr _ioctl_base ;;
  h <- get_self ;;
  match dev_fh h with
  | None => raise TypeError
  | Some _ =>
      if oversized args then raise ValueError
      else
        t <- get_trace ;;
        let code := base + nr in
        let r := drv_ioctl E t code (ioarg_bytes args) in
        emit (EvIoctl code (ioarg_bytes args) r) ;;;
        match r with
        | IoFail => raise IOError
        | IoData d => ret (overwrite (ioarg_bytes args) d)
        end
  end.

(** ** Affinity *)

(** [set_affinity(self, thread_id)]: the answer of
    [os.sched_setaffinity] is swallowed; a failure gives [None]. *)
Definition set_affinity (thread_id : Z) : M (option Z) :=
  t <- get_trace ;;
  let ok := os_sched_setaffinity E t thread_id in
  emit (EvSetAffinity thread_id ok) ;;;
  ret (if ok then Some thread_id else None).

(** ** Physical memory through the device handle *)

Inductive memret :=
| MemBytes (b : bytes)
| MemInt (z : Z).

Definition set_pos (pos : Z) : M unit :=
  h <- get_self ;;
  put_self {| dev_fh := Some pos;
              _pack := _pack h;
              _ioctl_base := _ioctl_base h;
              driver_loaded := driver_loaded h |}.

(** A method call on [self.dev_fh]: [None] has no such attribute. *)
Definition the_handle : M Z := attr dev_fh.

Definition dev_seek (addr : Z) : M unit :=
  the_handle ;;;
  t <- get_trace ;;
  emit (EvSeek addr) ;;;
  lift (fh_seek E t addr) ;;;
  set_pos addr.

Definition dev_read (sz : Z) : M bytes :=
  pos <- the_handle ;;
  t <- get_trace ;;
  emit (EvRead sz) ;;;
  data <- lift (fh_read E t sz) ;;
  set_pos (pos + len data) ;;;
  ret data.

Definition dev_write (data : bytes) : M Z :=
  pos <- the_handle ;;
  t <- get_trace ;;
  emit (EvWrite data) ;;;
  n <- lift (fh_write E t data) ;;
  set_pos (pos + n) ;;;
  ret n.

Definition dev_flush : M unit :=
  the_handle ;;;
  t <- get_trace ;;
  emit EvFlush ;;;
  lift (fh_flush E t).

(** [__mem_block(self, sz, newval=None)] *)
Definition mem_block (sz : Z) (newval : option bytes) : M memret :=
  match newval with
  | None => b <- dev_read sz ;; ret (MemBytes b)
  | Some v => dev_write v ;;; dev_flush ;;; ret (MemInt 1)
  end.

(** [write_phys_mem(self, phys_address_hi, phys_address_lo, length, newval)] *)
Definition write_phys_mem (phys_address_hi phys_address_lo length : Z)
    (newval : option bytes) : M (option memret) :=
  match newval with
  | None => ret None
  | Some _ =>
      let addr := Z.lor (Z.shiftl phys_address_hi 32) phys_address_lo in
      dev_seek addr ;;;
      r <- mem_block length newval ;;
      ret (Some r)
  end.

(** [read_phys_mem(self, phys_address_hi, phys_address_lo, length)] *)
Definition read_phys_mem (phys_address_hi phys_address_lo length : Z) : M memret :=
  let addr := Z.lor (Z.shiftl phys_address_hi 32) phys_address_lo in
  dev_seek addr ;;;
  mem_block length None.

(** ** PCI, I/O ports and MMIO *)

Definition _PCI_DOM : Z := 0.

(** [read_pci_reg(self, bus, device, function, offset, size=4)] *)
Definition read_pci_reg (bus device function offset size : Z) : M (option Z) :=
  p <- attr _pack ;;
  d <- lift (struct_pack p 5 [Z.lor (Z.shiftl _PCI_DOM 16) bus;
                              Z.lor (Z.shiftl device 16) function;
                              offset; size; 0]) ;;
  r <- try_except
         (ret_ <- ioctl IOCTL_RDPCI (Immutable d) ;; ret (Some ret_))
         is_IOError
         (log_debug MsgIOError ;;; ret None) ;;
  match r with
  | None => ret None
  | Some ret_ =>
      x <- lift (struct_unpack p 5 ret_) ;;
      v <- lift (item x 4) ;;
      ret (Some v)
  end.

(** [write_pci_reg(self, bus, device, function, offset, value, size=4)] *)
Definition write_pci_reg (bus device function offset value size : Z) : M (option Z) :=
  p <- attr _pack ;;
  d <- lift (struct_pack p 5 [Z.lor (Z.shiftl _PCI_DOM 16) bus;
                              Z.lor (Z.shiftl device 16) function;
                              offset; size; value]) ;;
  r <- try_except
         (ret_ <- ioctl IOCTL_WRPCI (Immutable d) ;; ret (Some ret_))
         is_IOError
         (log_debug MsgIOError ;;; ret None) ;;
  match r with
  | None => ret None
  | Some ret_ =>
      x <- lift (struct_unpack p 5 ret_) ;;
      v <- lift (item x 4) ;;
      ret (Some v)
  end.

(** [read_io_port(self, io_port, size)].  The local [value] is bound
    only when the [try] body completes. *)
Definition read_io_port (io_port size : Z) : M Z :=
  p <- attr _pack ;;
  in_buf <- lift (struct_pack p 3 [io_port; size; 0]) ;;
  out_buf <- ioctl IOCTL_RDIO (Immutable in_buf) ;;
  value <- try_except
    (if 1 =? size then
       x <- lift (struct_unpack p 3 out_buf) ;;
       w <- lift (item x 2) ;;
       ret (Some (Z.land w 0xff))
     else if 2 =? size then
       x <- lift (struct_unpack p 3 out_buf) ;;
       w <- lift (item x 2) ;;
       ret (Some (Z.land w 0xffff))
     else
       x <- lift (struct_unpack p 3 out_buf) ;;
       w <- lift (item x 2) ;;
       ret (Some (Z.land w 0xffffffff)))
    is_Exception
    (log_debug (MsgProperSize size out_buf) ;;; ret None) ;;
  match value with
  | Some v => ret v
  | None => raise UnboundLocalError
  end.

(** [write_io_port(self, io_port, value, size)] *)
Definition write_io_port (io_port value size : Z) : M bytes :=
  p <- attr _pack ;;
  in_buf <- lift (struct_pack p 3 [io_port; size; value]) ;;
  ioctl IOCTL_WRIO (Immutable in_buf).

(** [defines.unpack1] lives outside this file of the repository; the
    MMIO read is modelled over any pure function in its place. *)
Variable unpack1 : bytes -> Z -> res Z.

(** [read_mmio_reg(self, bar_base, size, offset=0, bar_size=None)] *)
Definition read_mmio_reg (bar_base size offset : Z) : M Z :=
  let phys_address := bar_base + offset in
  p <- attr _pack ;;
  in_buf <- lift (struct_pack p 2 [phys_address; size]) ;;
  out_buf <- ioctl IOCTL_RDMMIO (Immutable in_buf) ;;
  let reg := slice out_buf None (Some size) in
  lift (unpack1 reg size).

(** [write_mmio_reg(self, bar_base, size, value, offset=0, bar_size=None)] *)
Definition write_mmio_reg (bar_base size value offset : Z) : M unit :=
  let phys_address := bar_base + offset in
  p <- attr _pack ;;
  in_buf <- lift (struct_pack p 3 [phys_address; size; value]) ;;
  ioctl IOCTL_WRMMIO (Immutable in_buf) ;;;
  ret tt.

(** ** Per-core operations *)

(** [read_cr(self, cpu_thread_id, cr_number)] *)
Definition read_cr (cpu_thread_id cr_number : Z) : M Z :=
  set_affinity cpu_thread_id ;;;
  let cr := 0 in
  p <- attr _pack ;;
  in_buf <- lift (struct_pack p 3 [cpu_thread_id; cr_number; cr]) ;;
  out <- ioctl IOCTL_RDCR (Immutable in_buf) ;;
  unbuf <- lift (struct_unpack p 3 out) ;;
  lift (item unbuf 2).

(** [write_cr(self, cpu_thread_id, cr_number, value)] *)
Definition write_cr (cpu_thread_id cr_number value : Z) : M unit :=
  set_affinity cpu_thread_id ;;;
  p <- attr _pack ;;
  in_buf <- lift (struct_pack p 3 [cpu_thread_id; cr_number; value]) ;;
  ioctl IOCTL_WRCR (Immutable in_buf) ;;;
  ret tt.

(** [read_msr(self, thread_id, msr_addr)] *)
Definition read_msr (thread_id msr_addr : Z) : M (Z * Z) :=
  set_affinity thread_id ;;;
  let edx := 0 in
  let eax := 0 in
  p <- attr _pack ;;
  in_buf <- lift (struct_pack p 4 [thread_id; msr_addr; edx; eax]) ;;
  out <- ioctl IOCTL_RDMSR (Immutable in_buf) ;;
  unbuf <- lift (struct_unpack p 4 out) ;;
  a <- lift (item unbuf 3) ;;
  d <- lift (item unbuf 2) ;;
  ret (a, d).

(** [write_msr(self, thread_id, msr_addr, eax, edx)] *)
Definition write_msr (thread_id msr_addr eax edx : Z) : M unit :=
  set_affinity thread_id ;;;
  p <- attr _pack ;;
  in_buf <- lift (struct_pack p 4 [thread_id; msr_addr; edx; eax]) ;;
  ioctl IOCTL_WRMSR (Immutable in_buf) ;;;
  ret tt.

(** [get_descriptor_table(self, cpu_thread_id, desc_table_code)] *)
Definition get_descriptor_table (cpu_thread_id desc_table_code : Z) : M (Z * Z * Z) :=
  set_affinity cpu_thread_id ;;;
  p <- attr _pack ;;
  in_buf <- lift (struct_pack p 5 [cpu_thread_id; desc_table_code; 0; 0; 0]) ;;
  out_buf <- ioctl IOCTL_GET_CPU_DESCRIPTOR_TABLE (Immutable in_buf) ;;
  t <- lift (struct_unpack p 5 out_buf) ;;
  match t with
  | [limit; base_hi; base_lo; pa_hi; pa_lo] =>
      let pa := Z.shiftl pa_hi 32 + pa_lo in
      let base := Z.shiftl base_hi 32 + base_lo in
      ret (limit, base, pa)
  | _ => raise ValueError
  end.

(** [send_sw_smi(self, cpu_thread_id, SMI_code_data, _rax, _rbx, _rcx,
    _rdx, _rsi, _rdi)] *)
Definition send_sw_smi (cpu_thread_id SMI_code_data _rax _rbx _rcx _rdx _rsi _rdi : Z)
  : M (list Z) :=
  set_affinity cpu_thread_id ;;;
  p <- attr _pack ;;
  in_buf <- lift (struct_pack p 7 [SMI_code_data; _rax; _rbx; _rcx; _rdx; _rsi; _rdi]) ;;
  out_buf <- ioctl IOCTL_SWSMI (Immutable in_buf) ;;
  lift (struct_unpack p 7 out_buf).

(** ** UEFI variables *)

Definition status_dict : list (Z * string) :=
  [(0, "EFI_SUCCESS"); (1, "EFI_LOAD_ERROR"); (2, "EFI_INVALID_PARAMETER");
   (3, "EFI_UNSUPPORTED"); (4, "EFI_BAD_BUFFER_SIZE"); (5, "EFI_BUFFER_TOO_SMALL");
   (6, "EFI_NOT_READY"); (7, "EFI_DEVICE_ERROR"); (8, "EFI_WRITE_PROTECTED");
   (9, "EFI_OUT_OF_RESOURCES"); (14, "EFI_NOT_FOUND"); (26, "EFI_SECURITY_VIOLATION")]%string.

(** [status_dict.get(status, 'UNKNOWN')] *)
Definition status_name (status : Z) : string :=
  match find (fun kv => fst kv =? status) status_dict with
  | Some kv => snd kv
  | None => "UNKNOWN"%string
  end.

(** The eleven assignments [guid0 = int(guid[:8], 16)] ...
    [guid10 = int(guid[34:], 16)], the same lines in GET and in SET. *)
Definition parse_guid (guid : pystr) : res (list Z) :=
  guid0 <~ int16 (slice guid None (Some 8)) ;;
  guid1 <~ int16 (slice guid (Some 9) (Some 13)) ;;
  guid2 <~ int16 (slice guid (Some 14) (Some 18)) ;;
  guid3 <~ int16 (slice guid (Some 19) (Some 21)) ;;
  guid4 <~ int16 (slice guid (Some 21) (Some 23)) ;;
  guid5 <~ int16 (slice guid (Some 24) (Some 26)) ;;
  guid6 <~ int16 (slice guid (Some 26) (Some 28)) ;;
  guid7 <~ int16 (slice guid (Some 28) (Some 30)) ;;
  guid8 <~ int16 (slice guid (Some 30) (Some 32)) ;;
  guid9 <~ int16 (slice guid (Some 32) (Some 34)) ;;
  guid10 <~ int16 (slice guid (Some 34) None) ;;
  Ok [guid0; guid1; guid2; guid3; guid4; guid5; guid6; guid7; guid8; guid9; guid10].

Inductive pyguid :=
| GuidStr (s : pystr)
| GuidInt (z : Z).

(** The tuple [(off, buf, hdr, data, guid, attr)]. *)
Record get_result := mk_get_result {
  r_off : Z;
  r_buf : list Z;
  r_hdr : Z;
  r_data : pyvalue;
  r_guid : pyguid;
  r_attr : Z
}.

(** [struct.pack('13I' + str(k) + 's', data_size, guid0, ..., guid10,
    namelen, name.encode())] *)
Definition pack_get (data_size : Z) (g : list Z) (namelen k : Z) (name : pystr)
  : res bytes :=
  ws <~ pack_words 4 13 (data_size :: g ++ [namelen]) ;;
  s <~ pack_s k (VBytes (encode name)) ;;
  Ok (ws ++ s).

(** [new_size, status = struct.unpack("2I", buffer[:8])] *)
Definition unpack_size_status (buffer : bytes) : res (Z * Z) :=
  t <~ unpack_words 4 2 (slice buffer None (Some 8)) ;;
  match t with
  | [new_size; status] => Ok (new_size, status)
  | _ => Raise ValueError
  end.

(** [kern_get_EFI_variable_full(self, name, guid)] *)
Definition kern_get_EFI_variable_full (name guid : pystr) : M get_result :=
  let off := 0 in
  let attr := 0 in
  let buf := [] in
  let hdr := 0 in
  let base := 12 in
  let namelen := len name in
  let header_size := 52 in
  let data_size := header_size + namelen in
  g <- lift (parse_guid guid) ;;
  in_buf <- lift (pack_get data_size g namelen namelen name) ;;
  buffer <- ioctl IOCTL_GET_EFIVAR (Mutable in_buf) ;;
  ns <- lift (unpack_size_status buffer) ;;
  let (new_size, status) := ns in
  r <- (if status =? 0x5 then
          let data_size := new_size + header_size + namelen in
          in_buf <- lift (pack_get data_size g namelen (namelen + new_size) name) ;;
          o <- try_except
                 (b <- ioctl IOCTL_GET_EFIVAR (Mutable in_buf) ;; ret (Some b))
                 is_IOError
                 (log_debug MsgIoctlGetUEFIvar ;;; ret None) ;;
          match o with
          | None => ret (inl (mk_get_result off buf hdr VNone (GuidStr guid) attr))
          | Some buffer =>
              ns <- lift (unpack_size_status buffer) ;;
              ret (inr (buffer, data_size, ns))
          end
        else ret (inr (buffer, data_size, ns))) ;;
  match r with
  | inl returned => ret returned
  | inr (buffer, data_size, (new_size, status)) =>
      if data_size <? new_size then
        log_debug MsgIncorrectSize ;;;
        ret (mk_get_result off buf hdr VNone (GuidStr guid) attr)
      else if 0 <? status then
        log_debug (MsgGetFailed (status_name status) status) ;;;
        ret (mk_get_result off buf hdr (VStr []) (GuidInt 0) 0)
      else
        let data := VBytes (slice buffer (Some base) (Some (base + new_size))) in
        a <- lift (unpack_words 4 1 (slice buffer (Some 8) (Some 12))) ;;
        attr <- lift (item a 0) ;;
        ret (mk_get_result off buf hdr data (GuidStr guid) attr)
  end.

(** [kern_get_EFI_variable(self, name, guid)] *)
Definition kern_get_EFI_variable (name guid : pystr) : M pyvalue :=
  r <- kern_get_EFI_variable_full name guid ;;
  ret (r_data r).

(** [get_EFI_variable(self, name, guid, attrs=None)] *)
Definition get_EFI_variable (name guid : pystr) (attrs : option Z) : M pyvalue :=
  kern_get_EFI_variable name guid.

(** The first lines of SET: [datalen] and the value that is packed.
    [struct.pack('B', 0x0)] is one zero byte. *)
Definition set_payload (value : pyvalue) : Z * pyvalue :=
  if truthy value then (pylen value, value)
  else (0, VBytes (le_encode 1 0x0)).

(** [struct.pack('15I' + str(namelen) + 's' + str(datalen) + 's',
    data_size, guid0, ..., guid10, attr, namelen, datalen,
    name.encode('utf-8'), value)] *)
Definition pack_set (data_size : Z) (g : list Z) (attr namelen datalen : Z)
    (name : pystr) (value : pyvalue) : res bytes :=
  ws <~ pack_words 4 15 (data_size :: g ++ [attr; namelen; datalen]) ;;
  s1 <~ pack_s namelen (VBytes (encode name)) ;;
  s2 <~ pack_s datalen value ;;
  Ok (ws ++ s1 ++ s2).

Definition remount_cmd : string :=
  "umount /sys/firmware/efi/efivars; mount -t efivarfs efivarfs /sys/firmware/efi/efivars".

(** [kern_set_EFI_variable(self, name, guid, value, attr=0x7)] *)
Definition kern_set_EFI_variable (name guid : pystr) (value : pyvalue) (attr : Z)
  : M Z :=
  let header_size := 60 in
  let namelen := len name in
  let (datalen, value) := set_payload value in
  let data_size := header_size + namelen + datalen in
  g <- lift (parse_guid guid) ;;
  in_buf <- lift (pack_set data_size g attr namelen datalen name value) ;;
  buffer <- ioctl IOCTL_SET_EFIVAR (Mutable in_buf) ;;
  ns <- lift (unpack_size_status buffer) ;;
  let (size, status) := ns in
  (if negb (status =? 0) then
     log_debug (MsgSetFailed (status_name status) status)
   else
     emit (EvSystem remount_cmd)) ;;;
  ret status.

(** [delete_EFI_variable(self, name, guid)] *)
Definition delete_EFI_variable (name guid : pystr) : M Z :=
  kern_set_EFI_variable name guid (VStr []) 0x7.

(** [set_EFI_variable(self, name, guid, data, datasize, attrs=None)] *)
Definition set_EFI_variable (name guid : pystr) (data : pyvalue) (datasize : Z)
    (attrs : option Z) : M Z :=
  kern_set_EFI_variable name guid data 0x7.

(** The dictionary [variables], in insertion order. *)
Definition dict := list (pystr * list get_result).

Definition pystr_eqb (a b : pystr) : bool :=
  if list_eq_dec ascii_dec a b then true else false.

(** [variables[name] = value] *)
Fixpoint dict_set (d : dict) (name : pystr) (value : list get_result) : dict :=
  match d with
  | [] => [(name, value)]
  | (k, v) :: r =>
      if pystr_eqb k name then (k, value) :: r else (k, v) :: dict_set r name value
  end.

Fixpoint dict_get (d : dict) (name : pystr) : option (list get_result) :=
  match d with
  | [] => None
  | (k, v) :: r => if pystr_eqb k name then Some v else dict_get r name
  end.

(** [variables[name].append(var)] *)
Definition dict_append (d : dict) (name : pystr) (var : get_result) : dict :=
  match dict_get d name with
  | Some l => dict_set d name (l ++ [var])
  | None => d
  end.

(** The two slices of the loop of LIST: [name = v[:-37]] and
    [guid = v[len(name) + 1:]]. *)
Definition entry_name (v : pystr) : pystr := slice v None (Some (-37)).

Definition entry_guid (v : pystr) : pystr :=
  slice v (Some (len (entry_name v) + 1)) None.

(** The loop [for v in varlist] of LIST. *)
Fixpoint list_loop (varlist : list pystr) (variables : dict) : M dict :=
  match varlist with
  | [] => ret variables
  | v :: rest =>
      let name := entry_name v in
      let guid := entry_guid v in
      if truthy (VStr name) then
        let variables := dict_set variables name [] in
        var <- kern_get_EFI_variable_full name guid ;;
        let variables := dict_append variables name var in
        list_loop rest variables
      else list_loop rest variables
  end.

(** [kern_list_EFI_variables(self)] *)
Definition kern_list_EFI_variables : M (option dict) :=
  r <- try_except
         (if os_isdir E "/sys/firmware/efi/efivars" then
            l <- lift (os_listdir E "/sys/firmware/efi/efivars") ;; ret (Some l)
          else if os_isdir E "/sys/firmware/efi/vars" then
            l <- lift (os_listdir E "/sys/firmware/efi/vars") ;; ret (Some l)
          else ret None)
         is_Exception
         (log_debug MsgListFailed ;;; ret None) ;;
  match r with
  | None => ret None
  | Some varlist =>
      variables <- list_loop varlist [] ;;
      ret (Some variables)
  end.

(** [list_EFI_variables(self)] *)
Definition list_EFI_variables : M (option dict) := kern_list_EFI_variables.

End Helper.

(** ** Reading a history *)

Definition ioctl_calls (t : list event) : list (Z * bytes * ioctl_reply) :=
  flat_map (fun e => match e with
                     | EvIoctl code req reply => [(code, req, reply)]
                     | _ => []
                     end) t.

Definition logged (t : list event) : list logmsg :=
  flat_map (fun e => match e with EvLog m => [m] | _ => [] end) t.

(** The first [w]-byte word of a request buffer. *)
Definition first_word (w : nat) (buf : bytes) : Z := le_decode (firstn w buf).

(** ** Concrete environments *)

(** A driver that answers its calls from a script, in order, and fails
    once the script is used up. *)
Definition scripted (replies : list ioctl_reply) (t : list event) (code : Z)
    (req : bytes) : ioctl_reply :=
  nth (length (ioctl_calls t)) replies IoFail.

Definition env_of (maxsize : Z) (replies : list ioctl_reply) : Env :=
  {| sys_maxsize := maxsize;
     os_open := fun _ => OpenOk;
     drv_ioctl := scripted replies;
     os_sched_setaffinity := fun _ _ => true;
     fh_seek := fun _ _ => Ok tt;
     fh_read := fun _ sz => Ok (repeat x00 (Z.to_nat sz));
     fh_write := fun _ data => Ok (len data);
     fh_flush := fun _ => Ok tt;
     os_isdir := fun _ => false;
     os_listdir := fun _ => Ok [] |}.

Definition maxsize64 : Z := 2 ^ 63 - 1.
Definition maxsize32 : Z := 2 ^ 31 - 1.

Definition world0 : world := {| self := new_helper; trace := [] |}.

(** The world after [init(True)] on a machine where the device opens. *)
Definition started (E : Env) : world := snd (init E true world0).

(** The answer of a 64-bit driver to a port read: the word 0x1234ABCD
    at index 2. *)
Definition io_reply64 : bytes :=
  le_encode 8 0x80 ++ le_encode 8 1 ++ le_encode 8 0x1234ABCD.

(** ** What the interface says of GUIDs and directory entries *)

Definition is_hexdigit (c : ascii) : bool :=
  match hexdigit c with Some _ => true | None => false end.

(** The value of a run of hexadecimal digits. *)
Definition hex_value (s : pystr) : Z :=
  fold_left (fun acc c => 16 * acc + match hexdigit c with Some d => d | None => 0 end)
            s 0.

(** The characters of [s] whose positions are not in [ps]. *)
Definition drop_positions (ps : list nat) (s : pystr) : pystr :=
  map snd (filter (fun ic => negb (existsb (Nat.eqb (fst ic)) ps))
                  (combine (seq 0 (length s)) s)).

Fixpoint split_widths (ws : list nat) (s : pystr) : list pystr :=
  match ws with
  | [] => []
  | n :: r => firstn n s :: split_widths r (skipn n s)
  end.

Definition dash_positions : list nat := [8; 13; 18; 23]%nat.
Definition field_widths : list nat := [8; 4; 4; 2; 2; 2; 2; 2; 2; 2; 2]%nat.

(** A canonical GUID string: 36 characters, dashes at 8, 13, 18 and
    23, hexadecimal digits elsewhere. *)
Definition canonical_guid (guid : pystr) : bool :=
  Nat.eqb (length guid) 36 &&
  forallb (fun i => match nth_error guid i with
                    | Some c => Ascii.eqb c "-"
                    | None => false
                    end) dash_positions &&
  forallb is_hexdigit (drop_positions dash_positions guid).

(** The eleven fields of a canonical GUID: its 32 digits, dashes
    skipped, cut into runs of 8, 4, 4, 2, ..., 2 digits. *)
Definition guid_fields (guid : pystr) : list Z :=
  map hex_value (split_widths field_widths (drop_positions dash_positions guid)).

(** Modelled from the spec: [defines.unpack1] is not under src/; the
    interface has the MMIO response as "raw bytes parsed as
    little-endian integer of size".  A buffer that does not hold [size]
    bytes has no such reading. *)
Definition unpack1_le (reg : bytes) (size : Z) : res Z :=
  if len reg =? size then Ok (le_decode reg) else Raise StructError.


(** The [data] component of what a GET returned, if it returned. *)
Definition r_data_of (r : res get_result) : option pyvalue :=
  match r with
  | Ok x => Some (r_data x)
  | Raise _ => None
  end.

(** A UEFI variable of the examples: [Boot] under the global GUID, its
    probe request, and driver answers "BufferTooSmall, 4 bytes" and
    "success, 4 bytes, attributes 7". *)
Definition efi_global : pystr := str "8be4df61-93ca-11d2-aa0d-00e098032b8c".

Definition boot_probe : bytes :=
  match pack_get 56 (guid_fields efi_global) 4 4 (str "Boot") with
  | Ok b => b
  | Raise _ => []
  end.

Definition boot_delete : bytes :=
  match pack_set 64 (guid_fields efi_global) 0x7 4 0 (str "Boot") (VBytes [x00]) with
  | Ok b => b
  | Raise _ => []
  end.

Definition too_small_4 : bytes := le_encode 4 4 ++ le_encode 4 5.


Definition oversized_100 : bytes := le_encode 4 100 ++ le_encode 4 0.

Definition success_4 : bytes :=
  le_encode 4 4 ++ le_encode 4 0 ++ le_encode 4 7 ++ [x01; x02; x03; x04].

(** The control-code base as the interface documents it:
    direction bits, type tag 'C', word width. *)
Definition control_code (width : Z) : Z :=
  Z.lor (Z.lor (Z.shiftl 3 30) (Z.shiftl (Z.of_N (N_of_ascii "C")) 8))
        (Z.shiftl width 16).

(** The word width of a process whose [sys.maxsize] is [maxsize]. *)
Definition word_width (maxsize : Z) : Z :=
  if 2 ^ 32 <? maxsize then 8 else 4.

(** ** More of the helper *)

(** The request code as the comment above [compute_ioctlbase] has it,
    from [asm-generic/ioctl.h]: [_IOC(dir, type, nr, size)] with the
    shifts 30, 8, 0 and 16. *)
Definition _IOC (dir type nr size : Z) : Z :=
  Z.lor (Z.lor (Z.lor (Z.shiftl dir 30) (Z.shiftl type 8)) (Z.shiftl nr 0))
        (Z.shiftl size 16).

Definition MSGBUS_MDR_IN_MASK : Z := 0x1.
Definition MSGBUS_MDR_OUT_MASK : Z := 0x2.

(** The debug lines of the functions below; they are handed back
    beside the result, in the order they are written. *)
Inductive logmsg_more :=
| MsgVa2paHigher (va pa : Z)
| MsgLoadPatchIOError.

(** [struct.pack('=BH', a, b)]: one byte and two bytes, unaligned. *)
Definition pack_BH (a b : Z) : res bytes :=
  if in_range 1 a && in_range 2 b then Ok (le_encode 1 a ++ le_encode 2 b)
  else Raise StructError.

(** [array.array("c", b)]: Python 3 has no typecode ["c"]. *)
Definition array_c (b : bytes) : res bytes := Raise ValueError.

Section HelperMore.

Variable E : Env.

(** [cpuid(self, eax, ecx)] *)
Definition cpuid (eax ecx : Z) : M (list Z) :=
  p <- attr _pack ;;
  in_buf <- lift (struct_pack p 4 [eax; 0; ecx; 0]) ;;
  out_buf <- ioctl E IOCTL_CPUID (Immutable in_buf) ;;
  lift (struct_unpack p 4 out_buf).

(** [va2pa(self, va)] *)
Definition va2pa (va : Z) : M (Z * Z * list logmsg_more) :=
  let error_code := 0 in
  p <- attr _pack ;;
  in_buf <- lift (struct_pack p 1 [va]) ;;
  out_buf <- ioctl E IOCTL_VA2PA (Immutable in_buf) ;;
  t <- lift (struct_unpack p 1 out_buf) ;;
  pa <- lift (item t 0) ;;
  c <- cpuid 0x80000008 0x0 ;;
  eax <- lift (item c 0) ;;
  let max_pa := Z.land eax 0xFF in
  if Z.shiftl 1 max_pa <? pa then ret (pa, 1, [MsgVa2paHigher va pa])
  else ret (pa, error_code, []).

(** [alloc_phys_mem(self, num_bytes, max_addr)] *)
Definition alloc_phys_mem (num_bytes max_addr : Z) : M (list Z) :=
  p <- attr _pack ;;
  in_buf <- lift (struct_pack p 2 [num_bytes; max_addr]) ;;
  out_buf <- ioctl E IOCTL_ALLOC_PHYSMEM (Immutable in_buf) ;;
  lift (struct_unpack p 2 out_buf).

(** [free_phys_mem(self, physmem)] *)
Definition free_phys_mem (physmem : Z) : M Z :=
  p <- attr _pack ;;
  in_buf <- lift (struct_pack p 1 [physmem]) ;;
  out_buf <- ioctl E IOCTL_FREE_PHYSMEM (Immutable in_buf) ;;
  t <- lift (struct_unpack p 1 out_buf) ;;
  lift (item t 0).

(** [msgbus_send_read_message(self, mcr, mcrx)] *)
Definition msgbus_send_read_message (mcr mcrx : Z) : M Z :=
  let mdr_out := 0 in
  p <- attr _pack ;;
  in_buf <- lift (struct_pack p 5 [MSGBUS_MDR_OUT_MASK; mcr; mcrx; 0; mdr_out]) ;;
  out_buf <- ioctl E IOCTL_MSGBUS_SEND_MESSAGE (Immutable in_buf) ;;
  t <- lift (struct_unpack p 5 out_buf) ;;
  lift (item t 4).

(** [msgbus_send_write_message(self, mcr, mcrx, mdr)] *)
Definition msgbus_send_write_message (mcr mcrx mdr : Z) : M unit :=
  p <- attr _pack ;;
  in_buf <- lift (struct_pack p 5 [MSGBUS_MDR_IN_MASK; mcr; mcrx; mdr; 0]) ;;
  ioctl E IOCTL_MSGBUS_SEND_MESSAGE (Immutable in_buf) ;;;
  ret tt.

(** [msgbus_send_message(self, mcr, mcrx, mdr=None)] *)
Definition msgbus_send_message (mcr mcrx : Z) (mdr : option Z) : M Z :=
  let mdr_out := 0 in
  p <- attr _pack ;;
  in_buf <- match mdr with
            | None =>
                lift (struct_pack p 5 [MSGBUS_MDR_OUT_MASK; mcr; mcrx; 0; mdr_out])
            | Some mdr =>
                lift (struct_pack p 5 [Z.lor MSGBUS_MDR_IN_MASK MSGBUS_MDR_OUT_MASK;
                                       mcr; mcrx; mdr; mdr_out])
            end ;;
  out_buf <- ioctl E IOCTL_MSGBUS_SEND_MESSAGE (Immutable in_buf) ;;
  t <- lift (struct_unpack p 5 out_buf) ;;
  lift (item t 4).

(** [hypercall(self, rcx, rdx, r8, r9, r10, r11, rax, rbx, rdi, rsi,
    xmm_buffer)]; the format ['<11' + self._pack] is the little-endian
    layout of eleven words. *)
Definition hypercall (rcx rdx r8 r9 r10 r11 rax rbx rdi rsi xmm_buffer : Z) : M Z :=
  p <- attr _pack ;;
  in_buf <- lift (struct_pack p 11 [rcx; rdx; r8; r9; r10; r11; rax; rbx; rdi; rsi;
                                    xmm_buffer]) ;;
  out_buf <- ioctl E IOCTL_HYPERCALL (Immutable in_buf) ;;
  t <- lift (struct_unpack p 11 out_buf) ;;
  lift (item t 0).

(** [load_ucode_update(self, cpu_thread_id, ucode_update_buf)] *)
Definition load_ucode_update (cpu_thread_id : Z) (ucode_update_buf : bytes)
  : M (option bool * list logmsg_more) :=
  hdr <- lift (pack_BH cpu_thread_id (len ucode_update_buf)) ;;
  let in_buf := hdr ++ ucode_update_buf in
  in_buf_final <- lift (array_c in_buf) ;;
  try_except
    (ioctl E IOCTL_LOAD_UCODE_PATCH (Mutable in_buf_final) ;;;
     ret (Some true, []))
    is_IOError
    (ret (None, [MsgLoadPatchIOError])).

End HelperMore.

(** An operation that ends in an exception other than [IOError]
    ([AttributeError] for a missing attribute, or the [struct.error]
    of its own packing) without any control call. *)
Definition unavailable {A : Type} (m : M A) (w : world) : Prop :=
  (fst (m w) = Raise AttributeError \/ fst (m w) = Raise StructError) /\
  ioctl_calls (trace (snd (m w))) = ioctl_calls (trace w).

(** A machine whose device node cannot be opened (errno 13). *)
Definition env_no_device : Env :=
  {| sys_maxsize := maxsize64;
     os_open := fun _ => OpenIOError 13;
     drv_ioctl := fun _ _ _ => IoFail;
     os_sched_setaffinity := fun _ _ => true;
     fh_seek := fun _ _ => Raise IOError;
     fh_read := fun _ _ => Raise IOError;
     fh_write := fun _ _ => Raise IOError;
     fh_flush := fun _ => Raise IOError;
     os_isdir := fun _ => false;
     os_listdir := fun _ => Raise IOError |}.

(** A driver that fails every control call. *)
Definition dead_driver (E : Env) : Prop :=
  forall t code req, drv_ioctl E t code req = IoFail.

(** The words [args] can be packed in the word format [p]. *)
Definition fits (p : packchar) (args : list Z) : Prop :=
  forallb (in_range (wbytes p)) args = true.

(** The buffer that [write_msr(0, 0x1B, eax=5, edx=7)] sends on a
    64-bit session. *)
Definition msr_written : bytes := flat_map (le_encode 8) [0; 0x1B; 7; 5].

(** A descriptor-table answer: limit 0xFFF, base 0xFFFFF800_12345000,
    physical address 0x1_2345_6000. *)
Definition idt_answer : bytes :=
  flat_map (le_encode 8) [0xFFF; 0xFFFFF800; 0x12345000; 0x1; 0x23456000].

(** Answers to [va2pa]: a physical address, then CPUID leaf
    0x80000008 with 36 physical address bits. *)
Definition cpuid_36_bits : bytes := flat_map (le_encode 8) [0x3024; 0; 0; 0].

(** Every request of a list of control calls has its own length, in
    bytes, in its first 32-bit word. *)
Definition size_word_ok (calls : list (Z * bytes * ioctl_reply)) : Prop :=
  Forall (fun c => first_word 4 (snd (fst c)) = len (snd (fst c))) calls.

(** A character outside ASCII: its code point is 128 or more. *)
Definition non_ascii (c : ascii) : bool := (128 <=? N_of_ascii c)%N.

(** A driver answer "not found": size 0, status 14. *)
Definition not_found : bytes := le_encode 4 0 ++ le_encode 4 14.

(** A name with a character outside ASCII: e-acute, then [a]. *)
Definition accented_name : pystr := [ascii_of_N 233; "a"%char].

(** The GET request for [accented_name] under the global GUID. *)
Definition accented_probe : bytes :=
  match pack_get (52 + len accented_name) (guid_fields efi_global)
                 (len accented_name) (len accented_name) accented_name with
  | Ok b => b
  | Raise _ => []
  end.

(** The directory that LIST reads: [efivars] if it is there, else
    [vars] if it is there. *)
Definition listed_dir (E : Env) : option string :=
  if os_isdir E "/sys/firmware/efi/efivars" then Some "/sys/firmware/efi/efivars"%string
  else if os_isdir E "/sys/firmware/efi/vars" then Some "/sys/firmware/efi/vars"%string
  else None.

(** A 64-bit machine with [efivars] holding [files]. *)
Definition env_listing (files : list pystr) (replies : list ioctl_reply) : Env :=
  {| sys_maxsize := maxsize64;
     os_open := fun _ => OpenOk;
     drv_ioctl := scripted replies;
     os_sched_setaffinity := fun _ _ => true;
     fh_seek := fun _ _ => Ok tt;
     fh_read := fun _ sz => Ok (repeat x00 (Z.to_nat sz));
     fh_write := fun _ data => Ok (len data);
     fh_flush := fun _ => Ok tt;
     os_isdir := fun p => String.eqb p "/sys/firmware/efi/efivars";
     os_listdir := fun _ => Ok files |}.

(** No key twice, no empty key, and one record under every key. *)
Definition one_record_each (d : dict) : Prop :=
  NoDup (map fst d) /\
  Forall (fun kv => fst kv <> [] /\ exists var, snd kv = [var]) d.

(** [self] with the handle at [pos]. *)
Definition at_pos (h : helper) (pos : Z) : helper :=
  {| dev_fh := Some pos;
     _pack := _pack h;
     _ioctl_base := _ioctl_base h;
     driver_loaded := driver_loaded h |}.

(** Two entries of [efivars] with the same name under two GUIDs. *)
Definition twice_boot : list pystr :=
  [str "Boot-8be4df61-93ca-11d2-aa0d-00e098032b8c";
   str "Boot-4a67b082-0a4c-41cf-b6c7-440b29bb8c4f"].

(** The dictionary of a [res (option dict)], empty if there is none. *)
Definition listed (r : res (option dict)) : dict :=
  match r with
  | Ok (Some d) => d
  | _ => []
  end.

(** A variable, then a file of [efivars] whose last 36 characters are
    no GUID. *)
Definition with_stray_file : list pystr :=
  [str "Boot-8be4df61-93ca-11d2-aa0d-00e098032b8c";
   str "a-file-that-is-no-variable-but-has-a-long-name"].

(** Every request of a list of control calls has the eleven words [g]
    after its size word. *)
Definition guid_words_ok (g : list Z) (calls : list (Z * bytes * ioctl_reply)) : Prop :=
  Forall (fun c => exists data_size,
              unpack_words 4 12 (firstn 48 (snd (fst c))) = Ok (data_size :: g)) calls.

(** * Properties *)

(** ** Running the monad *)

Ltac run :=
  cbv beta iota delta [bind ret raise lift emit log_debug get_self put_self
                       get_trace attr try_except the_handle set_pos] in *;
  cbn [self trace fst snd dev_fh _pack _ioctl_base driver_loaded] in *.

(** Closes [exists rest, trace _ = trace w ++ e :: rest] once the
    run is in normal form. *)
Ltac trace_tail :=
  cbn [snd trace]; rewrite <- ?app_assoc; cbn [app]; eexists; reflexivity.

(** ** Bytes and words *)

Lemma Z_of_byte_of_Z z : Z_of_byte (byte_of_Z z) = z mod 256.
Proof.
  unfold Z_of_byte, byte_of_Z.
  assert (Hr : 0 <= z mod 256 < 256) by (apply Z.mod_pos_bound; lia).
  destruct (Byte.of_N (Z.to_N (z mod 256))) as [b|] eqn:Hb.
  - apply Byte.to_of_N in Hb. rewrite Hb. lia.
  - apply Byte.of_N_None_iff in Hb. lia.
Qed.

Lemma le_encode_length w v : length (le_encode w v) = w.
Proof. revert v. induction w; intros v; cbn [le_encode length]; auto. Qed.

Lemma le_decode_encode w v :
  0 <= v < 2 ^ (8 * Z.of_nat w) -> le_decode (le_encode w v) = v.
Proof.
  revert v. induction w as [|w IH]; intros v Hv.
  - change (8 * Z.of_nat 0) with 0 in Hv. cbn [le_encode le_decode].
    change (2 ^ 0) with 1 in Hv. lia.
  - cbn [le_encode le_decode]. rewrite Z_of_byte_of_Z.
    assert (Hpow : 2 ^ (8 * Z.of_nat (S w)) = 256 * 2 ^ (8 * Z.of_nat w)).
    { replace (8 * Z.of_nat (S w)) with (8 + 8 * Z.of_nat w) by lia.
      rewrite Z.pow_add_r by lia. reflexivity. }
    rewrite IH.
    + pose proof (Z.div_mod v 256). lia.
    + split.
      * apply Z.div_pos; lia.
      * apply Z.div_lt_upper_bound; lia.
Qed.

Lemma in_range_spec w v :
  in_range w v = true <-> 0 <= v < 2 ^ (8 * Z.of_nat w).
Proof.
  unfold in_range. rewrite andb_true_iff, Z.leb_le, Z.ltb_lt. tauto.
Qed.

Lemma firstn_le_encode w v rest :
  firstn w (le_encode w v ++ rest) = le_encode w v.
Proof.
  rewrite firstn_app, le_encode_length, Nat.sub_diag.
  cbn [firstn]. rewrite app_nil_r.
  rewrite <- (le_encode_length w v) at 1. apply firstn_all.
Qed.

Lemma skipn_le_encode w v rest :
  skipn w (le_encode w v ++ rest) = rest.
Proof.
  rewrite skipn_app, le_encode_length, Nat.sub_diag.
  rewrite <- (le_encode_length w v) at 1. rewrite skipn_all. reflexivity.
Qed.

Lemma flat_map_le_encode_length w args :
  length (flat_map (le_encode w) args) = (length args * w)%nat.
Proof.
  induction args as [|a args IH]; cbn [flat_map length]; auto.
  rewrite length_app, le_encode_length, IH. lia.
Qed.

Lemma pack_words_ok w n args buf :
  pack_words w n args = Ok buf ->
  length args = n /\ forallb (in_range w) args = true /\
  buf = flat_map (le_encode w) args.
Proof.
  unfold pack_words.
  destruct (Nat.eqb (length args) n) eqn:Hn; cbn [negb]; [|discriminate].
  destruct (forallb (in_range w) args) eqn:Hr; [|discriminate].
  intros H; injection H as <-. apply Nat.eqb_eq in Hn. auto.
Qed.

Lemma pack_words_length w n args buf :
  pack_words w n args = Ok buf -> length buf = (n * w)%nat.
Proof.
  intros H. apply pack_words_ok in H as (Hn & _ & ->).
  rewrite flat_map_le_encode_length, Hn. reflexivity.
Qed.

Lemma chunks_flat_map w args :
  map le_decode (chunks w (length args) (flat_map (le_encode w) args)) =
  map (fun v => le_decode (le_encode w v)) args.
Proof.
  induction args as [|a args IH]; [reflexivity|].
  cbn [length chunks flat_map map].
  rewrite firstn_le_encode, skipn_le_encode, IH. reflexivity.
Qed.

Lemma chunks_app w n buf rest :
  length buf = (n * w)%nat -> chunks w n (buf ++ rest) = chunks w n buf.
Proof.
  revert buf. induction n as [|n IH]; intros buf Hl; [reflexivity|].
  cbn [chunks]. cbn [Nat.mul] in Hl.
  rewrite firstn_app, skipn_app.
  replace (w - length buf)%nat with 0%nat by lia.
  cbn [firstn skipn]. rewrite app_nil_r. f_equal.
  apply IH. rewrite length_skipn. lia.
Qed.

(** Unpacking what was packed gives the arguments back. *)
Lemma unpack_pack_words w n args buf :
  pack_words w n args = Ok buf -> unpack_words w n buf = Ok args.
Proof.
  intros H. pose proof (pack_words_length _ _ _ _ H) as Hl.
  apply pack_words_ok in H as (Hn & Hr & ->).
  unfold unpack_words. rewrite Hl, Nat.eqb_refl. f_equal.
  subst n. rewrite chunks_flat_map.
  rewrite <- (map_id args) at 2. apply map_ext_in.
  intros v Hv. apply le_decode_encode, in_range_spec.
  rewrite forallb_forall in Hr. auto.
Qed.

Lemma pack_words_first_word w n v rest buf :
  pack_words w n (v :: rest) = Ok buf -> first_word w buf = v.
Proof.
  intros H. apply pack_words_ok in H as (_ & Hr & ->).
  unfold first_word. cbn [flat_map]. rewrite firstn_le_encode.
  cbn [forallb] in Hr. apply andb_true_iff in Hr as [Hr _].
  apply le_decode_encode, in_range_spec, Hr.
Qed.

Lemma overwrite_length buf resp : length (overwrite buf resp) = length buf.
Proof.
  unfold overwrite. rewrite length_firstn, length_app, length_skipn. lia.
Qed.

Lemma overwrite_same_length buf resp :
  length resp = length buf -> overwrite buf resp = resp.
Proof.
  intros Hl. unfold overwrite. rewrite (skipn_all2 buf) by lia.
  rewrite app_nil_r, <- Hl. apply firstn_all.
Qed.

Lemma wbytes_le_8 p : (wbytes p <= 8)%nat.
Proof. destruct p; vm_compute; lia. Qed.

Lemma struct_pack_length p n args buf :
  struct_pack p n args = Ok buf -> length buf = (n * wbytes p)%nat.
Proof. apply pack_words_length. Qed.

Lemma struct_unpack_length p n buf ws :
  struct_unpack p n buf = Ok ws -> length buf = (n * wbytes p)%nat.
Proof.
  unfold struct_unpack, unpack_words.
  destruct (Nat.eqb (length buf) (n * wbytes p)) eqn:Hl; [|discriminate].
  intros _. apply Nat.eqb_eq, Hl.
Qed.

(** A tuple of at most 128 words fits the buffer of [fcntl.ioctl]. *)
Lemma struct_pack_sendable p n args buf :
  struct_pack p n args = Ok buf -> (n <= 128)%nat -> oversized (Immutable buf) = false.
Proof.
  intros Hpack Hn. apply struct_pack_length in Hpack.
  pose proof (wbytes_le_8 p) as Hw.
  unfold oversized, IOCTL_BUFSZ, len. apply Z.ltb_ge. nia.
Qed.

(** An answer that unpacks under the format of the request has the
    length of the request: it comes back as it is. *)
Lemma overwrite_answer p n args in_buf out ws :
  struct_pack p n args = Ok in_buf -> struct_unpack p n out = Ok ws ->
  overwrite in_buf out = out.
Proof.
  intros Hpack Hun. apply overwrite_same_length.
  rewrite (struct_pack_length _ _ _ _ Hpack), (struct_unpack_length _ _ _ _ Hun).
  reflexivity.
Qed.

(** ** Session set-up and the control call *)

Lemma compute_ioctlbase_run p itype w :
  _pack (self w) = Some p ->
  compute_ioctlbase itype w =
    (Ok (Z.lor (Z.lor (Z.shiftl 3 30) (Z.shiftl (Z.of_N (N_of_ascii itype)) 8))
               (Z.shiftl (calcsize p) 16)), w).
Proof.
  intros Hp. unfold compute_ioctlbase. run. rewrite Hp. reflexivity.
Qed.

Lemma init_run E w :
  init E true w =
    let t1 := trace w ++ [EvLog MsgLicense] in
    let r := os_open E t1 in
    let p := if 2 ^ 32 <? sys_maxsize E then PackQ else PackI in
    let failed := {| self := {| dev_fh := dev_fh (self w); _pack := Some p;
                                _ioctl_base := _ioctl_base (self w);
                                driver_loaded := driver_loaded (self w) |};
                     trace := t1 ++ [EvOpen r] |} in
    match r with
    | OpenOk =>
        (Ok tt, {| self := {| dev_fh := Some 0; _pack := Some p;
                              _ioctl_base := Some (control_code (calcsize p));
                              driver_loaded := Some true |};
                   trace := t1 ++ [EvOpen r] |})
    | OpenIOError errno => (Raise (OsHelperError errno), failed)
    | OpenOtherError => (Raise (OsHelperError ENXIO), failed)
    end.
Proof.
  unfold init, compute_ioctlbase. run.
  destruct (os_open E _); reflexivity.
Qed.

Lemma calcsize_width m :
  calcsize (if 2 ^ 32 <? m then PackQ else PackI) = word_width m.
Proof. unfold word_width. destruct (2 ^ 32 <? m); reflexivity. Qed.

Lemma init_started E w w' :
  init E true w = (Ok tt, w') ->
  self w' = {| dev_fh := Some 0;
               _pack := Some (if 2 ^ 32 <? sys_maxsize E then PackQ else PackI);
               _ioctl_base := Some (control_code (word_width (sys_maxsize E)));
               driver_loaded := Some true |}.
Proof.
  rewrite init_run. cbv zeta. rewrite <- calcsize_width.
  destruct (os_open E _); intros H; try discriminate H.
  injection H as <-. reflexivity.
Qed.

Lemma ioctl_run E nr args w base pos :
  _ioctl_base (self w) = Some base ->
  dev_fh (self w) = Some pos ->
  oversized args = false ->
  ioctl E nr args w =
    let reply := drv_ioctl E (trace w) (base + nr) (ioarg_bytes args) in
    let w' := {| self := self w;
                 trace := trace w ++ [EvIoctl (base + nr) (ioarg_bytes args) reply] |} in
    match reply with
    | IoFail => (Raise IOError, w')
    | IoData d => (Ok (overwrite (ioarg_bytes args) d), w')
    end.
Proof.
  intros Hb Hf Hsz. unfold ioctl. run. rewrite Hb, Hf, Hsz.
  destruct (drv_ioctl E _ _ _); reflexivity.
Qed.

(** An argument over the limit is refused before anything is sent. *)
Lemma ioctl_refused E nr args w base pos :
  _ioctl_base (self w) = Some base ->
  dev_fh (self w) = Some pos ->
  oversized args = true ->
  ioctl E nr args w = (Raise ValueError, w).
Proof.
  intros Hb Hf Hsz. unfold ioctl. run. rewrite Hb, Hf, Hsz. reflexivity.
Qed.

(** Discharges [oversized _ = false] for an array and for a packed
    word tuple. *)
Ltac sendable :=
  first
    [ reflexivity
    | match goal with
      | H : struct_pack _ _ _ = Ok ?b |- oversized (Immutable ?b) = false =>
          apply (struct_pack_sendable _ _ _ _ H); lia
      end ].

(** C1: the control-code base is (3 << 30) | ('C' << 8) | (width << 16)
    with width 8 on a 64-bit and 4 on a 32-bit process; computing it
    reads only the word format and changes nothing; [init] stores it
    once, and every control call for an opcode [nr] goes out under
    [base + nr] and leaves the helper, base included, as it was.  (An
    immutable argument of more than 1024 bytes is refused before any
    call is made.) *)
Theorem ioctl_base_layout (E : Env) :
  (forall p itype w,
      _pack (self w) = Some p ->
      compute_ioctlbase itype w =
        (Ok (Z.lor (Z.lor (Z.shiftl 3 30) (Z.shiftl (Z.of_N (N_of_ascii itype)) 8))
                   (Z.shiftl (calcsize p) 16)), w)) /\
  (forall w w',
      init E true w = (Ok tt, w') ->
      _ioctl_base (self w') = Some (control_code (word_width (sys_maxsize E)))) /\
  word_width maxsize64 = 8 /\ word_width maxsize32 = 4 /\
  control_code 8 = 0xC0084300 /\ control_code 4 = 0xC0044300 /\
  (forall nr args w base pos,
      _ioctl_base (self w) = Some base ->
      dev_fh (self w) = Some pos ->
      (oversized args = false ->
       exists reply,
         snd (ioctl E nr args w) =
           {| self := self w;
              trace := trace w ++ [EvIoctl (base + nr) (ioarg_bytes args) reply] |}) /\
      (oversized args = true -> ioctl E nr args w = (Raise ValueError, w))) /\
  (forall nr, In nr opcodes -> 0x0 <= nr <= 0x16).
Proof.
  split; [|split; [|split; [|split; [|split; [|split; [|split]]]]]].
  - intros; now apply compute_ioctlbase_run.
  - intros w w' H. apply init_started in H. rewrite H. reflexivity.
  - vm_compute; reflexivity.
  - vm_compute; reflexivity.
  - vm_compute; reflexivity.
  - vm_compute; reflexivity.
  - intros nr args w base pos Hb Hf. split; intros Hsz.
    + exists (drv_ioctl E (trace w) (base + nr) (ioarg_bytes args)).
      rewrite (ioctl_run E nr args w base pos Hb Hf Hsz). cbv zeta.
      destruct (drv_ioctl E _ _ _); reflexivity.
    + apply (ioctl_refused E nr args w base pos Hb Hf Hsz).
  - intros nr H. unfold opcodes in H.
    repeat (destruct H as [H|H]; [subst nr; vm_compute; split; discriminate|]).
    contradiction.
Qed.

(** A 64-bit session: [init(True)] from a fresh helper stores
    0xC0084300, and a control call for RDMSR goes out under 0xC0084305. *)
Lemma ioctl_base_layout_witness :
  _ioctl_base (self (started (env_of maxsize64 []))) = Some 0xC0084300 /\
  exists reply,
    snd (ioctl (env_of maxsize64 []) IOCTL_RDMSR (Immutable [])
           (started (env_of maxsize64 []))) =
      {| self := self (started (env_of maxsize64 []));
         trace := trace (started (env_of maxsize64 []))
                  ++ [EvIoctl (0xC0084300 + IOCTL_RDMSR) [] reply] |}.
Proof.
  split.
  - exact (proj1 (proj2 (ioctl_base_layout (env_of maxsize64 [])))
             world0 (started (env_of maxsize64 [])) eq_refl).
  - exact (proj1 (proj1 (proj2 (proj2 (proj2 (proj2 (proj2 (proj2
             (ioctl_base_layout (env_of maxsize64 []))))))))
             IOCTL_RDMSR (Immutable []) (started (env_of maxsize64 []))
             0xC0084300 0 eq_refl eq_refl) eq_refl).
Defined.

(** ** I/O port reads *)

(** C4: the value of an I/O port read is word 2 of the response masked
    to the requested size; a response word 0x1234ABCD gives 0xCD for
    size 1, 0xABCD for size 2 and 0x1234ABCD for size 4. *)
Theorem read_io_port_masked (E : Env) (w : world) (p : packchar)
    (base pos io_port size : Z) (in_buf out_buf : bytes) (x0 x1 x2 : Z) :
  _pack (self w) = Some p ->
  _ioctl_base (self w) = Some base ->
  dev_fh (self w) = Some pos ->
  struct_pack p 3 [io_port; size; 0] = Ok in_buf ->
  drv_ioctl E (trace w) (base + IOCTL_RDIO) in_buf = IoData out_buf ->
  struct_unpack p 3 out_buf = Ok [x0; x1; x2] ->
  In size [1; 2; 4] ->
  fst (read_io_port E io_port size w) = Ok (Z.land x2 (2 ^ (8 * size) - 1)) /\
  (x2 = 0x1234ABCD ->
   (size = 1 -> fst (read_io_port E io_port size w) = Ok 0xCD) /\
   (size = 2 -> fst (read_io_port E io_port size w) = Ok 0xABCD) /\
   (size = 4 -> fst (read_io_port E io_port size w) = Ok 0x1234ABCD)).
Proof.
  intros Hp Hb Hf Hpack Hdrv Hun Hsz.
  assert (Hrun : fst (read_io_port E io_port size w)
                 = Ok (Z.land x2 (2 ^ (8 * size) - 1))).
  { unfold read_io_port. run. rewrite Hp, Hpack.
    rewrite (ioctl_run E IOCTL_RDIO (Immutable in_buf) w base pos Hb Hf)
      by sendable.
    cbv zeta. cbn [ioarg_bytes]. rewrite Hdrv.
    rewrite (overwrite_answer _ _ _ _ _ _ Hpack Hun). rewrite Hun.
    destruct Hsz as [<-|[<-|[<-|[]]]]; reflexivity. }
  split; [exact Hrun|].
  intros ->. repeat split; intros ->; rewrite Hrun; reflexivity.
Qed.

Lemma read_io_port_masked_witness :
  fst (read_io_port (env_of maxsize64 [IoData io_reply64]) 0x80 1
         (started (env_of maxsize64 [IoData io_reply64]))) = Ok 0xCD.
Proof.
  refine (proj1 (proj2 (read_io_port_masked (env_of maxsize64 [IoData io_reply64])
            (started (env_of maxsize64 [IoData io_reply64])) PackQ
            0xC0084300 0 0x80 1 (le_encode 8 0x80 ++ le_encode 8 1 ++ le_encode 8 0)
            io_reply64 0x80 1 0x1234ABCD
            _ _ _ _ _ _ (or_introl eq_refl))
          eq_refl) eq_refl); vm_compute; reflexivity.
Defined.

(** ** Per-core operations *)

Lemma pack_words_total w n args :
  length args = n -> forallb (in_range w) args = true ->
  exists buf, pack_words w n args = Ok buf.
Proof.
  intros Hn Hr. unfold pack_words.
  apply Nat.eqb_eq in Hn. rewrite Hn, Hr. cbn [negb]. eauto.
Qed.

Lemma ioctl_cases E nr args w :
  oversized args = false ->
  (_ioctl_base (self w) = None /\ ioctl E nr args w = (Raise AttributeError, w)) \/
  (dev_fh (self w) = None /\ ioctl E nr args w = (Raise TypeError, w)) \/
  (exists base pos,
      _ioctl_base (self w) = Some base /\ dev_fh (self w) = Some pos /\
      ioctl E nr args w =
        let reply := drv_ioctl E (trace w) (base + nr) (ioarg_bytes args) in
        let w' := {| self := self w;
                     trace := trace w ++ [EvIoctl (base + nr) (ioarg_bytes args) reply] |} in
        match reply with
        | IoFail => (Raise IOError, w')
        | IoData d => (Ok (overwrite (ioarg_bytes args) d), w')
        end).
Proof.
  intros Hsz.
  destruct (_ioctl_base (self w)) as [base|] eqn:Hb.
  - destruct (dev_fh (self w)) as [pos|] eqn:Hf.
    + right; right. exists base, pos. repeat split; auto.
      now apply ioctl_run with (pos := pos).
    + right; left. split; auto. unfold ioctl. run. rewrite Hb, Hf. reflexivity.
  - left. split; auto. unfold ioctl. run. rewrite Hb. reflexivity.
Qed.

Ltac break_match :=
  repeat match goal with
         | |- context [match ?x with _ => _ end] =>
             lazymatch x with
             | context [match _ with _ => _ end] => fail
             | _ => destruct x
             end
         end.











(** ** Physical memory *)

Lemma write_phys_mem_run E hi lo length v w pos :
  dev_fh (self w) = Some pos ->
  let addr := Z.lor (Z.shiftl hi 32) lo in
  fh_seek E (trace w) addr = Ok tt ->
  trace (snd (write_phys_mem E hi lo length (Some v) w)) =
    trace w ++ EvSeek addr :: EvWrite v ::
      match fh_write E (trace w ++ [EvSeek addr]) v with
      | Ok _ => [EvFlush]
      | Raise _ => []
      end.
Proof.
  intros Hf addr Hs. unfold write_phys_mem, dev_seek, mem_block, dev_write, dev_flush.
  run. rewrite Hf. run. fold addr. rewrite Hs. run.
  destruct (fh_write E _ v); run; [|now rewrite <- app_assoc].
  destruct (fh_flush E _); run; now rewrite <- !app_assoc.
Qed.

(** C10: [write_phys_mem] with [newval = None] returns [None] at once;
    the helper, the position of its handle and the history of seeks and
    writes are what they were.  (With a value and an open handle the
    history does grow, by the seek first.) *)
Theorem write_phys_mem_none (E : Env) (phys_address_hi phys_address_lo length : Z)
    (w : world) :
  write_phys_mem E phys_address_hi phys_address_lo length None w = (Ok None, w) /\
  dev_fh (self (snd (write_phys_mem E phys_address_hi phys_address_lo length None w)))
  = dev_fh (self w) /\
  trace (snd (write_phys_mem E phys_address_hi phys_address_lo length None w))
  = trace w /\
  (forall v pos,
      dev_fh (self w) = Some pos ->
      exists rest,
        trace (snd (write_phys_mem E phys_address_hi phys_address_lo length (Some v) w))
        = trace w ++ EvSeek (Z.lor (Z.shiftl phys_address_hi 32) phys_address_lo) :: rest).
Proof.
  repeat split.
  intros v pos Hf.
  unfold write_phys_mem, dev_seek, mem_block, dev_write, dev_flush.
  run. rewrite Hf. run.
  destruct (fh_seek E _ _); run; [|trace_tail].
  destruct (fh_write E _ v); run; [|trace_tail].
  destruct (fh_flush E _); trace_tail.
Qed.

(** On a started session a write of one byte at 0x1_0000_0002 seeks
    there first. *)
Lemma write_phys_mem_none_witness :
  exists rest,
    trace (snd (write_phys_mem (env_of maxsize64 []) 1 2 1 (Some [x01])
                  (started (env_of maxsize64 []))))
    = trace (started (env_of maxsize64 [])) ++ EvSeek 0x100000002 :: rest.
Proof.
  exact (proj2 (proj2 (proj2 (write_phys_mem_none (env_of maxsize64 []) 1 2 1
                                (started (env_of maxsize64 [])))))
           [x01] 0 eq_refl).
Defined.

(** ** PCI, I/O and MMIO failures *)

(** C9, as the code has it: when the control call of a PCI read or
    write fails with an OS error the operation logs a debug line and
    returns [None].  What an I/O port read gets back always has the
    size of its request, whatever the driver wrote, so it unpacks as
    three words: no mismatch arises, nothing is logged and the read
    returns the masked word.  An MMIO read has no size check: it sends
    one request, logs nothing, and its outcome is that of [unpack1] on
    the first [size] bytes of the two words that come back. *)
Theorem transport_failures (E : Env) (unpack1 : bytes -> Z -> res Z) (w : world)
    (p : packchar) (base pos : Z) :
  _pack (self w) = Some p ->
  _ioctl_base (self w) = Some base ->
  dev_fh (self w) = Some pos ->
  (forall bus device function offset size d,
      struct_pack p 5 [Z.lor (Z.shiftl _PCI_DOM 16) bus;
                       Z.lor (Z.shiftl device 16) function; offset; size; 0] = Ok d ->
      drv_ioctl E (trace w) (base + IOCTL_RDPCI) d = IoFail ->
      read_pci_reg E bus device function offset size w =
        (Ok None,
         {| self := self w;
            trace := trace w ++ [EvIoctl (base + IOCTL_RDPCI) d IoFail;
                                 EvLog MsgIOError] |})) /\
  (forall bus device function offset value size d,
      struct_pack p 5 [Z.lor (Z.shiftl _PCI_DOM 16) bus;
                       Z.lor (Z.shiftl device 16) function; offset; size; value] = Ok d ->
      drv_ioctl E (trace w) (base + IOCTL_WRPCI) d = IoFail ->
      write_pci_reg E bus device function offset value size w =
        (Ok None,
         {| self := self w;
            trace := trace w ++ [EvIoctl (base + IOCTL_WRPCI) d IoFail;
                                 EvLog MsgIOError] |})) /\
  (forall io_port size in_buf d,
      struct_pack p 3 [io_port; size; 0] = Ok in_buf ->
      drv_ioctl E (trace w) (base + IOCTL_RDIO) in_buf = IoData d ->
      exists x0 x1 x2,
        struct_unpack p 3 (overwrite in_buf d) = Ok [x0; x1; x2] /\
        read_io_port E io_port size w =
          (Ok (Z.land x2 (if 1 =? size then 0xff
                          else if 2 =? size then 0xffff else 0xffffffff)),
           {| self := self w;
              trace := trace w ++ [EvIoctl (base + IOCTL_RDIO) in_buf (IoData d)] |})) /\
  (forall bar_base size offset in_buf d,
      struct_pack p 2 [bar_base + offset; size] = Ok in_buf ->
      drv_ioctl E (trace w) (base + IOCTL_RDMMIO) in_buf = IoData d ->
      length (overwrite in_buf d) = (2 * wbytes p)%nat /\
      read_mmio_reg E unpack1 bar_base size offset w =
        (unpack1 (slice (overwrite in_buf d) None (Some size)) size,
         {| self := self w;
            trace := trace w ++ [EvIoctl (base + IOCTL_RDMMIO) in_buf (IoData d)] |})).
Proof.
  intros Hp Hb Hf. split; [|split; [|split]].
  - intros bus device function offset size d Hpack Hdrv.
    unfold read_pci_reg. run. rewrite Hp, Hpack.
    rewrite (ioctl_run E IOCTL_RDPCI (Immutable d) w base pos Hb Hf) by sendable.
    cbv zeta. cbn [ioarg_bytes]. rewrite Hdrv. cbn [is_IOError trace self].
    rewrite <- app_assoc. reflexivity.
  - intros bus device function offset value size d Hpack Hdrv.
    unfold write_pci_reg. run. rewrite Hp, Hpack.
    rewrite (ioctl_run E IOCTL_WRPCI (Immutable d) w base pos Hb Hf) by sendable.
    cbv zeta. cbn [ioarg_bytes]. rewrite Hdrv. cbn [is_IOError trace self].
    rewrite <- app_assoc. reflexivity.
  - intros io_port size in_buf d Hpack Hdrv.
    assert (Hlen : length (overwrite in_buf d) = (3 * wbytes p)%nat).
    { rewrite overwrite_length. apply (struct_pack_length _ _ _ _ Hpack). }
    remember (overwrite in_buf d) as buf eqn:Hbuf.
    assert (Hun : struct_unpack p 3 buf =
                  Ok (map le_decode (chunks (wbytes p) 3 buf))).
    { unfold struct_unpack, unpack_words. rewrite Hlen, Nat.eqb_refl. reflexivity. }
    cbn [chunks map] in Hun.
    do 3 eexists. split; [exact Hun|].
    unfold read_io_port. run. rewrite Hp, Hpack.
    rewrite (ioctl_run E IOCTL_RDIO (Immutable in_buf) w base pos Hb Hf) by sendable.
    cbv zeta. cbn [ioarg_bytes]. rewrite Hdrv, <- Hbuf, Hun.
    destruct (1 =? size); [|destruct (2 =? size)]; reflexivity.
  - intros bar_base size offset in_buf d Hpack Hdrv. split.
    { rewrite overwrite_length. apply (struct_pack_length _ _ _ _ Hpack). }
    unfold read_mmio_reg. run. rewrite Hp, Hpack.
    rewrite (ioctl_run E IOCTL_RDMMIO (Immutable in_buf) w base pos Hb Hf) by sendable.
    cbv zeta. cbn [ioarg_bytes]. rewrite Hdrv. reflexivity.
Qed.

(** On a started 64-bit session whose driver fails the call, the PCI
    read returns [None]. *)
Lemma transport_failures_witness :
  fst (read_pci_reg (env_of maxsize64 []) 0 31 0 0x10 4
         (started (env_of maxsize64 []))) = Ok None.
Proof.
  refine (f_equal fst
    (proj1 (transport_failures (env_of maxsize64 []) unpack1_le
              (started (env_of maxsize64 [])) PackQ 0xC0084300 0 _ _ _)
           0 31 0 0x10 4
           (flat_map (le_encode 8) [0; Z.lor (Z.shiftl 31 16) 0; 0x10; 4; 0]) _ _));
    vm_compute; reflexivity.
Defined.

(** C9 as stated fails on the MMIO read: on a 64-bit session a read of
    32 bytes gets two words, 16 bytes, back; the exception of
    [unpack1] on the short buffer goes out to the caller, and nothing
    is logged. *)
Lemma mmio_short_response_raises_unlogged :
  fst (read_mmio_reg (env_of maxsize64 [IoData []]) unpack1_le 0xFED00000 32 0
         (started (env_of maxsize64 [IoData []]))) = Raise StructError /\
  logged (trace (snd (read_mmio_reg (env_of maxsize64 [IoData []]) unpack1_le
                        0xFED00000 32 0 (started (env_of maxsize64 [IoData []]))))) =
  logged (trace (started (env_of maxsize64 [IoData []]))) /\
  length (ioctl_calls (trace (snd (read_mmio_reg (env_of maxsize64 [IoData []]) unpack1_le
                                     0xFED00000 32 0
                                     (started (env_of maxsize64 [IoData []])))))) = 1%nat.
Proof. vm_compute. repeat split. Qed.

(** ** Slices *)

Lemma slice_to_neg {A : Type} (s : list A) (k : nat) :
  (0 < k)%nat -> slice s None (Some (- Z.of_nat k)) = firstn (length s - k) s.
Proof.
  intros Hk. unfold slice, norm_index, len.
  destruct (- Z.of_nat k <? 0) eqn:Hneg; [|apply Z.ltb_ge in Hneg; lia].
  cbn [skipn Z.to_nat]. f_equal. lia.
Qed.

Lemma slice_from {A : Type} (s : list A) (i : Z) :
  0 <= i -> slice s (Some i) None = skipn (Z.to_nat i) s.
Proof.
  intros Hi. unfold slice, norm_index, len.
  destruct (i <? 0) eqn:Hneg; [apply Z.ltb_lt in Hneg; lia|].
  destruct (Z.le_gt_cases i (Z.of_nat (length s))) as [Hle|Hgt].
  - rewrite Z.min_r by lia. apply firstn_all2. rewrite length_skipn. lia.
  - rewrite Z.min_l by lia. rewrite Nat2Z.id, skipn_all.
    rewrite skipn_all2 by lia. apply firstn_nil.
Qed.

Lemma slice_to {A : Type} (s : list A) (j : Z) :
  0 <= j -> slice s None (Some j) = firstn (Z.to_nat j) s.
Proof.
  intros Hj. unfold slice, norm_index, len.
  destruct (j <? 0) eqn:Hneg; [apply Z.ltb_lt in Hneg; lia|].
  cbn [skipn Z.to_nat]. rewrite Z.sub_0_r.
  destruct (Z.le_gt_cases j (Z.of_nat (length s))) as [Hle|Hgt].
  - rewrite Z.min_r by lia. reflexivity.
  - rewrite Z.min_l by lia. rewrite Nat2Z.id.
    rewrite !firstn_all2 by lia. reflexivity.
Qed.

(** ** Directory entries of LIST *)

Lemma entry_name_firstn v : entry_name v = firstn (length v - 37) v.
Proof. unfold entry_name. apply (slice_to_neg v 37). lia. Qed.

Lemma entry_guid_skipn v :
  entry_guid v = skipn (length (entry_name v) + 1) v.
Proof.
  unfold entry_guid. rewrite slice_from by (unfold len; lia).
  f_equal. unfold len. lia.
Qed.

(** ** GUID fields *)

Lemma hexdigit_plain c d :
  hexdigit c = Some d ->
  is_space c = false /\ Ascii.eqb c "+" = false /\ Ascii.eqb c "-" = false /\
  Ascii.eqb c "_" = false /\ Ascii.eqb c "x" = false /\ Ascii.eqb c "X" = false.
Proof.
  destruct c as [[] [] [] [] [] [] [] []]; vm_compute; intros H;
    try discriminate H; repeat split.
Qed.

Lemma is_hexdigit_some c : is_hexdigit c = true -> exists d, hexdigit c = Some d.
Proof. unfold is_hexdigit. destruct (hexdigit c); [eauto|discriminate]. Qed.

Lemma scan_digits_hex s : forall prev acc nd,
  forallb is_hexdigit s = true ->
  scan_digits s prev acc nd =
    Some (fold_left (fun a c => 16 * a + match hexdigit c with Some d => d | None => 0 end)
                    s acc,
          (nd + length s)%nat,
          match s with [] => prev | _ :: _ => PDigit end,
          []).
Proof.
  induction s as [|c s IH]; intros prev acc nd Hs.
  - cbn. rewrite Nat.add_0_r. reflexivity.
  - cbn [forallb] in Hs. apply andb_true_iff in Hs as [Hc Hs].
    apply is_hexdigit_some in Hc as [d Hd].
    destruct (hexdigit_plain c d Hd) as (_ & _ & _ & Hu & _).
    cbn [scan_digits fold_left length]. rewrite Hu, Hd, (IH PDigit) by exact Hs.
    replace (S nd + length s)%nat with (nd + S (length s))%nat by lia.
    destruct s; reflexivity.
Qed.

(** On a non-empty run of hexadecimal digits [int(s, 16)] is its value. *)
Lemma int16_hex s :
  s <> [] -> forallb is_hexdigit s = true -> int16 s = Ok (hex_value s).
Proof.
  intros Hne Hs. destruct s as [|c s]; [contradiction|].
  pose proof Hs as Hall.
  cbn [forallb] in Hs. apply andb_true_iff in Hs as [Hc Hs].
  apply is_hexdigit_some in Hc as [d Hd].
  destruct (hexdigit_plain c d Hd) as (Hsp & Hplus & Hminus & Hu & _).
  unfold int16. cbn [lstrip]. rewrite Hsp. cbn [strip_sign].
  rewrite Hplus, Hminus.
  assert (Hpre : strip_prefix (c :: s) = c :: s).
  { destruct s as [|c2 s]; [reflexivity|]. cbn [strip_prefix].
    cbn [forallb] in Hs. apply andb_true_iff in Hs as [Hc2 _].
    apply is_hexdigit_some in Hc2 as [d2 Hd2].
    destruct (hexdigit_plain c2 d2 Hd2) as (_ & _ & _ & _ & Hx & HX).
    rewrite Hx, HX, andb_false_r. reflexivity. }
  rewrite Hpre. cbn [starts_with_underscore]. rewrite Hu.
  rewrite scan_digits_hex by exact Hall.
  cbn [length Nat.add lstrip]. unfold hex_value.
  f_equal. lia.
Qed.


(** A canonical GUID parses into its eleven fields. *)
Lemma parse_guid_canonical guid :
  canonical_guid guid = true -> parse_guid guid = Ok (guid_fields guid).
Proof.
  unfold canonical_guid. intros H.
  apply andb_true_iff in H as [H Hhex]. apply andb_true_iff in H as [Hlen Hdash].
  apply Nat.eqb_eq in Hlen.
  do 36 (destruct guid as [|? guid]; [discriminate Hlen|]).
  destruct guid; [|discriminate Hlen]. clear Hlen Hdash.
  unfold guid_fields.
  change (drop_positions dash_positions
            [a; a0; a1; a2; a3; a4; a5; a6; a7; a8; a9; a10; a11; a12; a13; a14;
             a15; a16; a17; a18; a19; a20; a21; a22; a23; a24; a25; a26; a27; a28;
             a29; a30; a31; a32; a33; a34])
    with [a; a0; a1; a2; a3; a4; a5; a6; a8; a9; a10; a11; a13; a14;
          a15; a16; a18; a19; a20; a21; a23; a24; a25; a26; a27; a28;
          a29; a30; a31; a32; a33; a34] in *.
  cbn [forallb] in Hhex.
  repeat match goal with
         | H : _ && _ = true |- _ => apply andb_true_iff in H as [? H]
         end.
  unfold parse_guid.
  repeat match goal with
         | |- context [int16 (slice ?s ?a ?b)] =>
             let v := eval vm_compute in (slice s a b) in
             change (slice s a b) with v;
             rewrite (int16_hex v);
             [cbn [rbind]
             |discriminate
             |cbn [forallb];
              repeat match goal with
                     | H : is_hexdigit _ = true |- _ => rewrite H; clear H
                     end; reflexivity]
         end.
  reflexivity.
Qed.

Lemma guid_fields_length guid : length (guid_fields guid) = 11%nat.
Proof. unfold guid_fields. rewrite length_map. reflexivity. Qed.

(** ** The request buffers of GET and SET *)

Lemma Z_of_byte_nonneg b : 0 <= Z_of_byte b.
Proof. unfold Z_of_byte. lia. Qed.

Lemma le_decode_nonneg bs : 0 <= le_decode bs.
Proof.
  induction bs as [|b r IH]; cbn [le_decode]; [lia|].
  pose proof (Z_of_byte_nonneg b). lia.
Qed.

Lemma pack_s_bytes_length k b buf :
  pack_s k (VBytes b) = Ok buf -> length buf = Z.to_nat k.
Proof.
  cbn [pack_s]. intros H; injection H as <-.
  rewrite length_app, length_firstn, repeat_length. lia.
Qed.

Lemma pack_get_inv ds g n k name buf :
  pack_get ds g n k name = Ok buf ->
  exists ws s,
    pack_words 4 13 (ds :: g ++ [n]) = Ok ws /\
    pack_s k (VBytes (encode name)) = Ok s /\ buf = ws ++ s.
Proof.
  unfold pack_get.
  destruct (pack_words 4 13 (ds :: g ++ [n])) as [ws|] eqn:Hw; [|discriminate].
  cbn [rbind pack_s]. intros H; injection H as <-.
  do 2 eexists. repeat split; reflexivity.
Qed.

Lemma pack_get_length ds g n k name buf :
  pack_get ds g n k name = Ok buf -> length buf = (52 + Z.to_nat k)%nat.
Proof.
  intros H. apply pack_get_inv in H as (ws & s & Hw & Hs & ->).
  rewrite length_app, (pack_words_length _ _ _ _ Hw), (pack_s_bytes_length _ _ _ Hs).
  reflexivity.
Qed.

Lemma pack_get_first_word ds g n k name buf :
  pack_get ds g n k name = Ok buf -> first_word 4 buf = ds.
Proof.
  intros H. apply pack_get_inv in H as (ws & s & Hw & Hs & ->).
  pose proof (pack_words_first_word _ _ _ _ _ Hw) as Hfw.
  pose proof (pack_words_length _ _ _ _ Hw) as Hl.
  unfold first_word in *. rewrite firstn_app.
  replace (4 - length ws)%nat with 0%nat by lia.
  rewrite firstn_O, app_nil_r. exact Hfw.
Qed.

(** The thirteen header words of a GET request. *)
Lemma pack_get_words ds g n k name buf :
  pack_get ds g n k name = Ok buf ->
  unpack_words 4 13 (firstn 52 buf) = Ok (ds :: g ++ [n]).
Proof.
  intros H. apply pack_get_inv in H as (ws & s & Hw & Hs & ->).
  pose proof (pack_words_length _ _ _ _ Hw) as Hl.
  rewrite firstn_app. replace (52 - length ws)%nat with 0%nat by lia.
  rewrite firstn_O, app_nil_r, firstn_all2 by lia.
  apply unpack_pack_words, Hw.
Qed.


Lemma unpack_size_status_total buffer :
  (8 <= length buffer)%nat ->
  exists new_size status,
    unpack_size_status buffer = Ok (new_size, status) /\
    new_size = first_word 4 buffer /\ 0 <= new_size /\ 0 <= status.
Proof.
  intros Hl. unfold unpack_size_status.
  rewrite slice_to by lia. change (Z.to_nat 8) with 8%nat.
  unfold unpack_words. rewrite length_firstn.
  replace (Nat.min 8 (length buffer)) with 8%nat by lia.
  cbn [Nat.eqb Nat.mul Nat.add chunks map rbind].
  do 2 eexists. split; [reflexivity|].
  unfold first_word. rewrite firstn_firstn. cbn [Nat.min].
  repeat split; auto using le_decode_nonneg.
Qed.

(** ** GET: the probe and the one retry *)

Section Get.

Variables (E : Env) (w : world) (base pos : Z) (name guid : pystr).
Variables (g : list Z) (in_buf d : bytes) (N st : Z).

Hypothesis Hbase : _ioctl_base (self w) = Some base.
Hypothesis Hfh : dev_fh (self w) = Some pos.
Hypothesis Hparse : parse_guid guid = Ok g.
Hypothesis Hpack : pack_get (52 + len name) g (len name) (len name) name = Ok in_buf.
Hypothesis Hprobe : drv_ioctl E (trace w) (base + IOCTL_GET_EFIVAR) in_buf = IoData d.
Hypothesis Hdecode : unpack_size_status (overwrite in_buf d) = Ok (N, st).

Let code := base + IOCTL_GET_EFIVAR.
Let w1 := {| self := self w; trace := trace w ++ [EvIoctl code in_buf (IoData d)] |}.

(** The probe response is final when its status is not BufferTooSmall. *)
Lemma get_probe_final :
  st <> 5 ->
  kern_get_EFI_variable_full E name guid w =
    if 52 + len name <? N then
      (Ok (mk_get_result 0 [] 0 VNone (GuidStr guid) 0),
       {| self := self w; trace := trace w1 ++ [EvLog MsgIncorrectSize] |})
    else if 0 <? st then
      (Ok (mk_get_result 0 [] 0 (VStr []) (GuidInt 0) 0),
       {| self := self w;
          trace := trace w1 ++ [EvLog (MsgGetFailed (status_name st) st)] |})
    else
      match (a <~ unpack_words 4 1 (slice (overwrite in_buf d) (Some 8) (Some 12)) ;;
             item a 0) with
      | Ok attr =>
          (Ok (mk_get_result 0 [] 0
                 (VBytes (slice (overwrite in_buf d) (Some 12) (Some (12 + N))))
                 (GuidStr guid) attr), w1)
      | Raise e => (Raise e, w1)
      end.
Proof.
  intros Hst. unfold kern_get_EFI_variable_full. run.
  rewrite Hparse, Hpack.
  rewrite (ioctl_run E IOCTL_GET_EFIVAR (Mutable in_buf) w base pos Hbase Hfh eq_refl).
  cbv zeta. cbn [ioarg_bytes]. rewrite Hprobe, Hdecode.
  apply Z.eqb_neq in Hst. rewrite Hst.
  destruct (52 + len name <? N); [reflexivity|].
  destruct (0 <? st); [reflexivity|].
  destruct (unpack_words 4 1 _) as [a|]; cbn [rbind]; [|reflexivity].
  destruct (item a 0); reflexivity.
Qed.

(** After BufferTooSmall: one retry, sized for the reported [N]. *)
Lemma get_retry in_buf2 :
  st = 5 ->
  pack_get (N + 52 + len name) g (len name) (len name + N) name = Ok in_buf2 ->
  let reply2 := drv_ioctl E (trace w1) code in_buf2 in
  let w2 := {| self := self w; trace := trace w1 ++ [EvIoctl code in_buf2 reply2] |} in
  kern_get_EFI_variable_full E name guid w =
    match reply2 with
    | IoFail =>
        (Ok (mk_get_result 0 [] 0 VNone (GuidStr guid) 0),
         {| self := self w; trace := trace w2 ++ [EvLog MsgIoctlGetUEFIvar] |})
    | IoData d2 =>
        match unpack_size_status (overwrite in_buf2 d2) with
        | Raise e => (Raise e, w2)
        | Ok (N2, st2) =>
            if N + 52 + len name <? N2 then
              (Ok (mk_get_result 0 [] 0 VNone (GuidStr guid) 0),
               {| self := self w; trace := trace w2 ++ [EvLog MsgIncorrectSize] |})
            else if 0 <? st2 then
              (Ok (mk_get_result 0 [] 0 (VStr []) (GuidInt 0) 0),
               {| self := self w;
                  trace := trace w2 ++ [EvLog (MsgGetFailed (status_name st2) st2)] |})
            else
              match (a <~ unpack_words 4 1
                            (slice (overwrite in_buf2 d2) (Some 8) (Some 12)) ;;
                     item a 0) with
              | Ok attr =>
                  (Ok (mk_get_result 0 [] 0
                         (VBytes (slice (overwrite in_buf2 d2) (Some 12) (Some (12 + N2))))
                         (GuidStr guid) attr), w2)
              | Raise e => (Raise e, w2)
              end
        end
    end.
Proof.
  intros Hst Hpack2. unfold kern_get_EFI_variable_full. run.
  rewrite Hparse, Hpack.
  rewrite (ioctl_run E IOCTL_GET_EFIVAR (Mutable in_buf) w base pos Hbase Hfh eq_refl).
  cbv zeta. cbn [ioarg_bytes]. rewrite Hprobe, Hdecode.
  subst st. cbn [Z.eqb Pos.eqb]. rewrite Hpack2.
  fold code. fold w1.
  rewrite (ioctl_run E IOCTL_GET_EFIVAR (Mutable in_buf2) w1 base pos Hbase Hfh eq_refl).
  cbv zeta. cbn [ioarg_bytes self trace]. fold code.
  destruct (drv_ioctl E (trace w1) code in_buf2) as [|d2]; [reflexivity|].
  cbn [is_IOError].
  destruct (unpack_size_status (overwrite in_buf2 d2)) as [[N2 st2]|]; [|reflexivity].
  destruct (N + 52 + len name <? N2); [reflexivity|].
  destruct (0 <? st2); [reflexivity|].
  destruct (unpack_words 4 1 _) as [a|]; cbn [rbind]; [|reflexivity].
  destruct (item a 0); reflexivity.
Qed.

End Get.

Lemma ioctl_calls_app t1 t2 : ioctl_calls (t1 ++ t2) = ioctl_calls t1 ++ ioctl_calls t2.
Proof. unfold ioctl_calls. apply flat_map_app. Qed.

Lemma in_range_4 v : 0 <= v < 2 ^ 32 -> in_range 4 v = true.
Proof. intros H. apply in_range_spec. exact H. Qed.





(** C3: when the size word of the response that GET examines last (the
    probe's when its status is not BufferTooSmall, else the retry's)
    exceeds the size word of the request it answers, GET logs
    "Incorrect size" and returns with [data = None]. *)
Theorem get_oversized_no_data (E : Env) (w : world) (base pos : Z) (name guid : pystr)
    (g : list Z) (in_buf d : bytes) (N st : Z) :
  _ioctl_base (self w) = Some base ->
  dev_fh (self w) = Some pos ->
  parse_guid guid = Ok g ->
  pack_get (52 + len name) g (len name) (len name) name = Ok in_buf ->
  drv_ioctl E (trace w) (base + IOCTL_GET_EFIVAR) in_buf = IoData d ->
  unpack_size_status (overwrite in_buf d) = Ok (N, st) ->
  (st <> 5 -> first_word 4 in_buf < N ->
   kern_get_EFI_variable_full E name guid w =
     (Ok (mk_get_result 0 [] 0 VNone (GuidStr guid) 0),
      {| self := self w;
         trace := trace w ++ [EvIoctl (base + IOCTL_GET_EFIVAR) in_buf (IoData d);
                              EvLog MsgIncorrectSize] |})) /\
  (st = 5 ->
   forall in_buf2 d2 N2 st2,
     pack_get (N + 52 + len name) g (len name) (len name + N) name = Ok in_buf2 ->
     drv_ioctl E (trace w ++ [EvIoctl (base + IOCTL_GET_EFIVAR) in_buf (IoData d)])
       (base + IOCTL_GET_EFIVAR) in_buf2 = IoData d2 ->
     unpack_size_status (overwrite in_buf2 d2) = Ok (N2, st2) ->
     first_word 4 in_buf2 < N2 ->
     kern_get_EFI_variable_full E name guid w =
       (Ok (mk_get_result 0 [] 0 VNone (GuidStr guid) 0),
        {| self := self w;
           trace := trace w ++ [EvIoctl (base + IOCTL_GET_EFIVAR) in_buf (IoData d);
                                EvIoctl (base + IOCTL_GET_EFIVAR) in_buf2 (IoData d2);
                                EvLog MsgIncorrectSize] |})).
Proof.
  intros Hb Hf Hparse Hpack Hprobe Hdecode. split.
  - intros Hst Hbig. rewrite (pack_get_first_word _ _ _ _ _ _ Hpack) in Hbig.
    rewrite (get_probe_final E w base pos name guid g in_buf d N st
               Hb Hf Hparse Hpack Hprobe Hdecode Hst).
    apply Z.ltb_lt in Hbig. rewrite Hbig. cbn [trace].
    rewrite <- app_assoc. reflexivity.
  - intros Hst in_buf2 d2 N2 st2 Hpack2 Hreply Hdecode2 Hbig.
    rewrite (pack_get_first_word _ _ _ _ _ _ Hpack2) in Hbig.
    rewrite (get_retry E w base pos name guid g in_buf d N st
               Hb Hf Hparse Hpack Hprobe Hdecode in_buf2 Hst Hpack2).
    cbv zeta. cbn [trace]. rewrite Hreply, Hdecode2.
    apply Z.ltb_lt in Hbig. rewrite Hbig.
    rewrite <- !app_assoc. reflexivity.
Qed.

(** A driver that answers the 56-byte probe for Boot with "100 bytes,
    success": no data. *)
Lemma get_oversized_no_data_witness :
  r_data_of
    (fst (kern_get_EFI_variable_full (env_of maxsize64 [IoData oversized_100])
            (str "Boot") efi_global (started (env_of maxsize64 [IoData oversized_100]))))
  = Some VNone.
Proof.
  refine (f_equal (fun x => r_data_of (fst x))
    (proj1 (get_oversized_no_data (env_of maxsize64 [IoData oversized_100])
              (started (env_of maxsize64 [IoData oversized_100]))
              0xC0084300 0 (str "Boot") efi_global (guid_fields efi_global)
              boot_probe oversized_100 100 0 _ _ _ _ _ _) _ _));
    vm_compute; try reflexivity; discriminate.
Defined.

(** ** Requests that pack *)

Lemma hexdigit_range c d : hexdigit c = Some d -> 0 <= d < 16.
Proof.
  unfold hexdigit.
  destruct ((48 <=? _) && (_ <=? 57)) eqn:H1.
  { apply andb_true_iff in H1 as [Ha Hb]. apply Z.leb_le in Ha, Hb.
    intros H; injection H as <-. lia. }
  destruct ((97 <=? _) && (_ <=? 102)) eqn:H2.
  { apply andb_true_iff in H2 as [Ha Hb]. apply Z.leb_le in Ha, Hb.
    intros H; injection H as <-. lia. }
  destruct ((65 <=? _) && (_ <=? 70)) eqn:H3; [|discriminate].
  apply andb_true_iff in H3 as [Ha Hb]. apply Z.leb_le in Ha, Hb.
  intros H; injection H as <-. lia.
Qed.

Lemma hex_fold_bound s : forall acc k,
  0 <= acc < 16 ^ Z.of_nat k ->
  0 <= fold_left (fun a c => 16 * a + match hexdigit c with Some d => d | None => 0 end)
         s acc < 16 ^ Z.of_nat (k + length s).
Proof.
  induction s as [|c s IH]; intros acc k Hacc; cbn [fold_left length].
  - rewrite Nat.add_0_r. exact Hacc.
  - replace (k + S (length s))%nat with (S k + length s)%nat by lia.
    apply IH. rewrite Nat2Z.inj_succ, Z.pow_succ_r by lia.
    destruct (hexdigit c) as [d|] eqn:Hd; [apply hexdigit_range in Hd|]; lia.
Qed.

Lemma hex_value_in_range s : (length s <= 8)%nat -> in_range 4 (hex_value s) = true.
Proof.
  intros Hl. apply in_range_spec. unfold hex_value.
  pose proof (hex_fold_bound s 0 0 ltac:(cbn; lia)) as [H0 H1].
  cbn [Nat.add] in H1. split; [exact H0|].
  eapply Z.lt_le_trans; [exact H1|].
  change (2 ^ (8 * Z.of_nat 4)) with (16 ^ 8).
  apply Z.pow_le_mono_r; lia.
Qed.

Lemma split_widths_in_range ws : forall s,
  Forall (fun n => (n <= 8)%nat) ws ->
  forallb (in_range 4) (map hex_value (split_widths ws s)) = true.
Proof.
  induction ws as [|n ws IH]; intros s Hws; [reflexivity|].
  inversion Hws as [|? ? Hn Hrest]; subst.
  cbn [split_widths map forallb]. rewrite IH by exact Hrest.
  rewrite hex_value_in_range; [reflexivity|].
  rewrite length_firstn. lia.
Qed.

(** The eleven fields fit the 32-bit words they are packed in. *)
Lemma guid_fields_in_range guid : forallb (in_range 4) (guid_fields guid) = true.
Proof.
  unfold guid_fields. apply split_widths_in_range.
  unfold field_widths. repeat constructor.
Qed.

Lemma pack_get_total ds g n k name :
  length g = 11%nat -> forallb (in_range 4) g = true ->
  0 <= ds < 2 ^ 32 -> 0 <= n < 2 ^ 32 ->
  exists buf, pack_get ds g n k name = Ok buf.
Proof.
  intros Hl Hg Hds Hn.
  destruct (pack_words_total 4 13 (ds :: g ++ [n])) as [ws Hw].
  - cbn [length]. rewrite length_app, Hl. reflexivity.
  - cbn [forallb]. rewrite forallb_app, Hg. cbn [forallb].
    rewrite !in_range_4 by assumption. reflexivity.
  - unfold pack_get. rewrite Hw. cbn [rbind pack_s]. eauto.
Qed.

Lemma pack_set_total ds g attr n dl name b :
  length g = 11%nat -> forallb (in_range 4) g = true ->
  0 <= ds < 2 ^ 32 -> 0 <= attr < 2 ^ 32 -> 0 <= n < 2 ^ 32 -> 0 <= dl < 2 ^ 32 ->
  exists buf, pack_set ds g attr n dl name (VBytes b) = Ok buf.
Proof.
  intros Hl Hg Hds Hattr Hn Hdl.
  destruct (pack_words_total 4 15 (ds :: g ++ [attr; n; dl])) as [ws Hw].
  - cbn [length]. rewrite length_app, Hl. reflexivity.
  - cbn [forallb]. rewrite forallb_app, Hg. cbn [forallb].
    rewrite !in_range_4 by assumption. reflexivity.
  - unfold pack_set. rewrite Hw. cbn [rbind pack_s]. eauto.
Qed.

(** ** SET and DELETE *)

Lemma pack_set_inv ds g attr n dl name value buf :
  pack_set ds g attr n dl name value = Ok buf ->
  exists ws s1 s2,
    pack_words 4 15 (ds :: g ++ [attr; n; dl]) = Ok ws /\
    pack_s n (VBytes (encode name)) = Ok s1 /\
    pack_s dl value = Ok s2 /\ buf = ws ++ s1 ++ s2.
Proof.
  unfold pack_set.
  destruct (pack_words 4 15 (ds :: g ++ [attr; n; dl])) as [ws|] eqn:Hw; [|discriminate].
  cbn [rbind pack_s].
  destruct (pack_s dl value) as [s2|] eqn:Hs2; [|discriminate].
  cbn [rbind]. intros H; injection H as <-.
  do 3 eexists. repeat split; reflexivity.
Qed.

(** The fifteen header words of a SET request, and its length. *)
Lemma pack_set_words ds g attr n dl name value buf :
  pack_set ds g attr n dl name value = Ok buf ->
  unpack_words 4 15 (firstn 60 buf) = Ok (ds :: g ++ [attr; n; dl]) /\
  length buf = (60 + Z.to_nat n + Z.to_nat dl)%nat.
Proof.
  intros H. apply pack_set_inv in H as (ws & s1 & s2 & Hw & Hs1 & Hs2 & ->).
  pose proof (pack_words_length _ _ _ _ Hw) as Hl.
  split.
  - rewrite firstn_app. replace (60 - length ws)%nat with 0%nat by lia.
    rewrite firstn_O, app_nil_r, firstn_all2 by lia.
    apply unpack_pack_words, Hw.
  - rewrite !length_app, Hl, (pack_s_bytes_length _ _ _ Hs1).
    destruct value as [| |b]; try discriminate Hs2.
    rewrite (pack_s_bytes_length _ _ _ Hs2). lia.
Qed.

Lemma kern_set_run E w base pos name guid value attr g in_buf :
  _ioctl_base (self w) = Some base ->
  dev_fh (self w) = Some pos ->
  parse_guid guid = Ok g ->
  pack_set (60 + len name + fst (set_payload value)) g attr (len name)
           (fst (set_payload value)) name (snd (set_payload value)) = Ok in_buf ->
  let code := base + IOCTL_SET_EFIVAR in
  let reply := drv_ioctl E (trace w) code in_buf in
  let w1 := {| self := self w; trace := trace w ++ [EvIoctl code in_buf reply] |} in
  kern_set_EFI_variable E name guid value attr w =
    match reply with
    | IoFail => (Raise IOError, w1)
    | IoData d =>
        match unpack_size_status (overwrite in_buf d) with
        | Raise e => (Raise e, w1)
        | Ok (size, status) =>
            (Ok status,
             {| self := self w;
                trace := trace w1 ++
                         [if negb (status =? 0)
                          then EvLog (MsgSetFailed (status_name status) status)
                          else EvSystem remount_cmd] |})
        end
    end.
Proof.
  intros Hb Hf Hparse Hpack. unfold kern_set_EFI_variable.
  destruct (set_payload value) as [datalen value'] eqn:Hpl.
  cbn [fst snd] in Hpack. run. rewrite Hparse, Hpack.
  rewrite (ioctl_run E IOCTL_SET_EFIVAR (Mutable in_buf) w base pos Hb Hf eq_refl).
  cbv zeta. cbn [ioarg_bytes].
  destruct (drv_ioctl E _ _ in_buf) as [|d]; [reflexivity|].
  destruct (unpack_size_status (overwrite in_buf d)) as [[size status]|]; [|reflexivity].
  destruct (status =? 0); reflexivity.
Qed.

Lemma set_payload_falsy value :
  truthy value = false -> set_payload value = (0, VBytes [x00]).
Proof. unfold set_payload. intros ->. reflexivity. Qed.

Lemma parse_guid_length guid g : parse_guid guid = Ok g -> length g = 11%nat.
Proof.
  unfold parse_guid.
  repeat match goal with
         | |- context [int16 ?s] => destruct (int16 s); cbn [rbind]; [|discriminate]
         end.
  intros H; injection H as <-. reflexivity.
Qed.

(** The zero byte that stands in for an empty value is packed under a
    field of width 0: it leaves no trace in the buffer. *)
Lemma pack_set_zero_width ds g attr n name b b' :
  pack_set ds g attr n 0 name (VBytes b) = pack_set ds g attr n 0 name (VBytes b').
Proof. unfold pack_set. destruct (pack_words 4 15 _); reflexivity. Qed.

(** C8, as the code has it: DELETE is SET with an empty payload; for an
    empty or [None] value SET takes [datalen = 0] and hands one zero
    byte to the packing in place of the value.  The request that goes
    out has 0 in its datalen word and is 60 + len(name) bytes long,
    header and name: the zero byte is packed under a field of width 0
    and is not in the buffer, which is the one an empty value would
    give.  The status returned is the second of the two 32-bit words
    decoded from the first eight bytes of the response. *)
Theorem delete_is_empty_set (E : Env) (name guid : pystr) :
  (forall value datasize attrs,
      truthy value = false ->
      delete_EFI_variable E name guid = set_EFI_variable E name guid value datasize attrs) /\
  (forall value, truthy value = false -> set_payload value = (0, VBytes [x00])) /\
  (forall value g attr w base pos,
      truthy value = false ->
      _ioctl_base (self w) = Some base ->
      dev_fh (self w) = Some pos ->
      parse_guid guid = Ok g ->
      forallb (in_range 4) g = true ->
      0 <= attr < 2 ^ 32 ->
      60 + len name < 2 ^ 32 ->
      exists in_buf reply,
        pack_set (60 + len name + 0) g attr (len name) 0 name (VBytes [x00]) = Ok in_buf /\
        pack_set (60 + len name + 0) g attr (len name) 0 name (VBytes []) = Ok in_buf /\
        unpack_words 4 15 (firstn 60 in_buf) =
          Ok ((60 + len name + 0) :: g ++ [attr; len name; 0]) /\
        len in_buf = 60 + len name /\
        trace (snd (kern_set_EFI_variable E name guid value attr w)) =
          trace w ++ EvIoctl (base + IOCTL_SET_EFIVAR) in_buf reply ::
            match reply with
            | IoFail => []
            | IoData d =>
                match unpack_size_status (overwrite in_buf d) with
                | Ok (_, status) =>
                    [if negb (status =? 0)
                     then EvLog (MsgSetFailed (status_name status) status)
                     else EvSystem remount_cmd]
                | Raise _ => []
                end
            end /\
        forall d size status,
          reply = IoData d ->
          unpack_size_status (overwrite in_buf d) = Ok (size, status) ->
          fst (kern_set_EFI_variable E name guid value attr w) = Ok status).
Proof.
  split; [|split].
  - intros value datasize attrs Hv.
    unfold delete_EFI_variable, set_EFI_variable, kern_set_EFI_variable.
    rewrite (set_payload_falsy value Hv), (set_payload_falsy (VStr []) eq_refl).
    reflexivity.
  - apply set_payload_falsy.
  - intros value g attr w base pos Hv Hb Hf Hparse Hrange Hattr Hfit.
    assert (Hn : 0 <= len name) by (unfold len; lia).
    destruct (pack_set_total (60 + len name + 0) g attr (len name) 0 name [x00]
                (parse_guid_length _ _ Hparse) Hrange) as [in_buf Hpack]; try lia.
    exists in_buf, (drv_ioctl E (trace w) (base + IOCTL_SET_EFIVAR) in_buf).
    destruct (pack_set_words _ _ _ _ _ _ _ _ Hpack) as [Hwords Hlen].
    split; [exact Hpack|].
    split; [rewrite <- Hpack; apply pack_set_zero_width|].
    split; [exact Hwords|]. split.
    { unfold len at 1. rewrite Hlen. unfold len. lia. }
    pose proof (kern_set_run E w base pos name guid value attr g in_buf Hb Hf Hparse)
      as Hrun.
    rewrite (set_payload_falsy value Hv) in Hrun. cbn [fst snd] in Hrun.
    specialize (Hrun Hpack). cbv zeta in Hrun.
    rewrite Hrun. split.
    + destruct (drv_ioctl E _ _ in_buf) as [|d]; cbn [snd trace]; [reflexivity|].
      destruct (unpack_size_status (overwrite in_buf d)) as [[size status]|];
        cbn [snd trace]; rewrite <- ?app_assoc; reflexivity.
    + intros d size status -> Hdecode. rewrite Hdecode. reflexivity.
Qed.

(** On a Boot variable the driver reports status 0; DELETE returns it. *)
Lemma delete_is_empty_set_witness :
  fst (delete_EFI_variable (env_of maxsize64 [IoData (le_encode 4 0 ++ le_encode 4 0)])
         (str "Boot") efi_global
         (started (env_of maxsize64 [IoData (le_encode 4 0 ++ le_encode 4 0)]))) = Ok 0.
Proof.
  assert (Hparse : parse_guid efi_global = Ok (guid_fields efi_global))
    by (vm_compute; reflexivity).
  assert (Hattr : 0 <= 0x7 < 2 ^ 32) by (split; [discriminate|reflexivity]).
  assert (Hfit : 60 + len (str "Boot") < 2 ^ 32) by reflexivity.
  destruct (proj2 (proj2 (delete_is_empty_set
              (env_of maxsize64 [IoData (le_encode 4 0 ++ le_encode 4 0)])
              (str "Boot") efi_global))
              (VStr []) (guid_fields efi_global) 0x7
              (started (env_of maxsize64 [IoData (le_encode 4 0 ++ le_encode 4 0)]))
              0xC0084300 0 eq_refl eq_refl eq_refl Hparse
              (guid_fields_in_range efi_global) Hattr Hfit)
    as (in_buf & reply & Hpack & _ & _ & _ & Ht & Hstatus).
  assert (Hbuf : in_buf = boot_delete).
  { assert (Hpack' : pack_set (60 + len (str "Boot") + 0) (guid_fields efi_global) 0x7
                       (len (str "Boot")) 0 (str "Boot") (VBytes [x00]) = Ok boot_delete)
      by (vm_compute; reflexivity).
    rewrite Hpack in Hpack'. injection Hpack' as ->. reflexivity. }
  subst in_buf.
  apply (Hstatus (le_encode 4 0 ++ le_encode 4 0) 0 0).
  - vm_compute in Ht. injection Ht as Hr. symmetry. exact Hr.
  - vm_compute. reflexivity.
Defined.

(** C8 as stated fails on the buffer: the request that DELETE of [Boot]
    sends is 64 bytes, the 60 of the header and then the four of the
    name; no zero byte stands for the value. *)
Lemma delete_request_has_no_value_byte :
  ioctl_calls (trace (snd (delete_EFI_variable (env_of maxsize64 []) (str "Boot")
                             efi_global (started (env_of maxsize64 [])))))
  = [(0xC0084300 + IOCTL_SET_EFIVAR, boot_delete, IoFail)] /\
  len boot_delete = 64 /\
  skipn 60 boot_delete = encode (str "Boot").
Proof. vm_compute. repeat split. Qed.

(** ** The GUID in the requests *)

Lemma get_first_request E w base pos name guid g in_buf :
  _ioctl_base (self w) = Some base ->
  dev_fh (self w) = Some pos ->
  parse_guid guid = Ok g ->
  pack_get (52 + len name) g (len name) (len name) name = Ok in_buf ->
  exists rest,
    trace (snd (kern_get_EFI_variable_full E name guid w)) =
      trace w ++ EvIoctl (base + IOCTL_GET_EFIVAR) in_buf
                   (drv_ioctl E (trace w) (base + IOCTL_GET_EFIVAR) in_buf) :: rest.
Proof.
  intros Hb Hf Hparse Hpack. unfold kern_get_EFI_variable_full. run.
  rewrite Hparse, Hpack.
  rewrite (ioctl_run E IOCTL_GET_EFIVAR (Mutable in_buf) w base pos Hb Hf eq_refl).
  cbv zeta. cbn [ioarg_bytes].
  destruct (drv_ioctl E (trace w) _ in_buf) as [|d]; [trace_tail|].
  destruct (unpack_size_status (overwrite in_buf d)) as [[N st]|]; [|trace_tail].
  destruct (st =? 5).
  - destruct (pack_get (N + 52 + len name) g _ _ name) as [in_buf2|]; [|trace_tail].
    unfold ioctl. run. rewrite Hb. run. rewrite Hf. cbn [oversized]. run.
    cbn [ioarg_bytes].
    destruct (drv_ioctl E _ _ in_buf2) as [|d2]; cbn [is_IOError]; [trace_tail|].
    destruct (unpack_size_status (overwrite in_buf2 d2)) as [[N2 st2]|]; [|trace_tail].
    destruct (_ <? N2); [trace_tail|]. destruct (0 <? st2); [trace_tail|].
    destruct (unpack_words 4 1 _) as [a|]; [|trace_tail].
    destruct (item a 0); trace_tail.
  - destruct (_ <? N); [trace_tail|]. destruct (0 <? st); [trace_tail|].
    destruct (unpack_words 4 1 _) as [a|]; [|trace_tail].
    destruct (item a 0); trace_tail.
Qed.

Lemma canonical_field_widths guid :
  canonical_guid guid = true ->
  map (@length ascii) (split_widths field_widths (drop_positions dash_positions guid))
  = field_widths.
Proof.
  unfold canonical_guid. intros H.
  apply andb_true_iff in H as [H _]. apply andb_true_iff in H as [Hlen _].
  apply Nat.eqb_eq in Hlen.
  do 36 (destruct guid as [|? guid]; [discriminate Hlen|]).
  destruct guid; [reflexivity|discriminate Hlen].
Qed.

Lemma header_guid_words n ds g rest ws tail :
  length g = 11%nat ->
  pack_words 4 n (ds :: g ++ rest) = Ok ws ->
  unpack_words 4 12 (firstn 48 (ws ++ tail)) = Ok (ds :: g).
Proof.
  intros Hl Hw. apply pack_words_ok in Hw as (_ & Hr & ->).
  assert (Hr' : forallb (in_range 4) (ds :: g) = true).
  { cbn [forallb] in *. rewrite forallb_app in Hr.
    apply andb_true_iff in Hr as [Hd Hr]. apply andb_true_iff in Hr as [Hg _].
    rewrite Hd, Hg. reflexivity. }
  destruct (pack_words_total 4 12 (ds :: g)) as [ws12 H12];
    [cbn [length]; rewrite Hl; reflexivity|exact Hr'|].
  pose proof (pack_words_length _ _ _ _ H12) as Hlen.
  pose proof (unpack_pack_words _ _ _ _ H12) as Hun.
  apply pack_words_ok in H12 as (_ & _ & ->).
  change (ds :: g ++ rest) with ((ds :: g) ++ rest).
  rewrite flat_map_app, <- app_assoc, firstn_app.
  replace (48 - length (flat_map (le_encode 4) (ds :: g)))%nat with 0%nat by lia.
  rewrite firstn_O, app_nil_r, firstn_all2 by lia. exact Hun.
Qed.

Lemma pack_get_guid_words ds g n k name buf :
  length g = 11%nat -> pack_get ds g n k name = Ok buf ->
  unpack_words 4 12 (firstn 48 buf) = Ok (ds :: g).
Proof.
  intros Hl H. apply pack_get_inv in H as (ws & s & Hw & _ & ->).
  apply (header_guid_words 13 ds g [n] ws s Hl Hw).
Qed.

Lemma pack_set_guid_words ds g attr n dl name value buf :
  length g = 11%nat -> pack_set ds g attr n dl name value = Ok buf ->
  unpack_words 4 12 (firstn 48 buf) = Ok (ds :: g).
Proof.
  intros Hl H. apply pack_set_inv in H as (ws & s1 & s2 & Hw & _ & _ & ->).
  apply (header_guid_words 15 ds g [attr; n; dl] ws (s1 ++ s2) Hl Hw).
Qed.

(** Closes [exists calls, ioctl_calls (trace _) = _ ++ calls /\
    guid_words_ok g calls] once the run is in normal form, from the
    facts on the requests that are in the context. *)
Ltac guid_calls_tail :=
  cbn [snd trace]; rewrite <- ?app_assoc;
  match goal with
  | |- exists calls, ioctl_calls (trace ?w ++ ?l) = _ /\ _ =>
      exists (ioctl_calls l); split;
      [apply ioctl_calls_app
      |unfold guid_words_ok; cbn [ioctl_calls flat_map app];
       repeat constructor; cbn [fst snd]; eauto]
  | |- exists calls, ioctl_calls (trace ?w) = _ /\ _ =>
      exists []; split; [symmetry; apply app_nil_r|constructor]
  end.

Lemma get_guid_words E name guid g w :
  parse_guid guid = Ok g ->
  exists calls,
    ioctl_calls (trace (snd (kern_get_EFI_variable_full E name guid w)))
    = ioctl_calls (trace w) ++ calls /\ guid_words_ok g calls.
Proof.
  intros Hparse. pose proof (parse_guid_length _ _ Hparse) as Hl.
  unfold kern_get_EFI_variable_full. run. rewrite Hparse.
  destruct (pack_get (52 + len name) g (len name) (len name) name) as [in_buf|] eqn:Hpack;
    [|guid_calls_tail].
  pose proof (pack_get_guid_words _ _ _ _ _ _ Hl Hpack) as H1.
  destruct (ioctl_cases E IOCTL_GET_EFIVAR (Mutable in_buf) w eq_refl)
    as [[_ ->]|[[_ ->]|(base & pos & Hb & Hf & ->)]]; try guid_calls_tail.
  cbv zeta. cbn [ioarg_bytes].
  destruct (drv_ioctl E (trace w) _ in_buf) as [|d]; [guid_calls_tail|].
  destruct (unpack_size_status (overwrite in_buf d)) as [[N st]|]; [|guid_calls_tail].
  destruct (st =? 5).
  - destruct (pack_get (N + 52 + len name) g (len name) (len name + N) name)
      as [in_buf2|] eqn:Hpack2; [|guid_calls_tail].
    pose proof (pack_get_guid_words _ _ _ _ _ _ Hl Hpack2) as H2.
    unfold ioctl. run. rewrite Hb. run. rewrite Hf. cbn [oversized]. run.
    cbn [ioarg_bytes].
    destruct (drv_ioctl E _ _ in_buf2) as [|d2]; cbn [is_IOError]; [guid_calls_tail|].
    destruct (unpack_size_status (overwrite in_buf2 d2)) as [[N2 st2]|]; [|guid_calls_tail].
    destruct (_ <? N2); [guid_calls_tail|]. destruct (0 <? st2); [guid_calls_tail|].
    destruct (unpack_words 4 1 _) as [a|]; [|guid_calls_tail].
    destruct (item a 0); guid_calls_tail.
  - destruct (_ <? N); [guid_calls_tail|]. destruct (0 <? st); [guid_calls_tail|].
    destruct (unpack_words 4 1 _) as [a|]; [|guid_calls_tail].
    destruct (item a 0); guid_calls_tail.
Qed.

Lemma set_guid_words E name guid g value attr w :
  parse_guid guid = Ok g ->
  exists calls,
    ioctl_calls (trace (snd (kern_set_EFI_variable E name guid value attr w)))
    = ioctl_calls (trace w) ++ calls /\ guid_words_ok g calls.
Proof.
  intros Hparse. pose proof (parse_guid_length _ _ Hparse) as Hl.
  unfold kern_set_EFI_variable.
  destruct (set_payload value) as [datalen value']. run. rewrite Hparse.
  destruct (pack_set _ g attr (len name) datalen name value') as [in_buf|] eqn:Hpack;
    [|guid_calls_tail].
  pose proof (pack_set_guid_words _ _ _ _ _ _ _ _ Hl Hpack) as H1.
  destruct (ioctl_cases E IOCTL_SET_EFIVAR (Mutable in_buf) w eq_refl)
    as [[_ ->]|[[_ ->]|(base & pos & Hb & Hf & ->)]]; try guid_calls_tail.
  cbv zeta. cbn [ioarg_bytes].
  destruct (drv_ioctl E (trace w) _ in_buf) as [|d]; [guid_calls_tail|].
  destruct (unpack_size_status (overwrite in_buf d)) as [[size status]|]; [|guid_calls_tail].
  destruct (status =? 0); cbn [negb]; run; guid_calls_tail.
Qed.

Lemma set_payload_bytes value :
  (forall c s, value <> VStr (c :: s)) ->
  exists b, snd (set_payload value) = VBytes b /\ 0 <= fst (set_payload value).
Proof.
  intros Hv. unfold set_payload.
  destruct value as [|[|c s]|[|b0 b]]; cbn [truthy fst snd pylen].
  - eexists; split; [reflexivity|lia].
  - eexists; split; [reflexivity|lia].
  - destruct (Hv c s eq_refl).
  - eexists; split; [reflexivity|lia].
  - eexists; split; [reflexivity|unfold len; lia].
Qed.

(** C5: a canonical GUID string parses, in GET and in SET alike, into
    eleven integers, the values of its runs of 8, 4, 4, 2, 2, 2, 2, 2,
    2, 2 and 2 hexadecimal digits with the dashes at 8, 13, 18 and 23
    skipped.  Every request that GET or SET sends, on any session and
    for any name and value, carries them in that order after the size
    word; and on a started session the request does go out, when the
    sizes fit their 32-bit words and the value of SET is one that
    packs (anything but a non-empty [str]). *)
Theorem guid_fields_in_requests (E : Env) (guid : pystr) :
  canonical_guid guid = true ->
  parse_guid guid = Ok (guid_fields guid) /\
  length (guid_fields guid) = 11%nat /\
  map (@length ascii) (split_widths field_widths (drop_positions dash_positions guid))
  = [8; 4; 4; 2; 2; 2; 2; 2; 2; 2; 2]%nat /\
  (forall name w,
      exists calls,
        ioctl_calls (trace (snd (kern_get_EFI_variable_full E name guid w)))
        = ioctl_calls (trace w) ++ calls /\ guid_words_ok (guid_fields guid) calls) /\
  (forall name value attr w,
      exists calls,
        ioctl_calls (trace (snd (kern_set_EFI_variable E name guid value attr w)))
        = ioctl_calls (trace w) ++ calls /\ guid_words_ok (guid_fields guid) calls) /\
  (forall w base pos name,
      _ioctl_base (self w) = Some base ->
      dev_fh (self w) = Some pos ->
      52 + len name < 2 ^ 32 ->
      exists in_buf reply rest,
        trace (snd (kern_get_EFI_variable_full E name guid w)) =
          trace w ++ EvIoctl (base + IOCTL_GET_EFIVAR) in_buf reply :: rest /\
        unpack_words 4 13 (firstn 52 in_buf) =
          Ok ((52 + len name) :: guid_fields guid ++ [len name])) /\
  (forall w base pos name value attr,
      _ioctl_base (self w) = Some base ->
      dev_fh (self w) = Some pos ->
      (forall c s, value <> VStr (c :: s)) ->
      0 <= attr < 2 ^ 32 ->
      60 + len name + fst (set_payload value) < 2 ^ 32 ->
      exists in_buf reply rest,
        trace (snd (kern_set_EFI_variable E name guid value attr w)) =
          trace w ++ EvIoctl (base + IOCTL_SET_EFIVAR) in_buf reply :: rest /\
        unpack_words 4 15 (firstn 60 in_buf) =
          Ok ((60 + len name + fst (set_payload value))
                :: guid_fields guid ++ [attr; len name; fst (set_payload value)])).
Proof.
  intros Hc. pose proof (parse_guid_canonical guid Hc) as Hparse.
  pose proof (guid_fields_length guid) as Hlen.
  pose proof (guid_fields_in_range guid) as Hrange.
  split; [exact Hparse|]. split; [exact Hlen|].
  split; [apply canonical_field_widths, Hc|].
  split; [intros name w; apply (get_guid_words E name guid _ w Hparse)|].
  split; [intros name value attr w; apply (set_guid_words E name guid _ value attr w Hparse)|].
  split.
  - intros w base pos name Hb Hf Hfit.
    assert (Hn : 0 <= len name) by (unfold len; lia).
    destruct (pack_get_total (52 + len name) (guid_fields guid) (len name) (len name) name
                Hlen Hrange) as [in_buf Hpack]; try lia.
    destruct (get_first_request E w base pos name guid _ in_buf Hb Hf Hparse Hpack)
      as [rest Hrest].
    exists in_buf. do 2 eexists. split; [exact Hrest|].
    apply (pack_get_words _ _ _ _ _ _ Hpack).
  - intros w base pos name value attr Hb Hf Hv Hattr Hfit.
    assert (Hn : 0 <= len name) by (unfold len; lia).
    destruct (set_payload_bytes value Hv) as (b & Hb' & Hdl).
    destruct (pack_set_total (60 + len name + fst (set_payload value)) (guid_fields guid)
                attr (len name) (fst (set_payload value)) name b Hlen Hrange)
      as [in_buf Hpack]; try lia.
    rewrite <- Hb' in Hpack.
    exists in_buf, (drv_ioctl E (trace w) (base + IOCTL_SET_EFIVAR) in_buf).
    rewrite (kern_set_run E w base pos name guid value attr _ in_buf Hb Hf Hparse Hpack).
    cbv zeta. pose proof (proj1 (pack_set_words _ _ _ _ _ _ _ _ Hpack)) as Hwords.
    destruct (drv_ioctl E _ _ in_buf) as [|d];
      [|destruct (unpack_size_status (overwrite in_buf d)) as [[size status]|]];
      cbn [snd trace]; rewrite <- ?app_assoc; cbn [app]; eexists;
      (split; [reflexivity|exact Hwords]).
Qed.

(** The global GUID, with the values of its fields, and the requests
    that GET and SET of [Boot] send under it on a 64-bit session. *)
Lemma guid_fields_in_requests_witness :
  parse_guid efi_global =
    Ok [0x8be4df61; 0x93ca; 0x11d2; 0xaa; 0x0d; 0x00; 0xe0; 0x98; 0x03; 0x2b; 0x8c] /\
  (exists in_buf reply rest,
      trace (snd (kern_get_EFI_variable_full (env_of maxsize64 []) (str "Boot") efi_global
                    (started (env_of maxsize64 [])))) =
        trace (started (env_of maxsize64 []))
        ++ EvIoctl (0xC0084300 + IOCTL_GET_EFIVAR) in_buf reply :: rest /\
      unpack_words 4 13 (firstn 52 in_buf) =
        Ok ((52 + len (str "Boot")) :: guid_fields efi_global ++ [len (str "Boot")])) /\
  (exists in_buf reply rest,
      trace (snd (kern_set_EFI_variable (env_of maxsize64 []) (str "Boot") efi_global
                    (VBytes [x01; x02]) 0x7 (started (env_of maxsize64 [])))) =
        trace (started (env_of maxsize64 []))
        ++ EvIoctl (0xC0084300 + IOCTL_SET_EFIVAR) in_buf reply :: rest /\
      unpack_words 4 15 (firstn 60 in_buf) =
        Ok ((60 + len (str "Boot") + fst (set_payload (VBytes [x01; x02])))
              :: guid_fields efi_global
                 ++ [0x7; len (str "Boot"); fst (set_payload (VBytes [x01; x02]))])).
Proof.
  destruct (guid_fields_in_requests (env_of maxsize64 []) efi_global eq_refl)
    as (Hparse & _ & _ & _ & _ & Hget & Hset).
  split; [exact Hparse|]. split.
  - apply (Hget (started (env_of maxsize64 [])) 0xC0084300 0 (str "Boot") eq_refl eq_refl).
    vm_compute. reflexivity.
  - apply (Hset (started (env_of maxsize64 [])) 0xC0084300 0 (str "Boot")
             (VBytes [x01; x02]) 0x7 eq_refl eq_refl).
    + intros c s H. discriminate H.
    + split; [discriminate|reflexivity].
    + vm_compute. reflexivity.
Defined.

(** ** LIST and its entries *)

Lemma pystr_eqb_eq a b : pystr_eqb a b = true <-> a = b.
Proof.
  unfold pystr_eqb. destruct (list_eq_dec ascii_dec a b); split; congruence.
Qed.

Lemma dict_get_set d name v : dict_get (dict_set d name v) name = Some v.
Proof.
  induction d as [|[k x] r IH]; cbn [dict_set dict_get].
  - assert (H : pystr_eqb name name = true) by (apply pystr_eqb_eq; reflexivity).
    rewrite H. reflexivity.
  - destruct (pystr_eqb k name) eqn:Hk; cbn [dict_get]; rewrite Hk; [reflexivity|exact IH].
Qed.

Lemma dict_set_set d name v v' :
  dict_set (dict_set d name v) name v' = dict_set d name v'.
Proof.
  induction d as [|[k x] r IH]; cbn [dict_set].
  - assert (H : pystr_eqb name name = true) by (apply pystr_eqb_eq; reflexivity).
    rewrite H. reflexivity.
  - destruct (pystr_eqb k name) eqn:Hk; cbn [dict_set]; rewrite Hk; [reflexivity|].
    rewrite IH. reflexivity.
Qed.

Lemma dict_append_set d name var :
  dict_append (dict_set d name []) name var = dict_set d name [var].
Proof.
  unfold dict_append. rewrite dict_get_set. cbn [app]. apply dict_set_set.
Qed.

Lemma list_loop_app E pre : forall post variables w d w',
  list_loop E pre variables w = (Ok d, w') ->
  list_loop E (pre ++ post) variables w = list_loop E post d w'.
Proof.
  induction pre as [|v rest IH]; intros post variables w d w' Hrun.
  - cbn in Hrun. injection Hrun as <- <-. reflexivity.
  - cbn [app list_loop] in *.
    destruct (truthy (VStr (entry_name v))); [|apply IH, Hrun].
    unfold bind in *.
    destruct (kern_get_EFI_variable_full E (entry_name v) (entry_guid v) w) as [[var|e] w1];
      [|discriminate].
    apply IH, Hrun.
Qed.

(** A GET only adds to the history. *)
Lemma get_trace_extends E name guid w :
  exists more, trace (snd (kern_get_EFI_variable_full E name guid w)) = trace w ++ more.
Proof.
  unfold kern_get_EFI_variable_full, ioctl. run.
  break_match; cbn [snd trace is_IOError] in *; run;
    try (break_match; cbn [snd trace] in *);
    rewrite <- ?app_assoc;
    first [eexists; reflexivity | exists []; rewrite app_nil_r; reflexivity].
Qed.

Lemma list_loop_trace_extends E varlist : forall variables w,
  exists more, trace (snd (list_loop E varlist variables w)) = trace w ++ more.
Proof.
  induction varlist as [|v rest IH]; intros variables w.
  - exists []. cbn. rewrite app_nil_r. reflexivity.
  - cbn [list_loop]. destruct (truthy (VStr (entry_name v))); [|apply IH].
    unfold bind.
    destruct (get_trace_extends E (entry_name v) (entry_guid v) w) as [m1 H1].
    destruct (kern_get_EFI_variable_full E (entry_name v) (entry_guid v) w)
      as [[var|e] w1]; cbn [snd] in *.
    + destruct (IH (dict_append (dict_set variables (entry_name v) []) (entry_name v) var)
                  w1) as [m2 H2].
      rewrite H2, H1, <- app_assoc. eauto.
    + eauto.
Qed.

(** LIST reads the directory and runs the loop over its entries. *)
Lemma kern_list_run E w p varlist :
  listed_dir E = Some p -> os_listdir E p = Ok varlist ->
  kern_list_EFI_variables E w =
    (variables <- list_loop E varlist [] ;; ret (Some variables)) w.
Proof.
  unfold listed_dir, kern_list_EFI_variables. intros Hp Hl.
  destruct (os_isdir E "/sys/firmware/efi/efivars");
    [|destruct (os_isdir E "/sys/firmware/efi/vars"); [|discriminate]];
    injection Hp as <-; run; rewrite Hl; reflexivity.
Qed.

(** C6: an entry of the directory splits into the name, the entry
    without its last 37 characters, and the GUID, everything after the
    character that follows the name; the entry of the example gives
    [MyVar] and its GUID.  LIST does so with every entry it comes to:
    it passes over an entry whose name is empty, and for any other it
    runs GET under that name and that GUID and files the result under
    the name; on a started session the request that LIST sends for
    the first entry is the one GET packs for the name and the fields
    of the GUID. *)
Theorem list_entry_split (E : Env) :
  (forall v,
      entry_name v = firstn (length v - 37) v /\
      entry_guid v = skipn (length (entry_name v) + 1) v) /\
  (forall v, (37 <= length v)%nat ->
      exists c, v = entry_name v ++ c :: entry_guid v /\
                length (entry_guid v) = 36%nat) /\
  (forall name guid, length guid = 36%nat ->
      entry_name (name ++ "-"%char :: guid) = name /\
      entry_guid (name ++ "-"%char :: guid) = guid) /\
  (entry_name (str "MyVar-8be4df61-93ca-11d2-aa0d-00e098032b8c") = str "MyVar" /\
   entry_guid (str "MyVar-8be4df61-93ca-11d2-aa0d-00e098032b8c")
   = str "8be4df61-93ca-11d2-aa0d-00e098032b8c") /\
  (forall w w1 p pre v rest d,
      listed_dir E = Some p ->
      os_listdir E p = Ok (pre ++ v :: rest) ->
      list_loop E pre [] w = (Ok d, w1) ->
      (entry_name v = [] ->
       kern_list_EFI_variables E w =
         (variables <- list_loop E rest d ;; ret (Some variables)) w1) /\
      (entry_name v <> [] ->
       kern_list_EFI_variables E w =
         (var <- kern_get_EFI_variable_full E (entry_name v) (entry_guid v) ;;
          variables <- list_loop E rest (dict_set d (entry_name v) [var]) ;;
          ret (Some variables)) w1)) /\
  (forall w base pos p name guid rest,
      listed_dir E = Some p ->
      os_listdir E p = Ok ((name ++ "-"%char :: guid) :: rest) ->
      _ioctl_base (self w) = Some base ->
      dev_fh (self w) = Some pos ->
      name <> [] ->
      canonical_guid guid = true ->
      52 + len name < 2 ^ 32 ->
      exists in_buf reply more,
        pack_get (52 + len name) (guid_fields guid) (len name) (len name) name
        = Ok in_buf /\
        trace (snd (kern_list_EFI_variables E w)) =
          trace w ++ EvIoctl (base + IOCTL_GET_EFIVAR) in_buf reply :: more).
Proof.
  assert (Hwf : forall name guid, length guid = 36%nat ->
            entry_name (name ++ "-"%char :: guid) = name /\
            entry_guid (name ++ "-"%char :: guid) = guid).
  { intros name guid Hg.
    assert (Hn : entry_name (name ++ "-"%char :: guid) = name).
    { rewrite entry_name_firstn, length_app. cbn [length]. rewrite Hg.
      replace (length name + 37 - 37)%nat with (length name + 0)%nat by lia.
      rewrite firstn_app_2. cbn [firstn]. apply app_nil_r. }
    split; [exact Hn|].
    rewrite entry_guid_skipn, Hn.
    rewrite skipn_app.
    rewrite skipn_all2 by lia.
    replace (length name + 1 - length name)%nat with 1%nat by lia.
    reflexivity. }
  assert (Hstep : forall w w1 p pre v rest d,
            listed_dir E = Some p ->
            os_listdir E p = Ok (pre ++ v :: rest) ->
            list_loop E pre [] w = (Ok d, w1) ->
            kern_list_EFI_variables E w =
              (variables <- list_loop E (v :: rest) d ;; ret (Some variables)) w1).
  { intros w w1 p pre v rest d Hp Hl Hpre.
    rewrite (kern_list_run E w p _ Hp Hl). unfold bind at 1.
    rewrite (list_loop_app E pre (v :: rest) [] w d w1 Hpre). reflexivity. }
  split; [|split; [|split; [|split; [|split]]]].
  - intros v. split; [apply entry_name_firstn|apply entry_guid_skipn].
  - intros v Hv.
    assert (Hlen : length (entry_name v) = (length v - 37)%nat).
    { rewrite entry_name_firstn, length_firstn. lia. }
    destruct (skipn (length v - 37) v) as [|c g] eqn:Hs.
    { apply (f_equal (@length ascii)) in Hs. rewrite length_skipn in Hs.
      cbn [length] in Hs. lia. }
    exists c.
    assert (Hg : entry_guid v = g).
    { rewrite entry_guid_skipn, Hlen.
      replace (length v - 37 + 1)%nat with (1 + (length v - 37))%nat by lia.
      rewrite <- skipn_skipn, Hs. reflexivity. }
    rewrite Hg. split.
    + rewrite entry_name_firstn, <- Hs. symmetry. apply firstn_skipn.
    + apply (f_equal (@length ascii)) in Hs. rewrite length_skipn in Hs.
      cbn [length] in Hs. lia.
  - exact Hwf.
  - apply (Hwf (str "MyVar") (str "8be4df61-93ca-11d2-aa0d-00e098032b8c")).
    reflexivity.
  - intros w w1 p pre v rest d Hp Hl Hpre.
    rewrite (Hstep w w1 p pre v rest d Hp Hl Hpre). split; intros Hn.
    + cbn [list_loop]. rewrite Hn. reflexivity.
    + cbn [list_loop].
      destruct (entry_name v) as [|c n] eqn:Hname; [contradiction|].
      cbn [truthy]. unfold bind.
      destruct (kern_get_EFI_variable_full E (c :: n) (entry_guid v) w1) as [[var|e] w2];
        [|reflexivity].
      rewrite dict_append_set. reflexivity.
  - intros w base pos p name guid rest Hp Hl Hb Hf Hname Hc Hfit.
    assert (Hg : length guid = 36%nat).
    { unfold canonical_guid in Hc. apply andb_true_iff in Hc as [Hc _].
      apply andb_true_iff in Hc as [Hc _]. apply Nat.eqb_eq, Hc. }
    destruct (Hwf name guid Hg) as [Hen Heg].
    assert (Hn : 0 <= len name) by (unfold len; lia).
    destruct (pack_get_total (52 + len name) (guid_fields guid) (len name) (len name) name
                (guid_fields_length guid) (guid_fields_in_range guid))
      as [in_buf Hpack]; try lia.
    destruct (get_first_request E w base pos name guid _ in_buf Hb Hf
                (parse_guid_canonical guid Hc) Hpack) as [m1 H1].
    exists in_buf, (drv_ioctl E (trace w) (base + IOCTL_GET_EFIVAR) in_buf).
    rewrite (Hstep w w p [] (name ++ "-"%char :: guid) rest [] Hp Hl eq_refl).
    cbn [list_loop]. rewrite Hen, Heg.
    destruct name as [|c n]; [contradiction|]. cbn [truthy]. unfold bind.
    destruct (kern_get_EFI_variable_full E (c :: n) guid w) as [[var|e] w2];
      cbn [snd] in H1.
    + destruct (list_loop_trace_extends E rest
                  (dict_append (dict_set [] (c :: n) []) (c :: n) var) w2) as [m2 H2].
      destruct (list_loop E rest _ w2) as [[d'|e'] w3]; cbn [snd ret] in *;
        rewrite H2, H1, <- app_assoc; cbn [app]; eexists; (split; [exact Hpack|reflexivity]).
    + cbn [snd]. eexists. split; [exact Hpack|exact H1].
Qed.

(** LIST on a directory that holds the entry of the example: the
    request that goes out is the GET request for [MyVar] under the
    fields of the GUID. *)
Lemma list_entry_split_witness :
  exists in_buf reply more,
    pack_get (52 + len (str "MyVar"))
             (guid_fields (str "8be4df61-93ca-11d2-aa0d-00e098032b8c"))
             (len (str "MyVar")) (len (str "MyVar")) (str "MyVar") = Ok in_buf /\
    trace (snd (kern_list_EFI_variables
                  (env_listing [str "MyVar-8be4df61-93ca-11d2-aa0d-00e098032b8c"] [])
                  (started (env_listing
                              [str "MyVar-8be4df61-93ca-11d2-aa0d-00e098032b8c"] [])))) =
      trace (started (env_listing [str "MyVar-8be4df61-93ca-11d2-aa0d-00e098032b8c"] []))
      ++ EvIoctl (0xC0084300 + IOCTL_GET_EFIVAR) in_buf reply :: more.
Proof.
  apply (proj2 (proj2 (proj2 (proj2 (proj2
           (list_entry_split
              (env_listing [str "MyVar-8be4df61-93ca-11d2-aa0d-00e098032b8c"] []))))))
           (started (env_listing [str "MyVar-8be4df61-93ca-11d2-aa0d-00e098032b8c"] []))
           0xC0084300 0 "/sys/firmware/efi/efivars"%string
           (str "MyVar") (str "8be4df61-93ca-11d2-aa0d-00e098032b8c") []
           eq_refl eq_refl eq_refl eq_refl).
  - discriminate.
  - vm_compute. reflexivity.
  - vm_compute. reflexivity.
Defined.


(** * Further properties *)

(** ** The request code *)

Lemma land_low_zero k nr : 0 <= nr < 2 ^ 8 -> Z.land (k * 2 ^ 8) nr = 0.
Proof.
  intros Hnr. apply Z.bits_inj'. intros i Hi.
  rewrite Z.land_spec, Z.bits_0.
  destruct (Z.lt_ge_cases i 8) as [Hlo|Hhi].
  - rewrite Z.mul_pow2_bits_low by lia. reflexivity.
  - destruct (Z.eq_dec nr 0) as [->|Hnz].
    + rewrite Z.bits_0. apply andb_false_r.
    + rewrite (Z.bits_above_log2 nr i), andb_false_r; [reflexivity|lia|].
      assert (Z.log2 nr < 8) by (apply Z.log2_lt_pow2; lia). lia.
Qed.

Lemma lor_low_add k nr : 0 <= nr < 2 ^ 8 -> Z.lor (k * 2 ^ 8) nr = k * 2 ^ 8 + nr.
Proof.
  intros Hnr. pose proof (land_low_zero k nr Hnr) as H0.
  rewrite <- Z.lxor_lor by exact H0. symmetry. apply Z.add_nocarry_lxor, H0.
Qed.

Lemma control_code_IOC width nr :
  (width = 8 \/ width = 4) -> 0 <= nr < 256 ->
  control_code width + nr = _IOC 3 (Z.of_N (N_of_ascii "C")) nr width.
Proof.
  intros Hw Hnr. unfold _IOC, control_code. rewrite Z.shiftl_0_r.
  rewrite <- (Z.lor_assoc _ nr), (Z.lor_comm nr), Z.lor_assoc.
  destruct Hw as [-> | ->].
  - change (Z.lor (Z.lor (Z.shiftl 3 30) (Z.shiftl (Z.of_N (N_of_ascii "C")) 8))
                  (Z.shiftl 8 16)) with (12585027 * 2 ^ 8).
    rewrite lor_low_add by (change (2 ^ 8) with 256; lia). reflexivity.
  - change (Z.lor (Z.lor (Z.shiftl 3 30) (Z.shiftl (Z.of_N (N_of_ascii "C")) 8))
                  (Z.shiftl 4 16)) with (12584003 * 2 ^ 8).
    rewrite lor_low_add by (change (2 ^ 8) with 256; lia). reflexivity.
Qed.

(** X1: on a session that [init] has started, the control call for a
    number [nr] below 256 goes out under the code that the [_IOC] macro
    quoted above [compute_ioctlbase] gives for that number: adding
    [nr] to the base computed with number 0 is the same as building
    the code with [nr].  This is so for an array of any length and for
    a [bytes] argument of at most 1024 bytes; a longer [bytes]
    argument raises [ValueError] and nothing is sent. *)
Theorem ioctl_code_is_IOC (E : Env) (w w' : world) (nr : Z) (args : ioarg) :
  init E true w = (Ok tt, w') ->
  0 <= nr < 256 ->
  (oversized args = false ->
   exists reply,
     trace (snd (ioctl E nr args w')) =
       trace w' ++ [EvIoctl (_IOC 3 (Z.of_N (N_of_ascii "C")) nr
                                (word_width (sys_maxsize E)))
                            (ioarg_bytes args) reply]) /\
  (oversized args = true -> ioctl E nr args w' = (Raise ValueError, w')).
Proof.
  intros Hinit Hnr. apply init_started in Hinit.
  assert (Hb : _ioctl_base (self w') = Some (control_code (word_width (sys_maxsize E))))
    by (rewrite Hinit; reflexivity).
  assert (Hf : dev_fh (self w') = Some 0) by (rewrite Hinit; reflexivity).
  split; intros Hsz.
  - rewrite (ioctl_run E nr args w' _ 0 Hb Hf Hsz). cbv zeta.
    rewrite control_code_IOC; [|unfold word_width; destruct (_ <? _); auto|exact Hnr].
    match goal with
    | |- context [drv_ioctl ?e ?t ?c ?b] => exists (drv_ioctl e t c b)
    end.
    destruct (drv_ioctl E _ _ _); reflexivity.
  - apply (ioctl_refused E nr args w' _ 0 Hb Hf Hsz).
Qed.

Lemma ioctl_code_is_IOC_witness :
  (exists reply,
      trace (snd (ioctl (env_of maxsize32 []) IOCTL_FREE_PHYSMEM (Immutable [])
                    (started (env_of maxsize32 [])))) =
        trace (started (env_of maxsize32 []))
        ++ [EvIoctl (_IOC 3 67 0x16 4) [] reply]) /\
  ioctl (env_of maxsize32 []) IOCTL_FREE_PHYSMEM (Immutable (repeat x00 1025))
    (started (env_of maxsize32 []))
  = (Raise ValueError, started (env_of maxsize32 [])).
Proof.
  assert (Hnr : 0 <= IOCTL_FREE_PHYSMEM < 256) by (unfold IOCTL_FREE_PHYSMEM; lia).
  split.
  - apply (proj1 (ioctl_code_is_IOC (env_of maxsize32 []) world0
                    (started (env_of maxsize32 []))
                    IOCTL_FREE_PHYSMEM (Immutable []) eq_refl Hnr)).
    reflexivity.
  - apply (proj2 (ioctl_code_is_IOC (env_of maxsize32 []) world0
                    (started (env_of maxsize32 []))
                    IOCTL_FREE_PHYSMEM (Immutable (repeat x00 1025)) eq_refl Hnr)).
    vm_compute. reflexivity.
Defined.


(** ** A helper without a device *)

Lemma struct_pack_raise p n args e : struct_pack p n args = Raise e -> e = StructError.
Proof.
  unfold struct_pack, pack_words.
  destruct (negb _); [congruence|]. destruct (forallb _ _); congruence.
Qed.

Ltac unavail_close :=
  cbn [fst snd trace is_IOError]; split;
  [auto
  |rewrite ?ioctl_calls_app; cbn [ioctl_calls flat_map app];
   rewrite ?app_nil_r; reflexivity].

Ltac unavail Hb :=
  unfold unavailable; run;
  match goal with
  | |- context [_pack (self ?w)] => destruct (_pack (self w)); [|unavail_close]
  end;
  match goal with
  | |- context [struct_pack ?p ?n ?l] =>
      let Hpack := fresh "Hpack" in
      destruct (struct_pack p n l) eqn:Hpack;
      [unfold ioctl; run; rewrite Hb; unavail_close
      |apply struct_pack_raise in Hpack; subst; unavail_close]
  end.

(** X2: when [_ioctl_base] was never set (the driver was not started,
    or the device could not be opened), no register operation reaches
    the driver: each ends in [AttributeError], or in the [struct.error]
    of its own arguments, and none is turned into a [None] result. *)
Theorem no_base_no_call (E : Env) (unpack1 : bytes -> Z -> res Z) (w : world) :
  _ioctl_base (self w) = None ->
  (forall io_port size, unavailable (read_io_port E io_port size) w) /\
  (forall io_port value size, unavailable (write_io_port E io_port value size) w) /\
  (forall bus device function offset size,
      unavailable (read_pci_reg E bus device function offset size) w) /\
  (forall bus device function offset value size,
      unavailable (write_pci_reg E bus device function offset value size) w) /\
  (forall bar_base size offset,
      unavailable (read_mmio_reg E unpack1 bar_base size offset) w) /\
  (forall bar_base size value offset,
      unavailable (write_mmio_reg E bar_base size value offset) w) /\
  (forall thread_id msr_addr, unavailable (read_msr E thread_id msr_addr) w) /\
  (forall thread_id msr_addr eax edx,
      unavailable (write_msr E thread_id msr_addr eax edx) w) /\
  (forall cpu_thread_id cr_number, unavailable (read_cr E cpu_thread_id cr_number) w) /\
  (forall cpu_thread_id cr_number value,
      unavailable (write_cr E cpu_thread_id cr_number value) w) /\
  (forall cpu_thread_id desc_table_code,
      unavailable (get_descriptor_table E cpu_thread_id desc_table_code) w) /\
  (forall eax ecx, unavailable (cpuid E eax ecx) w) /\
  (forall va, unavailable (va2pa E va) w) /\
  (forall num_bytes max_addr, unavailable (alloc_phys_mem E num_bytes max_addr) w) /\
  (forall physmem, unavailable (free_phys_mem E physmem) w) /\
  (forall mcr mcrx mdr, unavailable (msgbus_send_message E mcr mcrx mdr) w).
Proof.
  intros Hb.
  repeat match goal with |- _ /\ _ => split end; intros.
  - unfold read_io_port. unavail Hb.
  - unfold write_io_port. unavail Hb.
  - unfold read_pci_reg. unavail Hb.
  - unfold write_pci_reg. unavail Hb.
  - unfold read_mmio_reg. unavail Hb.
  - unfold write_mmio_reg. unavail Hb.
  - unfold read_msr, set_affinity. unavail Hb.
  - unfold write_msr, set_affinity. unavail Hb.
  - unfold read_cr, set_affinity. unavail Hb.
  - unfold write_cr, set_affinity. unavail Hb.
  - unfold get_descriptor_table, set_affinity. unavail Hb.
  - unfold cpuid. unavail Hb.
  - unfold va2pa. unavail Hb.
  - unfold alloc_phys_mem. unavail Hb.
  - unfold free_phys_mem. unavail Hb.
  - unfold msgbus_send_message. destruct mdr; unavail Hb.
Qed.


Lemma no_base_no_call_witness :
  unavailable (read_pci_reg (env_of maxsize64 []) 0 31 0 0x10 4)
    (snd (init (env_of maxsize64 []) false world0)).
Proof.
  exact (proj1 (proj2 (proj2 (no_base_no_call (env_of maxsize64 []) unpack1_le
                                (snd (init (env_of maxsize64 []) false world0))
                                eq_refl)))
           0 31 0 0x10 4).
Defined.

(** X3: [init(False)] opens nothing and logs nothing, and
    [init(True)] on a device that cannot be opened raises
    [OsHelperError] with the errno of the [IOError], or with ENXIO for
    any other exception; in all three cases the word format is set and
    the handle, the base and [driver_loaded] stay as they were. *)
Theorem init_without_device (E : Env) (w : world) :
  let p := if 2 ^ 32 <? sys_maxsize E then PackQ else PackI in
  let kept := {| dev_fh := dev_fh (self w); _pack := Some p;
                 _ioctl_base := _ioctl_base (self w);
                 driver_loaded := driver_loaded (self w) |} in
  init E false w = (Ok tt, {| self := kept; trace := trace w |}) /\
  (forall errno,
      os_open E (trace w ++ [EvLog MsgLicense]) = OpenIOError errno ->
      fst (init E true w) = Raise (OsHelperError errno) /\
      self (snd (init E true w)) = kept) /\
  (os_open E (trace w ++ [EvLog MsgLicense]) = OpenOtherError ->
   fst (init E true w) = Raise (OsHelperError ENXIO) /\
   self (snd (init E true w)) = kept).
Proof.
  cbv zeta. split; [reflexivity|]. split.
  - intros errno Ho. rewrite init_run. cbv zeta. rewrite Ho. split; reflexivity.
  - intros Ho. rewrite init_run. cbv zeta. rewrite Ho. split; reflexivity.
Qed.

Lemma init_without_device_witness :
  fst (init env_no_device true world0) = Raise (OsHelperError 13) /\
  _ioctl_base (self (snd (init env_no_device true world0))) = None.
Proof.
  destruct (proj1 (proj2 (init_without_device env_no_device world0)) 13 eq_refl)
    as [Hr Hs].
  split; [exact Hr|]. rewrite Hs. reflexivity.
Defined.


(** ** Transport failures *)

Lemma struct_unpack_raise p n buf e : struct_unpack p n buf = Raise e -> e = StructError.
Proof.
  unfold struct_unpack, unpack_words. destruct (Nat.eqb _ _); congruence.
Qed.

Lemma item_raise {A : Type} (t : list A) i e : item t i = Raise e -> e = IndexError.
Proof. unfold item. destruct (nth_error t i); congruence. Qed.

Ltac pci_done :=
  cbn [fst snd trace]; split; [discriminate|intros H; discriminate H].

Ltac pci_cases E :=
  run;
  match goal with
  | |- context [_pack (self ?w)] => destruct (_pack (self w)); [|pci_done]
  end;
  match goal with
  | |- context [struct_pack ?p ?n ?l] =>
      let Hpack := fresh "Hpack" in
      destruct (struct_pack p n l) eqn:Hpack;
      [|apply struct_pack_raise in Hpack; subst; pci_done]
  end;
  match goal with
  | |- context [ioctl E ?nr ?a ?w1] =>
      destruct (ioctl_cases E nr a w1 ltac:(sendable))
        as [[_ ->]|[[_ ->]|(? & ? & _ & _ & ->)]]
  end;
  cbv zeta; cbn [is_IOError]; try pci_done;
  match goal with
  | |- context [drv_ioctl ?e ?t ?c ?b] => destruct (drv_ioctl e t c b)
  end;
  cbn [is_IOError fst snd trace];
  [split; [discriminate|intros _; eexists; reflexivity]|];
  match goal with
  | |- context [struct_unpack ?p ?n ?b] =>
      let Hu := fresh "Hu" in
      destruct (struct_unpack p n b) eqn:Hu;
      [|apply struct_unpack_raise in Hu; subst; pci_done]
  end;
  match goal with
  | |- context [item ?x ?i] =>
      let Hi := fresh "Hi" in
      destruct (item x i) eqn:Hi;
      [|apply item_raise in Hi; subst];
      pci_done
  end.

(** X4: a PCI read or write never lets [IOError] out, whatever the
    session and the arguments; and it answers [None] only after
    logging the failed control call. *)
Theorem pci_swallows_IOError (E : Env) (w : world)
    (bus device function offset value size : Z) :
  (fst (read_pci_reg E bus device function offset size w) <> Raise IOError /\
   (fst (read_pci_reg E bus device function offset size w) = Ok None ->
    exists t,
      trace (snd (read_pci_reg E bus device function offset size w))
      = t ++ [EvLog MsgIOError])) /\
  (fst (write_pci_reg E bus device function offset value size w) <> Raise IOError /\
   (fst (write_pci_reg E bus device function offset value size w) = Ok None ->
    exists t,
      trace (snd (write_pci_reg E bus device function offset value size w))
      = t ++ [EvLog MsgIOError])).
Proof.
  split.
  - unfold read_pci_reg. pci_cases E.
  - unfold write_pci_reg. pci_cases E.
Qed.

Lemma pci_swallows_IOError_witness :
  exists t,
    trace (snd (read_pci_reg env_no_device 0 31 0 0x10 4 (started (env_of maxsize64 []))))
    = t ++ [EvLog MsgIOError].
Proof.
  apply (proj2 (proj1 (pci_swallows_IOError env_no_device (started (env_of maxsize64 []))
                         0 31 0 0x10 0 4))).
  vm_compute. reflexivity.
Defined.


Ltac dead_call E Hp Hb Hf Hdead Hr :=
  run; rewrite Hp; run;
  match goal with
  | |- context [struct_pack ?p ?n ?l] =>
      let buf := fresh "buf" in
      let Hbuf := fresh "Hbuf" in
      destruct (pack_words_total (wbytes p) n l eq_refl Hr) as [buf Hbuf];
      unfold struct_pack; rewrite Hbuf;
      unfold ioctl; run; rewrite Hb; run; rewrite Hf;
      rewrite (struct_pack_sendable p n l buf Hbuf ltac:(lia))
  end;
  run; rewrite Hdead; reflexivity.

(** X5: outside the PCI pair, a failed control call is not caught: on
    a started session whose driver fails the call, the port, MMIO,
    MSR, CR, descriptor-table, SMI, CPUID, address-translation,
    allocation, message-bus and hypercall operations all raise
    [IOError] to the caller. *)
Theorem transport_failure_raises (E : Env) (unpack1 : bytes -> Z -> res Z) (w : world)
    (p : packchar) (base pos : Z) :
  _pack (self w) = Some p ->
  _ioctl_base (self w) = Some base ->
  dev_fh (self w) = Some pos ->
  dead_driver E ->
  (forall io_port size,
      fits p [io_port; size; 0] -> fst (read_io_port E io_port size w) = Raise IOError) /\
  (forall io_port value size,
      fits p [io_port; size; value] ->
      fst (write_io_port E io_port value size w) = Raise IOError) /\
  (forall bar_base size offset,
      fits p [bar_base + offset; size] ->
      fst (read_mmio_reg E unpack1 bar_base size offset w) = Raise IOError) /\
  (forall bar_base size value offset,
      fits p [bar_base + offset; size; value] ->
      fst (write_mmio_reg E bar_base size value offset w) = Raise IOError) /\
  (forall thread_id msr_addr,
      fits p [thread_id; msr_addr; 0; 0] ->
      fst (read_msr E thread_id msr_addr w) = Raise IOError) /\
  (forall thread_id msr_addr eax edx,
      fits p [thread_id; msr_addr; edx; eax] ->
      fst (write_msr E thread_id msr_addr eax edx w) = Raise IOError) /\
  (forall cpu_thread_id cr_number,
      fits p [cpu_thread_id; cr_number; 0] ->
      fst (read_cr E cpu_thread_id cr_number w) = Raise IOError) /\
  (forall cpu_thread_id cr_number value,
      fits p [cpu_thread_id; cr_number; value] ->
      fst (write_cr E cpu_thread_id cr_number value w) = Raise IOError) /\
  (forall cpu_thread_id desc_table_code,
      fits p [cpu_thread_id; desc_table_code; 0; 0; 0] ->
      fst (get_descriptor_table E cpu_thread_id desc_table_code w) = Raise IOError) /\
  (forall cpu_thread_id SMI_code_data _rax _rbx _rcx _rdx _rsi _rdi,
      fits p [SMI_code_data; _rax; _rbx; _rcx; _rdx; _rsi; _rdi] ->
      fst (send_sw_smi E cpu_thread_id SMI_code_data _rax _rbx _rcx _rdx _rsi _rdi w)
      = Raise IOError) /\
  (forall eax ecx,
      fits p [eax; 0; ecx; 0] -> fst (cpuid E eax ecx w) = Raise IOError) /\
  (forall va, fits p [va] -> fst (va2pa E va w) = Raise IOError) /\
  (forall num_bytes max_addr,
      fits p [num_bytes; max_addr] ->
      fst (alloc_phys_mem E num_bytes max_addr w) = Raise IOError) /\
  (forall physmem,
      fits p [physmem] -> fst (free_phys_mem E physmem w) = Raise IOError) /\
  (forall mcr mcrx,
      fits p [MSGBUS_MDR_OUT_MASK; mcr; mcrx; 0; 0] ->
      fst (msgbus_send_read_message E mcr mcrx w) = Raise IOError) /\
  (forall mcr mcrx mdr,
      fits p [MSGBUS_MDR_IN_MASK; mcr; mcrx; mdr; 0] ->
      fst (msgbus_send_write_message E mcr mcrx mdr w) = Raise IOError) /\
  (forall rcx rdx r8 r9 r10 r11 rax rbx rdi rsi xmm_buffer,
      fits p [rcx; rdx; r8; r9; r10; r11; rax; rbx; rdi; rsi; xmm_buffer] ->
      fst (hypercall E rcx rdx r8 r9 r10 r11 rax rbx rdi rsi xmm_buffer w)
      = Raise IOError).
Proof.
  intros Hp Hb Hf Hdead.
  repeat match goal with |- _ /\ _ => split end; intros; unfold fits in *.
  - unfold read_io_port. dead_call E Hp Hb Hf Hdead H.
  - unfold write_io_port. dead_call E Hp Hb Hf Hdead H.
  - unfold read_mmio_reg. dead_call E Hp Hb Hf Hdead H.
  - unfold write_mmio_reg. dead_call E Hp Hb Hf Hdead H.
  - unfold read_msr, set_affinity. dead_call E Hp Hb Hf Hdead H.
  - unfold write_msr, set_affinity. dead_call E Hp Hb Hf Hdead H.
  - unfold read_cr, set_affinity. dead_call E Hp Hb Hf Hdead H.
  - unfold write_cr, set_affinity. dead_call E Hp Hb Hf Hdead H.
  - unfold get_descriptor_table, set_affinity. dead_call E Hp Hb Hf Hdead H.
  - unfold send_sw_smi, set_affinity. dead_call E Hp Hb Hf Hdead H.
  - unfold cpuid. dead_call E Hp Hb Hf Hdead H.
  - unfold va2pa. dead_call E Hp Hb Hf Hdead H.
  - unfold alloc_phys_mem. dead_call E Hp Hb Hf Hdead H.
  - unfold free_phys_mem. dead_call E Hp Hb Hf Hdead H.
  - unfold msgbus_send_read_message. dead_call E Hp Hb Hf Hdead H.
  - unfold msgbus_send_write_message. dead_call E Hp Hb Hf Hdead H.
  - unfold hypercall. dead_call E Hp Hb Hf Hdead H.
Qed.

(** A session that started and whose driver then fails every call. *)
Lemma transport_failure_raises_witness :
  fst (read_msr env_no_device 0 0x1B (started (env_of maxsize64 []))) = Raise IOError.
Proof.
  apply (proj1 (proj2 (proj2 (proj2 (proj2
           (transport_failure_raises env_no_device unpack1_le
              (started (env_of maxsize64 [])) PackQ 0xC0084300 0
              eq_refl eq_refl eq_refl (fun _ _ _ => eq_refl))))))
           0 0x1B).
  vm_compute. reflexivity.
Defined.


(** ** What the register reads can return *)

Lemma Z_of_byte_bound b : 0 <= Z_of_byte b < 256.
Proof.
  unfold Z_of_byte. pose proof (Byte.to_N_bounded b). lia.
Qed.

Lemma le_decode_bound bs : 0 <= le_decode bs < 2 ^ (8 * Z.of_nat (length bs)).
Proof.
  induction bs as [|b r IH].
  - cbn. lia.
  - cbn [le_decode length]. pose proof (Z_of_byte_bound b).
    replace (8 * Z.of_nat (S (length r))) with (8 + 8 * Z.of_nat (length r)) by lia.
    rewrite Z.pow_add_r by lia. change (2 ^ 8) with 256. lia.
Qed.

Lemma le_decode_firstn_bound w buf : 0 <= le_decode (firstn w buf) < 2 ^ (8 * Z.of_nat w).
Proof.
  pose proof (le_decode_bound (firstn w buf)) as [H0 H1].
  split; [exact H0|]. eapply Z.lt_le_trans; [exact H1|].
  apply Z.pow_le_mono_r; [lia|]. rewrite length_firstn. lia.
Qed.

Lemma chunks_range w n buf :
  Forall (fun v => 0 <= v < 2 ^ (8 * Z.of_nat w)) (map le_decode (chunks w n buf)).
Proof.
  revert buf. induction n as [|n IH]; intros buf; cbn [chunks map]; constructor.
  - apply le_decode_firstn_bound.
  - apply IH.
Qed.

Lemma chunks_length w n buf : length (chunks w n buf) = n.
Proof. revert buf. induction n; intros buf; cbn [chunks length]; auto. Qed.

(** What [struct.unpack] hands back: as many words as the format
    says, each within the range of the format. *)
Lemma unpack_words_range w n buf l :
  unpack_words w n buf = Ok l ->
  length l = n /\ Forall (fun v => 0 <= v < 2 ^ (8 * Z.of_nat w)) l.
Proof.
  unfold unpack_words. destruct (Nat.eqb _ _); [|discriminate].
  intros H; injection H as <-. split.
  - rewrite length_map. apply chunks_length.
  - apply chunks_range.
Qed.

Lemma land_ones_bound x n : 0 <= n -> 0 <= Z.land x (Z.ones n) < 2 ^ n.
Proof.
  intros Hn. rewrite Z.land_ones by exact Hn. apply Z.mod_pos_bound.
  apply Z.pow_pos_nonneg; lia.
Qed.

(** X6: whatever an I/O port read returns lies in [0, 2^32): a size
    other than 1 and 2 (also 8) is read through the 32-bit mask; a read
    of size 1 returns less than 2^8 and one of size 2 less than 2^16. *)
Theorem read_io_port_range (E : Env) (io_port size : Z) (w : world) (v : Z) :
  fst (read_io_port E io_port size w) = Ok v ->
  0 <= v < 2 ^ 32 /\ (size = 1 -> v < 2 ^ 8) /\ (size = 2 -> v < 2 ^ 16).
Proof.
  unfold read_io_port. run.
  destruct (_pack (self w)) as [p|]; [|discriminate].
  destruct (struct_pack p 3 _) as [in_buf|]; [|discriminate].
  destruct (ioctl E IOCTL_RDIO (Immutable in_buf) w) as [[out_buf|e] w1]; [|discriminate].
  change 0xff with (Z.ones 8). change 0xffff with (Z.ones 16).
  change 0xffffffff with (Z.ones 32).
  destruct (1 =? size) eqn:H1; [|destruct (2 =? size) eqn:H2];
    (destruct (struct_unpack p 3 out_buf) as [x|]; cbn [is_Exception fst];
     [destruct (item x 2) as [x2|]; cbn [is_Exception fst]|]; intros Hv;
     try discriminate Hv; injection Hv as <-).
  - pose proof (land_ones_bound x2 8 ltac:(lia)).
    assert (2 ^ 8 < 2 ^ 32) by (apply Z.pow_lt_mono_r; lia).
    repeat split; try lia.
  - pose proof (land_ones_bound x2 16 ltac:(lia)).
    assert (2 ^ 16 < 2 ^ 32) by (apply Z.pow_lt_mono_r; lia).
    apply Z.eqb_neq in H1. repeat split; try lia.
  - pose proof (land_ones_bound x2 32 ltac:(lia)).
    apply Z.eqb_neq in H1. apply Z.eqb_neq in H2. repeat split; try lia.
Qed.

(** A 64-bit driver answers a read of size 8 with a word of all ones:
    the caller gets 0xffffffff. *)
Lemma read_io_port_range_witness :
  fst (read_io_port (env_of maxsize64 [IoData (repeat xff 24)]) 0x80 8
         (started (env_of maxsize64 [IoData (repeat xff 24)]))) = Ok 0xffffffff /\
  0 <= 0xffffffff < 2 ^ 32.
Proof.
  assert (H : fst (read_io_port (env_of maxsize64 [IoData (repeat xff 24)]) 0x80 8
                     (started (env_of maxsize64 [IoData (repeat xff 24)])))
              = Ok 0xffffffff) by (vm_compute; reflexivity).
  split; [exact H|].
  exact (proj1 (read_io_port_range _ _ _ _ _ H)).
Defined.


(** ** Writes and reads agree on the layout *)

Ltac fits_buffer :=
  repeat match goal with
         | H : struct_pack _ _ _ = Ok ?b |- context [oversized (Immutable ?b)] =>
             rewrite (struct_pack_sendable _ _ _ _ H ltac:(lia))
         end.

(** An answer known to unpack under the format of its request stands
    for what comes back. *)
Ltac answer_as_is :=
  repeat match goal with
         | Hq : struct_pack ?p ?n _ = Ok ?b, Hu : struct_unpack ?p ?n ?o = Ok _
           |- context [overwrite ?b ?o] =>
             rewrite (overwrite_answer _ _ _ _ _ _ Hq Hu)
         end.

Ltac session_call E Hp Hb Hf :=
  run; rewrite ?Hp; run;
  repeat match goal with
         | H : struct_pack _ _ _ = Ok _ |- _ => rewrite H
         end;
  unfold ioctl; run; rewrite Hb; run; rewrite Hf; fits_buffer; run;
  cbn [ioarg_bytes].

Lemma struct_unpack_pack p n args buf :
  struct_pack p n args = Ok buf -> struct_unpack p n buf = Ok args.
Proof. apply unpack_pack_words. Qed.

Lemma overwrite_packed p n args args' in_buf buf :
  struct_pack p n args = Ok in_buf -> struct_pack p n args' = Ok buf ->
  overwrite in_buf buf = buf.
Proof.
  intros Hin Hbuf. apply (overwrite_answer p n args in_buf buf args' Hin).
  apply struct_unpack_pack, Hbuf.
Qed.

(** X7: a read decodes the data words where the matching write puts
    them.  The buffer that [write_msr] sends, given back as the answer
    to [read_msr], makes it return [(eax, edx)]; the one of [write_cr]
    makes [read_cr] return the value written; the one of
    [write_pci_reg] makes [read_pci_reg] return the value written; the
    one of [write_io_port] makes [read_io_port] return the value
    written, when that value fits the size of the access. *)
Theorem read_decodes_write_layout (E : Env) (w : world) (p : packchar) (base pos : Z) :
  _pack (self w) = Some p ->
  _ioctl_base (self w) = Some base ->
  dev_fh (self w) = Some pos ->
  (forall thread_id msr_addr eax edx buf in_buf,
      struct_pack p 4 [thread_id; msr_addr; edx; eax] = Ok buf ->
      struct_pack p 4 [thread_id; msr_addr; 0; 0] = Ok in_buf ->
      let pinned := trace w ++ [EvSetAffinity thread_id
                                  (os_sched_setaffinity E (trace w) thread_id)] in
      trace (snd (write_msr E thread_id msr_addr eax edx w)) =
        pinned ++ [EvIoctl (base + IOCTL_WRMSR) buf
                     (drv_ioctl E pinned (base + IOCTL_WRMSR) buf)] /\
      (drv_ioctl E pinned (base + IOCTL_RDMSR) in_buf = IoData buf ->
       fst (read_msr E thread_id msr_addr w) = Ok (eax, edx))) /\
  (forall cpu_thread_id cr_number value buf in_buf,
      struct_pack p 3 [cpu_thread_id; cr_number; value] = Ok buf ->
      struct_pack p 3 [cpu_thread_id; cr_number; 0] = Ok in_buf ->
      let pinned := trace w ++ [EvSetAffinity cpu_thread_id
                                  (os_sched_setaffinity E (trace w) cpu_thread_id)] in
      trace (snd (write_cr E cpu_thread_id cr_number value w)) =
        pinned ++ [EvIoctl (base + IOCTL_WRCR) buf
                     (drv_ioctl E pinned (base + IOCTL_WRCR) buf)] /\
      (drv_ioctl E pinned (base + IOCTL_RDCR) in_buf = IoData buf ->
       fst (read_cr E cpu_thread_id cr_number w) = Ok value)) /\
  (forall bus device function offset value size buf in_buf,
      struct_pack p 5 [Z.lor (Z.shiftl _PCI_DOM 16) bus;
                       Z.lor (Z.shiftl device 16) function; offset; size; value] = Ok buf ->
      struct_pack p 5 [Z.lor (Z.shiftl _PCI_DOM 16) bus;
                       Z.lor (Z.shiftl device 16) function; offset; size; 0] = Ok in_buf ->
      trace (snd (write_pci_reg E bus device function offset value size w)) =
        trace w ++ [EvIoctl (base + IOCTL_WRPCI) buf
                      (drv_ioctl E (trace w) (base + IOCTL_WRPCI) buf)]
                ++ match drv_ioctl E (trace w) (base + IOCTL_WRPCI) buf with
                   | IoFail => [EvLog MsgIOError]
                   | IoData _ => []
                   end /\
      (drv_ioctl E (trace w) (base + IOCTL_RDPCI) in_buf = IoData buf ->
       fst (read_pci_reg E bus device function offset size w) = Ok (Some value))) /\
  (forall io_port value size buf in_buf,
      struct_pack p 3 [io_port; size; value] = Ok buf ->
      struct_pack p 3 [io_port; size; 0] = Ok in_buf ->
      In size [1; 2; 4] -> 0 <= value < 2 ^ (8 * size) ->
      trace (snd (write_io_port E io_port value size w)) =
        trace w ++ [EvIoctl (base + IOCTL_WRIO) buf
                      (drv_ioctl E (trace w) (base + IOCTL_WRIO) buf)] /\
      (drv_ioctl E (trace w) (base + IOCTL_RDIO) in_buf = IoData buf ->
       fst (read_io_port E io_port size w) = Ok value)).
Proof.
  intros Hp Hb Hf.
  repeat match goal with |- _ /\ _ => split end.
  - intros thread_id msr_addr eax edx buf in_buf Hbuf Hin pinned. subst pinned. split.
    + unfold write_msr, set_affinity. session_call E Hp Hb Hf.
      destruct (drv_ioctl E _ _ buf); cbn [snd trace]; reflexivity.
    + intros Hdrv. unfold read_msr, set_affinity. session_call E Hp Hb Hf.
      rewrite Hdrv, (overwrite_packed _ _ _ _ _ _ Hin Hbuf),
        (struct_unpack_pack _ _ _ _ Hbuf). reflexivity.
  - intros cpu_thread_id cr_number value buf in_buf Hbuf Hin pinned. subst pinned. split.
    + unfold write_cr, set_affinity. session_call E Hp Hb Hf.
      destruct (drv_ioctl E _ _ buf); cbn [snd trace]; reflexivity.
    + intros Hdrv. unfold read_cr, set_affinity. session_call E Hp Hb Hf.
      rewrite Hdrv, (overwrite_packed _ _ _ _ _ _ Hin Hbuf),
        (struct_unpack_pack _ _ _ _ Hbuf). reflexivity.
  - intros bus device function offset value size buf in_buf Hbuf Hin. split.
    + unfold write_pci_reg. session_call E Hp Hb Hf.
      destruct (drv_ioctl E _ _ buf); cbn [is_IOError snd trace].
      * rewrite <- app_assoc. reflexivity.
      * rewrite (app_nil_r [_]).
        destruct (struct_unpack p 5 _) as [x|]; [destruct (item x 4)|]; reflexivity.
    + intros Hdrv. unfold read_pci_reg. session_call E Hp Hb Hf.
      rewrite Hdrv. cbn [is_IOError].
      rewrite (overwrite_packed _ _ _ _ _ _ Hin Hbuf), (struct_unpack_pack _ _ _ _ Hbuf).
      reflexivity.
  - intros io_port value size buf in_buf Hbuf Hin Hsize Hval. split.
    + unfold write_io_port. session_call E Hp Hb Hf.
      destruct (drv_ioctl E _ _ buf); reflexivity.
    + intros Hdrv. unfold read_io_port. session_call E Hp Hb Hf.
      rewrite Hdrv, (overwrite_packed _ _ _ _ _ _ Hin Hbuf),
        (struct_unpack_pack _ _ _ _ Hbuf). cbn [item nth_error].
      change 0xff with (Z.ones 8). change 0xffff with (Z.ones 16).
      change 0xffffffff with (Z.ones 32).
      destruct Hsize as [<-|[<-|[<-|[]]]]; cbn [Z.eqb Pos.eqb is_Exception fst];
        rewrite Z.land_ones by lia; rewrite Z.mod_small by exact Hval; reflexivity.
Qed.


Lemma read_decodes_write_layout_witness :
  fst (read_msr (env_of maxsize64 [IoData msr_written]) 0 0x1B
         (started (env_of maxsize64 [IoData msr_written]))) = Ok (5, 7).
Proof.
  apply (proj1 (read_decodes_write_layout (env_of maxsize64 [IoData msr_written])
                  (started (env_of maxsize64 [IoData msr_written]))
                  PackQ 0xC0084300 0 eq_refl eq_refl eq_refl)
           0 0x1B 5 7 msr_written (flat_map (le_encode 8) [0; 0x1B; 0; 0]));
    vm_compute; reflexivity.
Defined.

(** ** Descriptor tables, CPUID and address translation *)

(** X8: [get_descriptor_table] returns the limit as it comes and puts
    base and physical address together as [hi * 2^32 + lo]; when the
    low half is below 2^32 the halves can be read back from the
    result. *)
Theorem descriptor_table_halves (E : Env) (w : world) (p : packchar) (base pos : Z)
    (cpu_thread_id desc_table_code : Z) (in_buf out_buf : bytes)
    (limit base_hi base_lo pa_hi pa_lo : Z) :
  _pack (self w) = Some p ->
  _ioctl_base (self w) = Some base ->
  dev_fh (self w) = Some pos ->
  struct_pack p 5 [cpu_thread_id; desc_table_code; 0; 0; 0] = Ok in_buf ->
  drv_ioctl E (trace w ++ [EvSetAffinity cpu_thread_id
                             (os_sched_setaffinity E (trace w) cpu_thread_id)])
    (base + IOCTL_GET_CPU_DESCRIPTOR_TABLE) in_buf = IoData out_buf ->
  struct_unpack p 5 out_buf = Ok [limit; base_hi; base_lo; pa_hi; pa_lo] ->
  fst (get_descriptor_table E cpu_thread_id desc_table_code w) =
    Ok (limit, base_hi * 2 ^ 32 + base_lo, pa_hi * 2 ^ 32 + pa_lo) /\
  (0 <= base_lo < 2 ^ 32 ->
   (base_hi * 2 ^ 32 + base_lo) / 2 ^ 32 = base_hi /\
   (base_hi * 2 ^ 32 + base_lo) mod 2 ^ 32 = base_lo) /\
  (0 <= pa_lo < 2 ^ 32 ->
   (pa_hi * 2 ^ 32 + pa_lo) / 2 ^ 32 = pa_hi /\
   (pa_hi * 2 ^ 32 + pa_lo) mod 2 ^ 32 = pa_lo).
Proof.
  intros Hp Hb Hf Hpack Hdrv Hun.
  assert (Hhalves : forall hi lo, 0 <= lo < 2 ^ 32 ->
            (hi * 2 ^ 32 + lo) / 2 ^ 32 = hi /\ (hi * 2 ^ 32 + lo) mod 2 ^ 32 = lo).
  { intros hi lo Hlo. split.
    - rewrite Z.add_comm, Z.div_add by lia. rewrite Z.div_small by exact Hlo. lia.
    - rewrite Z.add_comm, Z.mod_add by lia. apply Z.mod_small, Hlo. }
  split; [|split; apply Hhalves].
  unfold get_descriptor_table, set_affinity. session_call E Hp Hb Hf.
  rewrite Hdrv. answer_as_is. rewrite Hun. cbn [fst].
  rewrite !Z.shiftl_mul_pow2 by lia. reflexivity.
Qed.

Lemma descriptor_table_halves_witness :
  fst (get_descriptor_table (env_of maxsize64 [IoData idt_answer]) 0 0x2
         (started (env_of maxsize64 [IoData idt_answer])))
  = Ok (0xFFF, 0xFFFFF800 * 2 ^ 32 + 0x12345000, 0x1 * 2 ^ 32 + 0x23456000).
Proof.
  apply (proj1 (descriptor_table_halves (env_of maxsize64 [IoData idt_answer])
                  (started (env_of maxsize64 [IoData idt_answer]))
                  PackQ 0xC0084300 0 0 0x2
                  (flat_map (le_encode 8) [0; 0x2; 0; 0; 0]) idt_answer
                  0xFFF 0xFFFFF800 0x12345000 0x1 0x23456000
                  eq_refl eq_refl eq_refl eq_refl eq_refl eq_refl)).
Defined.

(** X9: when [cpuid] returns, it has made exactly one control call,
    for (eax, 0, ecx, 0), without pinning the process to a core, and
    its result has four words, each within the word format. *)
Theorem cpuid_one_call (E : Env) (eax ecx : Z) (w : world) (regs : list Z) :
  fst (cpuid E eax ecx w) = Ok regs ->
  exists p base in_buf reply,
    _pack (self w) = Some p /\
    struct_unpack p 4 in_buf = Ok [eax; 0; ecx; 0] /\
    snd (cpuid E eax ecx w) =
      {| self := self w;
         trace := trace w ++ [EvIoctl (base + IOCTL_CPUID) in_buf reply] |} /\
    length regs = 4%nat /\
    Forall (fun v => 0 <= v < 2 ^ (8 * calcsize p)) regs.
Proof.
  unfold cpuid. run.
  destruct (_pack (self w)) as [p|] eqn:Hp; [|discriminate].
  destruct (struct_pack p 4 [eax; 0; ecx; 0]) as [in_buf|] eqn:Hpack; [|discriminate].
  destruct (ioctl_cases E IOCTL_CPUID (Immutable in_buf) w ltac:(sendable))
    as [[_ ->]|[[_ ->]|(base & pos & Hb & Hf & ->)]]; try discriminate.
  cbv zeta. cbn [ioarg_bytes].
  destruct (drv_ioctl E (trace w) _ in_buf) as [|out_buf] eqn:Hdrv; [discriminate|].
  destruct (struct_unpack p 4 _) as [l|] eqn:Hun; [|discriminate].
  cbn [fst snd]. intros H; injection H as <-.
  exists p, base, in_buf, (IoData out_buf).
  split; [reflexivity|]. split; [apply (struct_unpack_pack _ _ _ _ Hpack)|].
  split; [reflexivity|].
  apply unpack_words_range in Hun as [Hl Hr]. split; [exact Hl|].
  replace (8 * calcsize p) with (8 * Z.of_nat (wbytes p)); [exact Hr|].
  destruct p; reflexivity.
Qed.

Lemma cpuid_one_call_witness :
  exists p base in_buf reply,
    _pack (self (started (env_of maxsize64 [IoData cpuid_36_bits]))) = Some p /\
    struct_unpack p 4 in_buf = Ok [0x80000008; 0; 0; 0] /\
    snd (cpuid (env_of maxsize64 [IoData cpuid_36_bits]) 0x80000008 0
           (started (env_of maxsize64 [IoData cpuid_36_bits]))) =
      {| self := self (started (env_of maxsize64 [IoData cpuid_36_bits]));
         trace := trace (started (env_of maxsize64 [IoData cpuid_36_bits]))
                  ++ [EvIoctl (base + IOCTL_CPUID) in_buf reply] |} /\
    length [0x3024; 0; 0; 0] = 4%nat /\
    Forall (fun v => 0 <= v < 2 ^ (8 * calcsize p)) [0x3024; 0; 0; 0].
Proof.
  apply (cpuid_one_call (env_of maxsize64 [IoData cpuid_36_bits]) 0x80000008 0
           (started (env_of maxsize64 [IoData cpuid_36_bits])) [0x3024; 0; 0; 0]).
  vm_compute. reflexivity.
Defined.


(** X10: [va2pa] makes two control calls, the translation and then
    CPUID leaf 0x80000008, and returns the physical address in every
    case; the error code is 1, with a debug line, exactly when the
    address is above [1 << (eax & 0xFF)]; an address equal to that
    power of two is let through with error code 0. *)
Theorem va2pa_error_code (E : Env) (w : world) (p : packchar) (base pos : Z)
    (va pa eax ebx ecx edx : Z) (in_buf d1 cpuid_buf d2 : bytes) :
  _pack (self w) = Some p ->
  _ioctl_base (self w) = Some base ->
  dev_fh (self w) = Some pos ->
  struct_pack p 1 [va] = Ok in_buf ->
  drv_ioctl E (trace w) (base + IOCTL_VA2PA) in_buf = IoData d1 ->
  struct_unpack p 1 d1 = Ok [pa] ->
  struct_pack p 4 [0x80000008; 0; 0x0; 0] = Ok cpuid_buf ->
  drv_ioctl E (trace w ++ [EvIoctl (base + IOCTL_VA2PA) in_buf (IoData d1)])
    (base + IOCTL_CPUID) cpuid_buf = IoData d2 ->
  struct_unpack p 4 d2 = Ok [eax; ebx; ecx; edx] ->
  let limit := 2 ^ Z.land eax 0xFF in
  va2pa E va w =
    (Ok (if limit <? pa then (pa, 1, [MsgVa2paHigher va pa]) else (pa, 0, [])),
     {| self := self w;
        trace := trace w ++ [EvIoctl (base + IOCTL_VA2PA) in_buf (IoData d1);
                             EvIoctl (base + IOCTL_CPUID) cpuid_buf (IoData d2)] |}) /\
  (pa = limit -> fst (va2pa E va w) = Ok (pa, 0, [])) /\
  (limit < pa -> fst (va2pa E va w) = Ok (pa, 1, [MsgVa2paHigher va pa])).
Proof.
  intros Hp Hb Hf Hpack Hdrv1 Hun1 Hcpack Hdrv2 Hun2 limit.
  assert (Hrun : va2pa E va w =
    (Ok (if limit <? pa then (pa, 1, [MsgVa2paHigher va pa]) else (pa, 0, [])),
     {| self := self w;
        trace := trace w ++ [EvIoctl (base + IOCTL_VA2PA) in_buf (IoData d1);
                             EvIoctl (base + IOCTL_CPUID) cpuid_buf (IoData d2)] |})).
  { unfold va2pa, cpuid. session_call E Hp Hb Hf.
    rewrite Hdrv1. answer_as_is. rewrite Hun1. cbn [item nth_error]. run.
    rewrite Hp. run.
    rewrite Hcpack. rewrite Hb. run. rewrite Hf. fits_buffer. run. cbn [ioarg_bytes].
    rewrite Hdrv2. answer_as_is. rewrite Hun2. cbn [item nth_error].
    assert (Hm : 0 <= Z.land eax 0xFF) by (apply Z.land_nonneg; right; lia).
    rewrite Z.shiftl_mul_pow2 by exact Hm. rewrite Z.mul_1_l. fold limit.
    rewrite <- app_assoc.
    destruct (limit <? pa); reflexivity. }
  split; [exact Hrun|]. rewrite Hrun. cbn [fst]. split.
  - intros ->. rewrite Z.ltb_irrefl. reflexivity.
  - intros Hlt. apply Z.ltb_lt in Hlt. rewrite Hlt. reflexivity.
Qed.

(** A 36-bit machine and a driver that answers 2^36: no error. *)
Lemma va2pa_error_code_witness :
  fst (va2pa (env_of maxsize64 [IoData (le_encode 8 (2 ^ 36)); IoData cpuid_36_bits])
         0x7fff0000
         (started (env_of maxsize64
                     [IoData (le_encode 8 (2 ^ 36)); IoData cpuid_36_bits])))
  = Ok (2 ^ 36, 0, []).
Proof.
  apply (proj1 (proj2 (va2pa_error_code
           (env_of maxsize64 [IoData (le_encode 8 (2 ^ 36)); IoData cpuid_36_bits])
           (started (env_of maxsize64
                       [IoData (le_encode 8 (2 ^ 36)); IoData cpuid_36_bits]))
           PackQ 0xC0084300 0 0x7fff0000 (2 ^ 36) 0x3024 0 0 0
           (le_encode 8 0x7fff0000) (le_encode 8 (2 ^ 36))
           (flat_map (le_encode 8) [0x80000008; 0; 0; 0]) cpuid_36_bits
           eq_refl eq_refl eq_refl eq_refl eq_refl eq_refl eq_refl eq_refl eq_refl)));
    vm_compute; reflexivity.
Defined.

(** ** The message bus *)

(** X11: [msgbus_send_message] without data is
    [msgbus_send_read_message]; with data it sends both direction
    bits (mask 3) and returns word 4 of the answer; the write message
    sends mask 1 and decodes nothing of the answer. *)
Theorem msgbus_direction_masks (E : Env) (w : world) (p : packchar) (base pos : Z)
    (mcr mcrx mdr : Z) :
  _pack (self w) = Some p ->
  _ioctl_base (self w) = Some base ->
  dev_fh (self w) = Some pos ->
  msgbus_send_message E mcr mcrx None = msgbus_send_read_message E mcr mcrx /\
  (forall buf out t0 t1 t2 t3 t4,
      struct_pack p 5 [3; mcr; mcrx; mdr; 0] = Ok buf ->
      drv_ioctl E (trace w) (base + IOCTL_MSGBUS_SEND_MESSAGE) buf = IoData out ->
      struct_unpack p 5 out = Ok [t0; t1; t2; t3; t4] ->
      msgbus_send_message E mcr mcrx (Some mdr) w =
        (Ok t4,
         {| self := self w;
            trace := trace w ++ [EvIoctl (base + IOCTL_MSGBUS_SEND_MESSAGE) buf
                                   (IoData out)] |})) /\
  (forall buf out,
      struct_pack p 5 [1; mcr; mcrx; mdr; 0] = Ok buf ->
      drv_ioctl E (trace w) (base + IOCTL_MSGBUS_SEND_MESSAGE) buf = IoData out ->
      msgbus_send_write_message E mcr mcrx mdr w =
        (Ok tt,
         {| self := self w;
            trace := trace w ++ [EvIoctl (base + IOCTL_MSGBUS_SEND_MESSAGE) buf
                                   (IoData out)] |})).
Proof.
  intros Hp Hb Hf. split; [reflexivity|]. split.
  - intros buf out t0 t1 t2 t3 t4 Hpack Hdrv Hun.
    unfold msgbus_send_message.
    change (Z.lor MSGBUS_MDR_IN_MASK MSGBUS_MDR_OUT_MASK) with 3.
    session_call E Hp Hb Hf. rewrite Hdrv. answer_as_is. rewrite Hun. reflexivity.
  - intros buf out Hpack Hdrv.
    unfold msgbus_send_write_message. change MSGBUS_MDR_IN_MASK with 1.
    session_call E Hp Hb Hf. rewrite Hdrv. reflexivity.
Qed.

(** A write message whose answer is empty still succeeds. *)
Lemma msgbus_direction_masks_witness :
  fst (msgbus_send_write_message (env_of maxsize64 [IoData []]) 0x10 0 0xAB
         (started (env_of maxsize64 [IoData []]))) = Ok tt.
Proof.
  exact (f_equal fst
    (proj2 (proj2 (msgbus_direction_masks (env_of maxsize64 [IoData []])
                     (started (env_of maxsize64 [IoData []]))
                     PackQ 0xC0084300 0 0x10 0 0xAB eq_refl eq_refl eq_refl))
       (flat_map (le_encode 8) [1; 0x10; 0; 0xAB; 0]) [] eq_refl eq_refl)).
Defined.


(** ** UEFI variables: the requests *)

Lemma pack_set_first_word ds g attr n dl name value buf :
  pack_set ds g attr n dl name value = Ok buf -> first_word 4 buf = ds.
Proof.
  intros H. apply pack_set_inv in H as (ws & s1 & s2 & Hw & _ & _ & ->).
  pose proof (pack_words_first_word _ _ _ _ _ Hw) as Hfw.
  pose proof (pack_words_length _ _ _ _ Hw) as Hl.
  unfold first_word in *. rewrite firstn_app.
  replace (4 - length ws)%nat with 0%nat by lia.
  rewrite firstn_O, app_nil_r. exact Hfw.
Qed.

Lemma pack_get_size_word ds g n k name buf :
  pack_get ds g n k name = Ok buf -> 0 <= k -> ds = 52 + k ->
  first_word 4 buf = len buf.
Proof.
  intros H Hk ->. rewrite (pack_get_first_word _ _ _ _ _ _ H).
  unfold len. rewrite (pack_get_length _ _ _ _ _ _ H). lia.
Qed.

Lemma set_payload_datalen value : 0 <= fst (set_payload value).
Proof.
  unfold set_payload. destruct (truthy value); cbn [fst]; [|lia].
  destruct value; cbn [pylen]; unfold len; lia.
Qed.

Ltac calls_tail :=
  cbn [snd trace]; rewrite <- ?app_assoc;
  match goal with
  | |- exists calls, ioctl_calls (trace ?w ++ ?l) = _ /\ _ =>
      exists (ioctl_calls l); split;
      [apply ioctl_calls_app
      |unfold size_word_ok; cbn [ioctl_calls flat_map app];
       repeat constructor; cbn [fst snd]; auto]
  | |- exists calls, ioctl_calls (trace ?w) = _ /\ _ =>
      exists []; split; [symmetry; apply app_nil_r|constructor]
  end.

Lemma get_size_words E name guid w :
  exists calls,
    ioctl_calls (trace (snd (kern_get_EFI_variable_full E name guid w)))
    = ioctl_calls (trace w) ++ calls /\ size_word_ok calls.
Proof.
  unfold kern_get_EFI_variable_full. run.
  destruct (parse_guid guid) as [g|]; [|calls_tail].
  destruct (pack_get (52 + len name) g (len name) (len name) name) as [in_buf|] eqn:Hpack;
    [|calls_tail].
  assert (H1 : first_word 4 in_buf = len in_buf).
  { apply (pack_get_size_word _ _ _ _ _ _ Hpack); unfold len; lia. }
  destruct (ioctl_cases E IOCTL_GET_EFIVAR (Mutable in_buf) w eq_refl)
    as [[_ ->]|[[_ ->]|(base & pos & Hb & Hf & ->)]]; try calls_tail.
  cbv zeta. cbn [ioarg_bytes].
  destruct (drv_ioctl E (trace w) _ in_buf) as [|d]; [calls_tail|].
  destruct (unpack_size_status_total (overwrite in_buf d)) as (N & st & Hu & _ & HN & _).
  { rewrite overwrite_length, (pack_get_length _ _ _ _ _ _ Hpack). lia. }
  rewrite Hu.
  destruct (st =? 5).
  - destruct (pack_get (N + 52 + len name) g (len name) (len name + N) name)
      as [in_buf2|] eqn:Hpack2; [|calls_tail].
    assert (H2 : first_word 4 in_buf2 = len in_buf2).
    { apply (pack_get_size_word _ _ _ _ _ _ Hpack2); unfold len; lia. }
    unfold ioctl. run. rewrite Hb. run. rewrite Hf. cbn [oversized]. run.
    cbn [ioarg_bytes].
    destruct (drv_ioctl E _ _ in_buf2) as [|d2]; cbn [is_IOError]; [calls_tail|].
    destruct (unpack_size_status (overwrite in_buf2 d2)) as [[N2 st2]|]; [|calls_tail].
    destruct (_ <? N2); [calls_tail|]. destruct (0 <? st2); [calls_tail|].
    destruct (unpack_words 4 1 _) as [a|]; [|calls_tail].
    destruct (item a 0); calls_tail.
  - destruct (_ <? N); [calls_tail|]. destruct (0 <? st); [calls_tail|].
    destruct (unpack_words 4 1 _) as [a|]; [|calls_tail].
    destruct (item a 0); calls_tail.
Qed.

Lemma set_size_words E name guid value attr w :
  exists calls,
    ioctl_calls (trace (snd (kern_set_EFI_variable E name guid value attr w)))
    = ioctl_calls (trace w) ++ calls /\ size_word_ok calls.
Proof.
  unfold kern_set_EFI_variable.
  pose proof (set_payload_datalen value) as Hdl.
  destruct (set_payload value) as [datalen value']. cbn [fst] in Hdl. run.
  destruct (parse_guid guid) as [g|]; [|calls_tail].
  destruct (pack_set _ g attr (len name) datalen name value') as [in_buf|] eqn:Hpack;
    [|calls_tail].
  assert (H1 : first_word 4 in_buf = len in_buf).
  { rewrite (pack_set_first_word _ _ _ _ _ _ _ _ Hpack).
    destruct (pack_set_words _ _ _ _ _ _ _ _ Hpack) as [_ Hl].
    unfold len in *. rewrite Hl. lia. }
  destruct (ioctl_cases E IOCTL_SET_EFIVAR (Mutable in_buf) w eq_refl)
    as [[_ ->]|[[_ ->]|(base & pos & Hb & Hf & ->)]]; try calls_tail.
  cbv zeta. cbn [ioarg_bytes].
  destruct (drv_ioctl E (trace w) _ in_buf) as [|d]; [calls_tail|].
  destruct (unpack_size_status (overwrite in_buf d)) as [[size status]|]; [|calls_tail].
  destruct (status =? 0); cbn [negb]; run; calls_tail.
Qed.

(** X12: every request that GET (probe and retry) or SET sends has its
    own length in bytes in its first word, the [data_size] field, for
    every name, GUID, value and driver. *)
Theorem efi_requests_carry_their_size (E : Env) (name guid : pystr) (value : pyvalue)
    (attr : Z) (w : world) :
  (exists calls,
      ioctl_calls (trace (snd (kern_get_EFI_variable_full E name guid w)))
      = ioctl_calls (trace w) ++ calls /\ size_word_ok calls) /\
  (exists calls,
      ioctl_calls (trace (snd (kern_set_EFI_variable E name guid value attr w)))
      = ioctl_calls (trace w) ++ calls /\ size_word_ok calls).
Proof.
  split; [apply get_size_words|apply set_size_words].
Qed.

Lemma int16_raise s e : int16 s = Raise e -> e = ValueError.
Proof.
  unfold int16. destruct (strip_sign (lstrip s)) as [sign s1].
  destruct (starts_with_underscore _); [congruence|].
  destruct (scan_digits _ _ _ _) as [[[[v nd] prev] rest]|]; [|congruence].
  destruct nd; [congruence|]. destruct prev; try congruence.
  destruct (lstrip rest); congruence.
Qed.

Lemma parse_guid_short guid :
  (length guid <= 34)%nat -> parse_guid guid = Raise ValueError.
Proof.
  intros Hl. unfold parse_guid.
  assert (Hlast : int16 (slice guid (Some 34) None) = Raise ValueError).
  { rewrite slice_from by lia. rewrite skipn_all2 by (change (Z.to_nat 34) with 34%nat; lia).
    reflexivity. }
  rewrite Hlast.
  repeat match goal with
         | |- context [int16 ?s] =>
             let H := fresh "H" in
             destruct (int16 s) eqn:H;
             [cbn [rbind]|apply int16_raise in H; subst; reflexivity]
         end.
  reflexivity.
Qed.

(** X13: a GUID string of fewer than 35 characters (the empty string
    too) makes GET and SET raise [ValueError] before anything is sent:
    the world is left as it was. *)
Theorem short_guid_rejected (E : Env) (name guid : pystr) (value : pyvalue) (attr : Z)
    (w : world) :
  (length guid <= 34)%nat ->
  kern_get_EFI_variable_full E name guid w = (Raise ValueError, w) /\
  kern_set_EFI_variable E name guid value attr w = (Raise ValueError, w).
Proof.
  intros Hl. pose proof (parse_guid_short guid Hl) as Hp. split.
  - unfold kern_get_EFI_variable_full. run. rewrite Hp. reflexivity.
  - unfold kern_set_EFI_variable. destruct (set_payload value). run.
    rewrite Hp. reflexivity.
Qed.

Lemma short_guid_rejected_witness :
  kern_get_EFI_variable_full (env_of maxsize64 []) (str "Boot") (str "8be4df61")
    (started (env_of maxsize64 [])) = (Raise ValueError, started (env_of maxsize64 [])).
Proof.
  apply (short_guid_rejected (env_of maxsize64 []) (str "Boot") (str "8be4df61")
           VNone 0x7 (started (env_of maxsize64 []))).
  vm_compute. lia.
Defined.


(** ** UEFI variables: the outcomes of GET *)

(** X14: a failed control call is treated differently in the two
    phases of GET: on the probe the [IOError] goes out to the caller,
    on the retry it is logged and GET returns with [data = None]. *)
Theorem get_IOError_by_phase (E : Env) (w : world) (base pos : Z) (name guid : pystr)
    (g : list Z) (in_buf : bytes) :
  _ioctl_base (self w) = Some base ->
  dev_fh (self w) = Some pos ->
  parse_guid guid = Ok g ->
  pack_get (52 + len name) g (len name) (len name) name = Ok in_buf ->
  (drv_ioctl E (trace w) (base + IOCTL_GET_EFIVAR) in_buf = IoFail ->
   kern_get_EFI_variable_full E name guid w =
     (Raise IOError,
      {| self := self w;
         trace := trace w ++ [EvIoctl (base + IOCTL_GET_EFIVAR) in_buf IoFail] |})) /\
  (forall d N in_buf2,
      drv_ioctl E (trace w) (base + IOCTL_GET_EFIVAR) in_buf = IoData d ->
      unpack_size_status (overwrite in_buf d) = Ok (N, 5) ->
      pack_get (N + 52 + len name) g (len name) (len name + N) name = Ok in_buf2 ->
      drv_ioctl E (trace w ++ [EvIoctl (base + IOCTL_GET_EFIVAR) in_buf (IoData d)])
        (base + IOCTL_GET_EFIVAR) in_buf2 = IoFail ->
      kern_get_EFI_variable_full E name guid w =
        (Ok (mk_get_result 0 [] 0 VNone (GuidStr guid) 0),
         {| self := self w;
            trace := trace w ++ [EvIoctl (base + IOCTL_GET_EFIVAR) in_buf (IoData d);
                                 EvIoctl (base + IOCTL_GET_EFIVAR) in_buf2 IoFail;
                                 EvLog MsgIoctlGetUEFIvar] |})).
Proof.
  intros Hb Hf Hparse Hpack. split.
  - intros Hdrv. unfold kern_get_EFI_variable_full. run. rewrite Hparse, Hpack.
    rewrite (ioctl_run E IOCTL_GET_EFIVAR (Mutable in_buf) w base pos Hb Hf eq_refl).
    cbv zeta. cbn [ioarg_bytes]. rewrite Hdrv. reflexivity.
  - intros d N in_buf2 Hdrv Hdecode Hpack2 Hdrv2.
    rewrite (get_retry E w base pos name guid g in_buf d N 5
               Hb Hf Hparse Hpack Hdrv Hdecode in_buf2 eq_refl Hpack2).
    cbv zeta. cbn [trace]. rewrite Hdrv2. rewrite <- !app_assoc. reflexivity.
Qed.

(** The driver answers the probe for Boot with BufferTooSmall and then
    fails. *)
Lemma get_IOError_by_phase_witness :
  fst (kern_get_EFI_variable_full (env_of maxsize64 [IoData too_small_4])
         (str "Boot") efi_global (started (env_of maxsize64 [IoData too_small_4])))
  = Ok (mk_get_result 0 [] 0 VNone (GuidStr efi_global) 0).
Proof.
  assert (Hparse : parse_guid efi_global = Ok (guid_fields efi_global))
    by (vm_compute; reflexivity).
  assert (Hpack : pack_get (52 + len (str "Boot")) (guid_fields efi_global)
                    (len (str "Boot")) (len (str "Boot")) (str "Boot") = Ok boot_probe)
    by (vm_compute; reflexivity).
  refine (f_equal fst
    (proj2 (get_IOError_by_phase (env_of maxsize64 [IoData too_small_4])
              (started (env_of maxsize64 [IoData too_small_4]))
              0xC0084300 0 (str "Boot") efi_global (guid_fields efi_global) boot_probe
              eq_refl eq_refl Hparse Hpack)
       too_small_4 4
       (match pack_get 60 (guid_fields efi_global) 4 8 (str "Boot") with
        | Ok b => b
        | Raise _ => []
        end) _ _ _ _)); vm_compute; reflexivity.
Defined.

Lemma attr_word buffer :
  (12 <= length buffer)%nat ->
  (a <~ unpack_words 4 1 (slice buffer (Some 8) (Some 12)) ;; item a 0)
  = Ok (le_decode (firstn 4 (skipn 8 buffer))).
Proof.
  intros Hl. unfold slice, norm_index, len.
  change (8 <? 0) with false. change (12 <? 0) with false. cbv iota.
  rewrite !Z.min_r by lia.
  change (Z.to_nat (12 - 8)) with 4%nat. change (Z.to_nat 8) with 8%nat.
  unfold unpack_words. rewrite length_firstn, length_skipn.
  replace (Nat.min 4 (length buffer - 8)) with 4%nat by lia.
  cbn [Nat.eqb Nat.mul Nat.add chunks map rbind item nth_error].
  rewrite firstn_firstn. reflexivity.
Qed.

Lemma slice_range {A : Type} (s : list A) (i j : Z) :
  0 <= i <= j -> slice s (Some i) (Some j)
  = firstn (Z.to_nat (Z.min (len s) j - Z.min (len s) i)) (skipn (Z.to_nat (Z.min (len s) i)) s).
Proof.
  intros Hij. unfold slice, norm_index.
  destruct (i <? 0) eqn:Hi; [apply Z.ltb_lt in Hi; lia|].
  destruct (j <? 0) eqn:Hj; [apply Z.ltb_lt in Hj; lia|].
  reflexivity.
Qed.

(** X15: when the retry of a GET answers status 0 with a size that
    does not exceed the request, GET returns the bytes of the answer
    from offset 12 on, [new_size] of them or as many as the buffer
    holds, with the attributes read from bytes 8 to 12 and the GUID as
    it was passed. *)
Theorem get_success_payload (E : Env) (w : world) (base pos : Z) (name guid : pystr)
    (g : list Z) (in_buf d in_buf2 d2 : bytes) (N N2 : Z) :
  _ioctl_base (self w) = Some base ->
  dev_fh (self w) = Some pos ->
  parse_guid guid = Ok g ->
  pack_get (52 + len name) g (len name) (len name) name = Ok in_buf ->
  drv_ioctl E (trace w) (base + IOCTL_GET_EFIVAR) in_buf = IoData d ->
  unpack_size_status (overwrite in_buf d) = Ok (N, 5) ->
  pack_get (N + 52 + len name) g (len name) (len name + N) name = Ok in_buf2 ->
  drv_ioctl E (trace w ++ [EvIoctl (base + IOCTL_GET_EFIVAR) in_buf (IoData d)])
    (base + IOCTL_GET_EFIVAR) in_buf2 = IoData d2 ->
  unpack_size_status (overwrite in_buf2 d2) = Ok (N2, 0) ->
  N2 <= N + 52 + len name ->
  let buffer := overwrite in_buf2 d2 in
  let data := firstn (Z.to_nat N2) (skipn 12 buffer) in
  fst (kern_get_EFI_variable_full E name guid w) =
    Ok (mk_get_result 0 [] 0 (VBytes data) (GuidStr guid)
          (le_decode (firstn 4 (skipn 8 buffer)))) /\
  len data = Z.min N2 (len buffer - 12) /\
  kern_get_EFI_variable E name guid w =
    (Ok (VBytes data), snd (kern_get_EFI_variable_full E name guid w)).
Proof.
  intros Hb Hf Hparse Hpack Hdrv Hdecode Hpack2 Hdrv2 Hdecode2 Hle buffer data.
  assert (HN2 : 0 <= N2).
  { destruct (unpack_size_status_total (overwrite in_buf2 d2))
      as (N' & st' & Hu & _ & H0 & _).
    - rewrite overwrite_length, (pack_get_length _ _ _ _ _ _ Hpack2). lia.
    - rewrite Hdecode2 in Hu. injection Hu as <- _. exact H0. }
  assert (Hlen : (52 <= length buffer)%nat).
  { subst buffer. rewrite overwrite_length, (pack_get_length _ _ _ _ _ _ Hpack2). lia. }
  assert (Hrun : kern_get_EFI_variable_full E name guid w =
            (Ok (mk_get_result 0 [] 0 (VBytes data) (GuidStr guid)
                   (le_decode (firstn 4 (skipn 8 buffer)))),
             {| self := self w;
                trace := (trace w ++ [EvIoctl (base + IOCTL_GET_EFIVAR) in_buf (IoData d)])
                         ++ [EvIoctl (base + IOCTL_GET_EFIVAR) in_buf2 (IoData d2)] |})).
  { rewrite (get_retry E w base pos name guid g in_buf d N 5
               Hb Hf Hparse Hpack Hdrv Hdecode in_buf2 eq_refl Hpack2).
    cbv zeta. cbn [trace]. rewrite Hdrv2, Hdecode2.
    apply Z.ltb_ge in Hle. rewrite Hle. cbn [Z.ltb Z.compare]. fold buffer.
    rewrite (attr_word buffer) by lia.
    rewrite slice_range by lia. unfold len.
    rewrite !(Z.min_r _ 12) by lia.
    replace (Z.to_nat (Z.min (Z.of_nat (length buffer)) (12 + N2) - 12))
      with (Nat.min (Z.to_nat N2) (length buffer - 12)) by lia.
    change (Z.to_nat 12) with 12%nat.
    replace (firstn (Nat.min (Z.to_nat N2) (length buffer - 12)) (skipn 12 buffer))
      with data; [reflexivity|].
    subst data. rewrite <- (firstn_all (skipn 12 buffer)) at 1.
    rewrite firstn_firstn, length_skipn. reflexivity. }
  split; [rewrite Hrun; reflexivity|]. split.
  - subst data. unfold len. rewrite length_firstn, length_skipn. lia.
  - unfold kern_get_EFI_variable. run. rewrite Hrun. reflexivity.
Qed.

Lemma get_success_payload_witness :
  fst (kern_get_EFI_variable (env_of maxsize64 [IoData too_small_4; IoData success_4])
         (str "Boot") efi_global
         (started (env_of maxsize64 [IoData too_small_4; IoData success_4])))
  = Ok (VBytes [x01; x02; x03; x04]).
Proof.
  assert (Hparse : parse_guid efi_global = Ok (guid_fields efi_global))
    by (vm_compute; reflexivity).
  assert (Hpack : pack_get (52 + len (str "Boot")) (guid_fields efi_global)
                    (len (str "Boot")) (len (str "Boot")) (str "Boot") = Ok boot_probe)
    by (vm_compute; reflexivity).
  refine (f_equal fst
    (proj2 (proj2 (get_success_payload
              (env_of maxsize64 [IoData too_small_4; IoData success_4])
              (started (env_of maxsize64 [IoData too_small_4; IoData success_4]))
              0xC0084300 0 (str "Boot") efi_global (guid_fields efi_global) boot_probe
              too_small_4
              (match pack_get 60 (guid_fields efi_global) 4 8 (str "Boot") with
               | Ok b => b
               | Raise _ => []
               end) success_4 4 4
              eq_refl eq_refl Hparse Hpack _ _ _ _ _ _)))); vm_compute;
    try reflexivity; discriminate.
Defined.


Lemma status_name_unknown st :
  ~ In st (map fst status_dict) -> status_name st = "UNKNOWN"%string.
Proof.
  intros Hn. unfold status_name.
  destruct (find (fun kv => fst kv =? st) status_dict) as [kv|] eqn:Hfind; [|reflexivity].
  apply find_some in Hfind as [Hin Heq]. apply Z.eqb_eq in Heq. subst st.
  exfalso. apply Hn. apply in_map, Hin.
Qed.

(** X16: when the driver answers the probe of a GET with a status
    other than success and BufferTooSmall (and a size within the
    request), GET does not raise: it logs the status under its name
    ("UNKNOWN" for a code outside the table) and returns the empty
    string as data, with the GUID replaced by 0 and the attributes 0. *)
Theorem get_failure_status (E : Env) (w : world) (base pos : Z) (name guid : pystr)
    (g : list Z) (in_buf d : bytes) (N st : Z) :
  _ioctl_base (self w) = Some base ->
  dev_fh (self w) = Some pos ->
  parse_guid guid = Ok g ->
  pack_get (52 + len name) g (len name) (len name) name = Ok in_buf ->
  drv_ioctl E (trace w) (base + IOCTL_GET_EFIVAR) in_buf = IoData d ->
  unpack_size_status (overwrite in_buf d) = Ok (N, st) ->
  st <> 0 -> st <> 5 -> N <= 52 + len name ->
  kern_get_EFI_variable_full E name guid w =
    (Ok (mk_get_result 0 [] 0 (VStr []) (GuidInt 0) 0),
     {| self := self w;
        trace := trace w ++ [EvIoctl (base + IOCTL_GET_EFIVAR) in_buf (IoData d);
                             EvLog (MsgGetFailed (status_name st) st)] |}) /\
  (st = 14 -> status_name st = "EFI_NOT_FOUND"%string) /\
  (~ In st [0; 1; 2; 3; 4; 5; 6; 7; 8; 9; 14; 26] -> status_name st = "UNKNOWN"%string).
Proof.
  intros Hb Hf Hparse Hpack Hdrv Hdecode H0 H5 Hle.
  assert (Hst : 0 <= st).
  { destruct (unpack_size_status_total (overwrite in_buf d))
      as (N' & st' & Hu & _ & _ & Hs).
    - rewrite overwrite_length, (pack_get_length _ _ _ _ _ _ Hpack). lia.
    - rewrite Hdecode in Hu. injection Hu as _ <-. exact Hs. }
  split; [|split].
  - rewrite (get_probe_final E w base pos name guid g in_buf d N st
               Hb Hf Hparse Hpack Hdrv Hdecode H5).
    apply Z.ltb_ge in Hle. rewrite Hle.
    assert (Hpos : (0 <? st) = true) by (apply Z.ltb_lt; lia).
    rewrite Hpos. cbn [trace]. rewrite <- app_assoc. reflexivity.
  - intros ->. reflexivity.
  - apply status_name_unknown.
Qed.

Lemma get_failure_status_witness :
  fst (kern_get_EFI_variable_full (env_of maxsize64 [IoData not_found])
         (str "Boot") efi_global (started (env_of maxsize64 [IoData not_found])))
  = Ok (mk_get_result 0 [] 0 (VStr []) (GuidInt 0) 0).
Proof.
  assert (Hparse : parse_guid efi_global = Ok (guid_fields efi_global))
    by (vm_compute; reflexivity).
  assert (Hpack : pack_get (52 + len (str "Boot")) (guid_fields efi_global)
                    (len (str "Boot")) (len (str "Boot")) (str "Boot") = Ok boot_probe)
    by (vm_compute; reflexivity).
  refine (f_equal fst
    (proj1 (get_failure_status (env_of maxsize64 [IoData not_found])
              (started (env_of maxsize64 [IoData not_found]))
              0xC0084300 0 (str "Boot") efi_global (guid_fields efi_global) boot_probe
              not_found 0 14 eq_refl eq_refl Hparse Hpack _ _ _ _ _)));
    vm_compute; try reflexivity; discriminate.
Defined.

(** ** UEFI variables: what SET and GET pack *)

Lemma pack_words_raise w n args e : pack_words w n args = Raise e -> e = StructError.
Proof.
  unfold pack_words. destruct (negb _); [congruence|].
  destruct (forallb _ _); congruence.
Qed.

(** X17: SET takes its value as bytes only: a non-empty [str] value
    makes it raise [struct.error] before anything is sent. *)
Theorem set_str_value_rejected (E : Env) (name guid : pystr) (g : list Z)
    (c : ascii) (s : pystr) (attr datasize : Z) (attrs : option Z) (w : world) :
  parse_guid guid = Ok g ->
  kern_set_EFI_variable E name guid (VStr (c :: s)) attr w = (Raise StructError, w) /\
  set_EFI_variable E name guid (VStr (c :: s)) datasize attrs w = (Raise StructError, w).
Proof.
  intros Hparse.
  assert (H : forall a, kern_set_EFI_variable E name guid (VStr (c :: s)) a w
                        = (Raise StructError, w)).
  { intros a. unfold kern_set_EFI_variable, set_payload. cbn [truthy pylen]. run.
    rewrite Hparse. unfold pack_set.
    destruct (pack_words 4 15 _) as [ws|e] eqn:Hw; cbn [rbind pack_s].
    - reflexivity.
    - apply pack_words_raise in Hw. subst e. reflexivity. }
  split; [apply H|]. unfold set_EFI_variable. apply H.
Qed.

Lemma set_str_value_rejected_witness :
  kern_set_EFI_variable (env_of maxsize64 []) (str "Boot") efi_global (VStr (str "x")) 0x7
    (started (env_of maxsize64 []))
  = (Raise StructError, started (env_of maxsize64 [])).
Proof.
  apply (proj1 (set_str_value_rejected (env_of maxsize64 []) (str "Boot") efi_global
                  (guid_fields efi_global) "x"%char [] 0x7 1 None
                  (started (env_of maxsize64 [])) eq_refl)).
Defined.

Lemma encode_char_length c :
  length (encode_char c) = if non_ascii c then 2%nat else 1%nat.
Proof.
  unfold encode_char, non_ascii.
  destruct (Z.of_N (N_of_ascii c) <? 128) eqn:Hlt.
  - apply Z.ltb_lt in Hlt.
    destruct (128 <=? N_of_ascii c)%N eqn:Hge; [apply N.leb_le in Hge; lia|reflexivity].
  - apply Z.ltb_ge in Hlt.
    destruct (128 <=? N_of_ascii c)%N eqn:Hge; [reflexivity|apply N.leb_gt in Hge; lia].
Qed.

Lemma encode_length_ascii name :
  forallb (fun c => negb (non_ascii c)) name = true -> length (encode name) = length name.
Proof.
  induction name as [|c name IH]; intros H; [reflexivity|].
  cbn [forallb] in H. apply andb_true_iff in H as [Hc H].
  unfold encode in *. cbn [flat_map]. rewrite length_app, encode_char_length.
  apply negb_true_iff in Hc. rewrite Hc. cbn [length]. rewrite IH by exact H. reflexivity.
Qed.

Lemma encode_length_ge name : (length name <= length (encode name))%nat.
Proof.
  induction name as [|c name IH]; [reflexivity|].
  unfold encode in *. cbn [flat_map length]. rewrite length_app, encode_char_length.
  destruct (non_ascii c); lia.
Qed.

Lemma encode_length_non_ascii name :
  existsb non_ascii name = true -> (length name < length (encode name))%nat.
Proof.
  induction name as [|c name IH]; intros H; [discriminate|].
  cbn [existsb] in H. unfold encode in *. cbn [flat_map length].
  rewrite length_app, encode_char_length.
  pose proof (encode_length_ge name) as Hge. unfold encode in Hge.
  destruct (non_ascii c); [lia|]. cbn [orb] in H. specialize (IH H). lia.
Qed.

(** X19: the name field of a GET request is as many bytes wide as the
    name has characters, and holds the front of the UTF-8 encoding of
    the name: all of it for an ASCII name; for a name with a character
    outside ASCII the encoding is longer than the field and its end is
    cut off. *)
Theorem name_field_counts_characters (E : Env) (w : world) (base pos : Z)
    (name guid : pystr) (g : list Z) (in_buf : bytes) :
  _ioctl_base (self w) = Some base ->
  dev_fh (self w) = Some pos ->
  parse_guid guid = Ok g ->
  pack_get (52 + len name) g (len name) (len name) name = Ok in_buf ->
  (exists reply rest,
      trace (snd (kern_get_EFI_variable_full E name guid w)) =
        trace w ++ EvIoctl (base + IOCTL_GET_EFIVAR) in_buf reply :: rest) /\
  skipn 52 in_buf = firstn (length name) (encode name) /\
  (forallb (fun c => negb (non_ascii c)) name = true -> skipn 52 in_buf = encode name) /\
  (existsb non_ascii name = true ->
   (length (skipn 52 in_buf) < length (encode name))%nat).
Proof.
  intros Hb Hf Hparse Hpack.
  assert (Hfield : skipn 52 in_buf = firstn (length name) (encode name)).
  { pose proof Hpack as Hinv.
    apply pack_get_inv in Hinv as (ws & s & Hw & Hs & ->).
    pose proof (pack_words_length _ _ _ _ Hw) as Hl.
    rewrite skipn_app. replace (52 - length ws)%nat with 0%nat by lia.
    rewrite skipn_all2 by lia. cbn [app skipn].
    cbn [pack_s] in Hs. injection Hs as <-. unfold len. rewrite Nat2Z.id.
    pose proof (encode_length_ge name).
    replace (length name - length (encode name))%nat with 0%nat by lia.
    cbn [repeat]. apply app_nil_r. }
  split; [|split; [exact Hfield|split]].
  - destruct (get_first_request E w base pos name guid g in_buf Hb Hf Hparse Hpack)
      as [rest Hrest]. eauto.
  - intros Hascii. rewrite Hfield. apply firstn_all2.
    rewrite (encode_length_ascii name Hascii). lia.
  - intros Hnon. rewrite Hfield, length_firstn.
    pose proof (encode_length_non_ascii name Hnon). lia.
Qed.


Lemma name_field_counts_characters_witness :
  skipn 52 accented_probe = firstn (length accented_name) (encode accented_name) /\
  (length (skipn 52 accented_probe) < length (encode accented_name))%nat.
Proof.
  assert (Hparse : parse_guid efi_global = Ok (guid_fields efi_global))
    by (vm_compute; reflexivity).
  assert (Hpack : pack_get (52 + len accented_name) (guid_fields efi_global)
                    (len accented_name) (len accented_name) accented_name
                  = Ok accented_probe)
    by (vm_compute; reflexivity).
  destruct (name_field_counts_characters (env_of maxsize64 [])
              (started (env_of maxsize64 [])) 0xC0084300 0 accented_name efi_global
              (guid_fields efi_global) accented_probe eq_refl eq_refl Hparse Hpack)
    as (_ & Hfield & _ & Hcut).
  split; [exact Hfield|]. apply Hcut. vm_compute. reflexivity.
Defined.

(** X18: SET hands back the status word of the driver's answer
    whatever it is; it runs the remount command exactly when that
    status is 0 and logs the failure otherwise, and in both cases the
    driver was called once. *)
Theorem set_status_outcome (E : Env) (w : world) (base pos : Z) (name guid : pystr)
    (value : pyvalue) (attr : Z) (g : list Z) (in_buf d : bytes) (size status : Z) :
  _ioctl_base (self w) = Some base ->
  dev_fh (self w) = Some pos ->
  parse_guid guid = Ok g ->
  pack_set (60 + len name + fst (set_payload value)) g attr (len name)
           (fst (set_payload value)) name (snd (set_payload value)) = Ok in_buf ->
  drv_ioctl E (trace w) (base + IOCTL_SET_EFIVAR) in_buf = IoData d ->
  unpack_size_status (overwrite in_buf d) = Ok (size, status) ->
  exists last,
    kern_set_EFI_variable E name guid value attr w =
      (Ok status,
       {| self := self w;
          trace := trace w ++ [EvIoctl (base + IOCTL_SET_EFIVAR) in_buf (IoData d); last] |}) /\
    (status = 0 -> last = EvSystem remount_cmd) /\
    (status <> 0 -> last = EvLog (MsgSetFailed (status_name status) status)).
Proof.
  intros Hb Hf Hparse Hpack Hdrv Hdecode.
  pose proof (kern_set_run E w base pos name guid value attr g in_buf Hb Hf Hparse Hpack)
    as Hrun.
  cbv zeta in Hrun. rewrite Hdrv, Hdecode in Hrun. cbn [trace] in Hrun.
  rewrite <- app_assoc in Hrun. cbn [app] in Hrun.
  eexists. split; [exact Hrun|]. split; intros Hs.
  - subst status. reflexivity.
  - apply Z.eqb_neq in Hs. rewrite Hs. reflexivity.
Qed.

Lemma set_status_outcome_witness :
  fst (kern_set_EFI_variable (env_of maxsize64 [IoData not_found]) (str "Boot") efi_global
         (VStr []) 0x7 (started (env_of maxsize64 [IoData not_found])))
  = Ok 14.
Proof.
  assert (Hparse : parse_guid efi_global = Ok (guid_fields efi_global))
    by (vm_compute; reflexivity).
  assert (Hpack : pack_set (60 + len (str "Boot") + fst (set_payload (VStr [])))
                    (guid_fields efi_global) 0x7 (len (str "Boot"))
                    (fst (set_payload (VStr []))) (str "Boot")
                    (snd (set_payload (VStr []))) = Ok boot_delete)
    by (vm_compute; reflexivity).
  assert (Hdrv : drv_ioctl (env_of maxsize64 [IoData not_found])
                   (trace (started (env_of maxsize64 [IoData not_found])))
                   (0xC0084300 + IOCTL_SET_EFIVAR) boot_delete = IoData not_found)
    by (vm_compute; reflexivity).
  assert (Hdec : unpack_size_status (overwrite boot_delete not_found) = Ok (0, 14))
    by (vm_compute; reflexivity).
  destruct (set_status_outcome (env_of maxsize64 [IoData not_found])
              (started (env_of maxsize64 [IoData not_found]))
              0xC0084300 0 (str "Boot") efi_global (VStr []) 0x7 (guid_fields efi_global)
              boot_delete not_found 0 14 eq_refl eq_refl Hparse Hpack Hdrv Hdec)
    as (last & Hrun & _).
  rewrite Hrun. reflexivity.
Defined.


(** ** LIST *)

Lemma dict_set_keys d name v :
  map fst (dict_set d name v) =
    if existsb (fun k => pystr_eqb k name) (map fst d) then map fst d
    else map fst d ++ [name].
Proof.
  induction d as [|[k x] r IH]; cbn [dict_set map fst existsb app]; [reflexivity|].
  destruct (pystr_eqb k name) eqn:Hk; cbn [orb map fst]; [reflexivity|].
  rewrite IH. destruct (existsb _ _); reflexivity.
Qed.

Lemma dict_set_one_record d name var :
  name <> [] -> one_record_each d -> one_record_each (dict_set d name [var]).
Proof.
  intros Hn [Hnd Hall]. split.
  - rewrite dict_set_keys.
    destruct (existsb _ _) eqn:Hex; [exact Hnd|].
    apply NoDup_app; [exact Hnd|repeat constructor; intros []|].
    intros k Hin [<-|[]].
    assert (Ht : existsb (fun k' => pystr_eqb k' name) (map fst d) = true).
    { apply existsb_exists. exists name. split; [exact Hin|apply pystr_eqb_eq; reflexivity]. }
    congruence.
  - induction Hall as [|[k x] r Hkx Hr IH]; cbn [dict_set].
    + constructor; [|constructor]. cbn [fst snd]. split; [exact Hn|eauto].
    + inversion Hnd; subst.
      destruct (pystr_eqb k name) eqn:Hk.
      * constructor; [|exact Hr]. cbn [fst snd] in *. split; [tauto|eauto].
      * constructor; [exact Hkx|]. apply IH. assumption.
Qed.

Lemma list_loop_one_record E varlist : forall variables w d,
  fst (list_loop E varlist variables w) = Ok d ->
  one_record_each variables -> one_record_each d.
Proof.
  induction varlist as [|v rest IH]; intros variables w d Hrun Hinv.
  - cbn in Hrun. injection Hrun as <-. exact Hinv.
  - cbn [list_loop] in Hrun.
    destruct (entry_name v) as [|c n] eqn:Hname; cbn [truthy] in Hrun.
    + eapply IH; eassumption.
    + unfold bind in Hrun.
      destruct (kern_get_EFI_variable_full E (c :: n) (entry_guid v) w) as [[var|e] w1];
        [|discriminate].
      rewrite dict_append_set in Hrun.
      eapply IH; [exact Hrun|]. apply dict_set_one_record; [discriminate|exact Hinv].
Qed.

(** X20: whatever the directory holds and whatever the driver answers,
    a dictionary that LIST returns has every name once, no empty name,
    and exactly one record in the list under each name. *)
Theorem list_one_record_per_name (E : Env) (w : world) (d : dict) :
  fst (kern_list_EFI_variables E w) = Ok (Some d) -> one_record_each d.
Proof.
  unfold kern_list_EFI_variables. intros Hrun.
  unfold bind at 1 in Hrun.
  destruct (try_except _ _ _ w) as [[[varlist|]|e] w1]; cbn [fst] in Hrun;
    try discriminate.
  unfold bind in Hrun.
  destruct (list_loop E varlist [] w1) as [[d'|e] w2] eqn:Hloop; [|discriminate].
  cbn in Hrun. injection Hrun as <-.
  apply (list_loop_one_record E varlist [] w1 d').
  - rewrite Hloop. reflexivity.
  - split; constructor.
Qed.


Lemma list_one_record_per_name_witness :
  one_record_each
    (listed (fst (kern_list_EFI_variables
                    (env_listing twice_boot [IoData not_found; IoData not_found])
                    (started (env_listing twice_boot
                                [IoData not_found; IoData not_found]))))).
Proof.
  apply (list_one_record_per_name
           (env_listing twice_boot [IoData not_found; IoData not_found])
           (started (env_listing twice_boot [IoData not_found; IoData not_found]))).
  vm_compute. reflexivity.
Defined.

Lemma list_loop_short E varlist : forall variables,
  Forall (fun v => (length v <= 37)%nat) varlist ->
  list_loop E varlist variables = ret variables.
Proof.
  induction varlist as [|v rest IH]; intros variables Hall; [reflexivity|].
  inversion Hall as [|? ? Hv Hrest]; subst. cbn [list_loop].
  assert (Hn : entry_name v = []).
  { rewrite entry_name_firstn. replace (length v - 37)%nat with 0%nat by lia. reflexivity. }
  rewrite Hn. cbn [truthy]. apply IH, Hrest.
Qed.

(** X21: with neither [efivars] nor [vars] LIST returns [None] and
    does nothing; if reading the directory raises, whatever the
    exception, LIST logs it and returns [None] too; a directory with
    no entry longer than 37 characters gives the empty dictionary
    (not [None]) without a call to the driver. *)
Theorem list_directory_cases (E : Env) (w : world) :
  (listed_dir E = None -> kern_list_EFI_variables E w = (Ok None, w)) /\
  (forall p e,
      listed_dir E = Some p -> os_listdir E p = Raise e ->
      kern_list_EFI_variables E w =
        (Ok None, {| self := self w; trace := trace w ++ [EvLog MsgListFailed] |})) /\
  (forall p varlist,
      listed_dir E = Some p -> os_listdir E p = Ok varlist ->
      Forall (fun v => (length v <= 37)%nat) varlist ->
      kern_list_EFI_variables E w = (Ok (Some []), w)).
Proof.
  unfold listed_dir, kern_list_EFI_variables.
  split; [|split].
  - destruct (os_isdir E "/sys/firmware/efi/efivars"); [discriminate|].
    destruct (os_isdir E "/sys/firmware/efi/vars"); [discriminate|]. reflexivity.
  - intros p e Hp Hl.
    destruct (os_isdir E "/sys/firmware/efi/efivars");
      [|destruct (os_isdir E "/sys/firmware/efi/vars"); [|discriminate]];
      injection Hp as <-; run; rewrite Hl; reflexivity.
  - intros p varlist Hp Hl Hshort.
    destruct (os_isdir E "/sys/firmware/efi/efivars");
      [|destruct (os_isdir E "/sys/firmware/efi/vars"); [|discriminate]];
      injection Hp as <-; run; rewrite Hl; cbn [fst snd];
      rewrite (list_loop_short E varlist [] Hshort); reflexivity.
Qed.

Lemma list_directory_cases_witness :
  kern_list_EFI_variables (env_listing [str "dump"; str "README"] [])
    (started (env_listing [str "dump"; str "README"] []))
  = (Ok (Some []), started (env_listing [str "dump"; str "README"] [])).
Proof.
  apply (proj2 (proj2 (list_directory_cases (env_listing [str "dump"; str "README"] [])
                         (started (env_listing [str "dump"; str "README"] []))))
           "/sys/firmware/efi/efivars"%string [str "dump"; str "README"]
           eq_refl eq_refl).
  repeat constructor.
Defined.

Lemma parse_guid_raise guid e : parse_guid guid = Raise e -> e = ValueError.
Proof.
  unfold parse_guid.
  repeat match goal with
         | |- context [int16 ?s] =>
             let H := fresh "H" in
             destruct (int16 s) eqn:H;
             [cbn [rbind]|apply int16_raise in H; subst; cbn [rbind]; congruence]
         end.
  discriminate.
Qed.

(** X22: LIST has no handler around the query of an entry: when the
    entries before [v] have been read and the last 36 characters of
    [v] do not parse as a GUID, LIST ends in [ValueError] and returns
    no dictionary, the variables already read included. *)
Theorem list_aborts_on_stray_entry (E : Env) (w w' : world) (p : string)
    (pre rest : list pystr) (v : pystr) (d : dict) :
  listed_dir E = Some p ->
  os_listdir E p = Ok (pre ++ v :: rest) ->
  list_loop E pre [] w = (Ok d, w') ->
  (37 < length v)%nat ->
  (forall g, parse_guid (entry_guid v) <> Ok g) ->
  kern_list_EFI_variables E w = (Raise ValueError, w').
Proof.
  intros Hp Hl Hpre Hlen Hbad.
  assert (Hname : truthy (VStr (entry_name v)) = true).
  { destruct (entry_name v) as [|c n] eqn:Hn; [|reflexivity].
    apply (f_equal (@length ascii)) in Hn.
    rewrite entry_name_firstn, length_firstn in Hn. cbn [length] in Hn. lia. }
  assert (Hparse : parse_guid (entry_guid v) = Raise ValueError).
  { destruct (parse_guid (entry_guid v)) as [g|e] eqn:Hg; [destruct (Hbad g); reflexivity|].
    apply parse_guid_raise in Hg. subst e. reflexivity. }
  assert (Hloop : list_loop E (pre ++ v :: rest) [] w = (Raise ValueError, w')).
  { rewrite (list_loop_app E pre (v :: rest) [] w d w' Hpre).
    cbn [list_loop]. rewrite Hname. unfold kern_get_EFI_variable_full. run.
    rewrite Hparse. reflexivity. }
  unfold listed_dir in Hp. unfold kern_list_EFI_variables.
  destruct (os_isdir E "/sys/firmware/efi/efivars");
    [|destruct (os_isdir E "/sys/firmware/efi/vars"); [|discriminate]];
    injection Hp as <-; run; rewrite Hl; cbn [fst snd]; rewrite Hloop; reflexivity.
Qed.

Lemma list_aborts_on_stray_entry_witness :
  fst (kern_list_EFI_variables (env_listing with_stray_file [IoData not_found])
         (started (env_listing with_stray_file [IoData not_found])))
  = Raise ValueError.
Proof.
  assert (Hpre : exists d w',
             list_loop (env_listing with_stray_file [IoData not_found])
               [str "Boot-8be4df61-93ca-11d2-aa0d-00e098032b8c"] []
               (started (env_listing with_stray_file [IoData not_found])) = (Ok d, w')).
  { eexists. eexists. vm_compute. reflexivity. }
  destruct Hpre as (d & w' & Hpre).
  rewrite (list_aborts_on_stray_entry (env_listing with_stray_file [IoData not_found])
             (started (env_listing with_stray_file [IoData not_found])) w'
             "/sys/firmware/efi/efivars"%string
             [str "Boot-8be4df61-93ca-11d2-aa0d-00e098032b8c"] []
             (str "a-file-that-is-no-variable-but-has-a-long-name") d
             eq_refl eq_refl Hpre).
  - reflexivity.
  - vm_compute. lia.
  - intros g. vm_compute. discriminate.
Defined.


(** ** Physical memory *)

Lemma lor_shift_add hi lo :
  0 <= lo < 2 ^ 32 -> Z.lor (Z.shiftl hi 32) lo = hi * 2 ^ 32 + lo.
Proof.
  intros Hlo. rewrite Z.shiftl_mul_pow2 by lia.
  assert (H0 : Z.land (hi * 2 ^ 32) lo = 0).
  { apply Z.bits_inj'. intros i Hi.
    rewrite Z.land_spec, Z.bits_0.
    destruct (Z.lt_ge_cases i 32) as [Hlow|Hhigh].
    - rewrite Z.mul_pow2_bits_low by lia. reflexivity.
    - destruct (Z.eq_dec lo 0) as [->|Hnz].
      + rewrite Z.bits_0. apply andb_false_r.
      + rewrite (Z.bits_above_log2 lo i), andb_false_r; [reflexivity|lia|].
        assert (Z.log2 lo < 32) by (apply Z.log2_lt_pow2; lia). lia. }
  rewrite <- Z.lxor_lor by exact H0. symmetry. apply Z.add_nocarry_lxor, H0.
Qed.

(** X23: a read and a write of physical memory that the handle
    carries out.  The address is [hi * 2^32 + lo]; the read returns
    the bytes the handle gave, however many, and leaves the position
    behind them; the write returns 1 whatever count the handle
    reported, after seek, write and flush in this order, and the
    [length] argument plays no part in it. *)
Theorem phys_mem_through_handle (E : Env) (w : world) (hi lo length pos : Z) :
  dev_fh (self w) = Some pos ->
  0 <= lo < 2 ^ 32 ->
  fh_seek E (trace w) (hi * 2 ^ 32 + lo) = Ok tt ->
  (forall data,
      fh_read E (trace w ++ [EvSeek (hi * 2 ^ 32 + lo)]) length = Ok data ->
      read_phys_mem E hi lo length w =
        (Ok (MemBytes data),
         {| self := at_pos (self w) (hi * 2 ^ 32 + lo + len data);
            trace := trace w ++ [EvSeek (hi * 2 ^ 32 + lo); EvRead length] |})) /\
  (forall newval n,
      fh_write E (trace w ++ [EvSeek (hi * 2 ^ 32 + lo)]) newval = Ok n ->
      fh_flush E (trace w ++ [EvSeek (hi * 2 ^ 32 + lo); EvWrite newval]) = Ok tt ->
      write_phys_mem E hi lo length (Some newval) w =
        (Ok (Some (MemInt 1)),
         {| self := at_pos (self w) (hi * 2 ^ 32 + lo + n);
            trace := trace w ++ [EvSeek (hi * 2 ^ 32 + lo); EvWrite newval; EvFlush] |})).
Proof.
  intros Hf Hlo Hseek. split.
  - intros data Hread.
    unfold read_phys_mem, dev_seek, mem_block, dev_read.
    rewrite (lor_shift_add hi lo Hlo). run. rewrite Hf. run. rewrite Hseek. run.
    rewrite Hread. run. rewrite <- app_assoc. reflexivity.
  - intros newval n Hwrite Hflush.
    unfold write_phys_mem, dev_seek, mem_block, dev_write, dev_flush.
    rewrite (lor_shift_add hi lo Hlo). run. rewrite Hf. run. rewrite Hseek. run.
    rewrite Hwrite. run. rewrite <- !app_assoc. cbn [app]. rewrite Hflush. reflexivity.
Qed.

Lemma phys_mem_through_handle_witness :
  fst (read_phys_mem (env_of maxsize64 []) 1 2 3 (started (env_of maxsize64 [])))
  = Ok (MemBytes [x00; x00; x00]).
Proof.
  assert (Hlo : 0 <= 2 < 2 ^ 32) by (split; [discriminate|reflexivity]).
  rewrite (proj1 (phys_mem_through_handle (env_of maxsize64 [])
                    (started (env_of maxsize64 [])) 1 2 3 0 eq_refl Hlo eq_refl)
             [x00; x00; x00] eq_refl).
  reflexivity.
Defined.

(** X24: without an open handle (as after [init(False)]) a read and a
    write of physical memory raise [AttributeError] and leave the
    world as it was: nothing is sought, read or written. *)
Theorem phys_mem_no_handle (E : Env) (w : world) (hi lo length : Z) (newval : bytes) :
  dev_fh (self w) = None ->
  read_phys_mem E hi lo length w = (Raise AttributeError, w) /\
  write_phys_mem E hi lo length (Some newval) w = (Raise AttributeError, w).
Proof.
  intros Hf. split.
  - unfold read_phys_mem, dev_seek. run. rewrite Hf. reflexivity.
  - unfold write_phys_mem, dev_seek. run. rewrite Hf. reflexivity.
Qed.

Lemma phys_mem_no_handle_witness :
  read_phys_mem (env_of maxsize64 []) 0 0x1000 4 (snd (init (env_of maxsize64 []) false world0))
  = (Raise AttributeError, snd (init (env_of maxsize64 []) false world0)).
Proof.
  apply (phys_mem_no_handle (env_of maxsize64 [])
           (snd (init (env_of maxsize64 []) false world0)) 0 0x1000 4 [x00]).
  reflexivity.
Defined.

(** ** Microcode update *)

(** X25: [load_ucode_update] never reaches the driver: the packing of
    its header raises [struct.error] when the thread id does not fit
    in a byte or the length of the update in 16 bits, and otherwise
    [array.array("c", ...)] raises [ValueError]; the world is left as
    it was. *)
Theorem load_ucode_update_raises (E : Env) (cpu_thread_id : Z) (ucode_update_buf : bytes)
    (w : world) :
  load_ucode_update E cpu_thread_id ucode_update_buf w =
    (Raise (if in_range 1 cpu_thread_id && in_range 2 (len ucode_update_buf)
            then ValueError else StructError), w).
Proof.
  unfold load_ucode_update, pack_BH. run.
  destruct (in_range 1 cpu_thread_id && in_range 2 (len ucode_update_buf)); reflexivity.
Qed.
